(** * Consistency engine of the task tracker: hierarchy, workflow status,
      sprint aggregates, activity log and burndown series.

    The development embeds the Mongoose models (models/task.ts,
    models/sprint.ts, the project model) and the controllers that act on
    them (task controller, controllers/sprint.ts, controllers/project.ts)
    as state transformers over an explicit document store.

    Store conventions, as Mongoose and MongoDB define them:
    - [doc.save()] runs the schema's [pre('save')] hooks in declaration
      order and then writes the document;
    - query operations ([findByIdAndUpdate], [updateMany],
      [findByIdAndDelete]) write directly: no [pre('save')] hook and no
      document-level [pre('deleteOne')] hook runs for them;
    - a write that has happened stays in the store when a later step of the
      same handler throws (there is no transaction);
    - a unique index makes an insert or update fail with a duplicate-key
      error when another document carries the same key. *)

From stdpp Require Import gmap strings list fin_maps.
From Stdlib Require Import ZArith.

Open Scope string_scope.
Open Scope Z_scope.

(** ** Data model *)

Abbreviation ObjectId := positive (only parsing).

Inductive TaskType := epic | task | subtask | story | bug.
Inductive Priority := low | medium | high | critical.

#[global] Instance TaskType_eq_dec : EqDecision TaskType.
Proof. solve_decision. Defined.
#[global] Instance Priority_eq_dec : EqDecision Priority.
Proof. solve_decision. Defined.

(** models/task.ts, [ITask].  Timestamps are milliseconds since the epoch.
    [dueDate], [timeSpent], [timeRemaining], [watchers], [created] and
    [updated] play no part in any hook and are left out. *)
Record Task := mkTask {
  task_name : string;
  task_description : string;
  task_priority : Priority;
  task_type : TaskType;
  task_status : string;
  task_project : ObjectId;
  task_sprint : option ObjectId;
  task_reporter : option ObjectId;
  task_assignee : ObjectId;
  task_storyPoints : option Z;
  task_completedAt : option Z;
  task_parentTask : option ObjectId
}.

(** models/sprint.ts, [ISprint]. *)
Inductive SprintStatus := planning | active | completed | cancelled.

Record Sprint := mkSprint {
  sprint_name : string;
  sprint_project : ObjectId;
  sprint_startDate : Z;
  sprint_endDate : Z;
  sprint_status : SprintStatus;
  sprint_tasks : list ObjectId;
  sprint_completedTasks : nat;
  sprint_totalTasks : nat
}.

(** Project model, [IBoardColumn] and [IProject]. *)
Record BoardColumn := mkColumn {
  col_id : ObjectId;
  col_name : string;
  col_order : nat
}.

Record Project := mkProject {
  project_name : string;
  project_boardColumns : list BoardColumn;
  project_startDate : option Z;
  project_endDate : option Z;
  project_updated : Z
}.

(** One key of an update body together with its new value. *)
Inductive FieldValue :=
  | FName (s : string)
  | FDescription (s : string)
  | FPriority (p : Priority)
  | FType (ty : TaskType)
  | FStatus (s : string)
  | FProject (p : ObjectId)
  | FSprint (s : option ObjectId)
  | FReporter (r : option ObjectId)
  | FAssignee (a : ObjectId)
  | FStoryPoints (n : option Z)
  | FCompletedAt (d : option Z)
  | FParentTask (p : option ObjectId).

#[global] Instance FieldValue_eq_dec : EqDecision FieldValue.
Proof. solve_decision. Defined.

(** The task controller's [ActivityLog]. *)
Record Activity := mkActivity {
  act_user : option ObjectId;
  act_action : string;
  act_taskId : ObjectId;
  act_project : ObjectId;
  act_details : option string;
  act_fieldChanged : option string;
  act_oldValue : option FieldValue;
  act_newValue : option FieldValue;
  act_timestamp : Z
}.

(** A thrown JavaScript error: its [name] and its [message]. *)
Record Error := Err { err_name : string; err_message : string }.

(** The document store.  [activityRejects] says whether the activity
    collection refuses a given entry, and with which error (validation or
    storage may fail); [clock] is what [new Date()] reads; [nextId] is the
    ObjectId generator. *)
Record World := mkWorld {
  tasks : gmap positive Task;
  sprints : gmap positive Sprint;
  projects : gmap positive Project;
  users : gset positive;
  activities : list Activity;
  activityRejects : Activity -> option Error;
  clock : Z;
  nextId : positive
}.

Definition set_tasks (f : gmap positive Task -> gmap positive Task) (w : World) : World :=
  mkWorld (f (tasks w)) (sprints w) (projects w) (users w) (activities w)
          (activityRejects w) (clock w) (nextId w).

Definition set_sprints (f : gmap positive Sprint -> gmap positive Sprint) (w : World) : World :=
  mkWorld (tasks w) (f (sprints w)) (projects w) (users w) (activities w)
          (activityRejects w) (clock w) (nextId w).

Definition set_projects (f : gmap positive Project -> gmap positive Project) (w : World) : World :=
  mkWorld (tasks w) (sprints w) (f (projects w)) (users w) (activities w)
          (activityRejects w) (clock w) (nextId w).

Definition set_activities (f : list Activity -> list Activity) (w : World) : World :=
  mkWorld (tasks w) (sprints w) (projects w) (users w) (f (activities w))
          (activityRejects w) (clock w) (nextId w).

Definition set_activityRejects (g : Activity -> option Error) (w : World) : World :=
  mkWorld (tasks w) (sprints w) (projects w) (users w) (activities w)
          g (clock w) (nextId w).

Definition bump_nextId (w : World) : World :=
  mkWorld (tasks w) (sprints w) (projects w) (users w) (activities w)
          (activityRejects w) (clock w) (Pos.succ (nextId w)).

(** ** Store computations

    A computation reads and writes the store and either returns a value or
    throws an [Error].  The store it leaves behind is kept in both cases. *)

Definition Db (A : Type) : Type := World -> (Error + A) * World.

Definition ret {A} (a : A) : Db A := fun w => (inr a, w).
Definition throwErr {A} (e : Error) : Db A := fun w => (inl e, w).
(** [throw new Error(msg)] *)
Definition throw {A} (msg : string) : Db A := throwErr (Err "Error" msg).
Definition bind {A B} (m : Db A) (k : A -> Db B) : Db B :=
  fun w => match m w with
           | (inl e, w') => (inl e, w')
           | (inr a, w') => k a w'
           end.
Definition gets {A} (f : World -> A) : Db A := fun w => (inr (f w), w).
Definition modify (f : World -> World) : Db unit := fun w => (inr tt, f w).
(** [try { m } catch (error) { h error }] *)
Definition try_catch {A} (m : Db A) (h : Error -> Db A) : Db A :=
  fun w => match m w with
           | (inl e, w') => h e w'
           | (inr a, w') => (inr a, w')
           end.

Declare Scope db_scope.
Delimit Scope db_scope with db.
Notation "'do' x <~ m 'in' k" := (bind m (fun x => k))
  (at level 10, x name, m at level 100, k at level 200) : db_scope.
Notation "'run' m 'in' k" := (bind m (fun _ => k))
  (at level 10, m at level 100, k at level 200) : db_scope.
Open Scope db_scope.

(** [new mongoose.Types.ObjectId()] *)
Definition newObjectId : Db positive :=
  fun w => (inr (nextId w), bump_nextId w).

(** ** models/task.ts *)

(** [$set] of one field; also used for the assignments the hooks make. *)
Definition apply_field (f : FieldValue) (t : Task) : Task :=
  match f with
  | FName s => mkTask s (task_description t) (task_priority t) (task_type t) (task_status t) (task_project t) (task_sprint t) (task_reporter t) (task_assignee t) (task_storyPoints t) (task_completedAt t) (task_parentTask t)
  | FDescription s => mkTask (task_name t) s (task_priority t) (task_type t) (task_status t) (task_project t) (task_sprint t) (task_reporter t) (task_assignee t) (task_storyPoints t) (task_completedAt t) (task_parentTask t)
  | FPriority p => mkTask (task_name t) (task_description t) p (task_type t) (task_status t) (task_project t) (task_sprint t) (task_reporter t) (task_assignee t) (task_storyPoints t) (task_completedAt t) (task_parentTask t)
  | FType ty => mkTask (task_name t) (task_description t) (task_priority t) ty (task_status t) (task_project t) (task_sprint t) (task_reporter t) (task_assignee t) (task_storyPoints t) (task_completedAt t) (task_parentTask t)
  | FStatus s => mkTask (task_name t) (task_description t) (task_priority t) (task_type t) s (task_project t) (task_sprint t) (task_reporter t) (task_assignee t) (task_storyPoints t) (task_completedAt t) (task_parentTask t)
  | FProject p => mkTask (task_name t) (task_description t) (task_priority t) (task_type t) (task_status t) p (task_sprint t) (task_reporter t) (task_assignee t) (task_storyPoints t) (task_completedAt t) (task_parentTask t)
  | FSprint s => mkTask (task_name t) (task_description t) (task_priority t) (task_type t) (task_status t) (task_project t) s (task_reporter t) (task_assignee t) (task_storyPoints t) (task_completedAt t) (task_parentTask t)
  | FReporter r => mkTask (task_name t) (task_description t) (task_priority t) (task_type t) (task_status t) (task_project t) (task_sprint t) r (task_assignee t) (task_storyPoints t) (task_completedAt t) (task_parentTask t)
  | FAssignee a => mkTask (task_name t) (task_description t) (task_priority t) (task_type t) (task_status t) (task_project t) (task_sprint t) (task_reporter t) a (task_storyPoints t) (task_completedAt t) (task_parentTask t)
  | FStoryPoints n => mkTask (task_name t) (task_description t) (task_priority t) (task_type t) (task_status t) (task_project t) (task_sprint t) (task_reporter t) (task_assignee t) n (task_completedAt t) (task_parentTask t)
  | FCompletedAt d => mkTask (task_name t) (task_description t) (task_priority t) (task_type t) (task_status t) (task_project t) (task_sprint t) (task_reporter t) (task_assignee t) (task_storyPoints t) d (task_parentTask t)
  | FParentTask p => mkTask (task_name t) (task_description t) (task_priority t) (task_type t) (task_status t) (task_project t) (task_sprint t) (task_reporter t) (task_assignee t) (task_storyPoints t) (task_completedAt t) p
  end.

(** [status === 'Done' || status === 'Completed'] *)
Definition isTerminal (status : string) : bool :=
  bool_decide (status = "Done") || bool_decide (status = "Completed").

(** [Task.countDocuments({ _id: { $in: ids }, status: { $in: ['Done', 'Completed'] } })] *)
Definition countCompleted (ids : list positive) (m : gmap positive Task) : nat :=
  size (filter (fun it : positive * Task => it.1 ∈ ids ∧ isTerminal (task_status it.2) = true) m).

(** [{ $pull: { tasks: id } }] and [{ $addToSet: { tasks: id } }] on one sprint. *)
Definition with_tasks (l : list positive) (s : Sprint) : Sprint :=
  mkSprint (sprint_name s) (sprint_project s) (sprint_startDate s) (sprint_endDate s)
           (sprint_status s) l (sprint_completedTasks s) (sprint_totalTasks s).

Definition with_completedTasks (n : nat) (s : Sprint) : Sprint :=
  mkSprint (sprint_name s) (sprint_project s) (sprint_startDate s) (sprint_endDate s)
           (sprint_status s) (sprint_tasks s) n (sprint_totalTasks s).

Definition with_totalTasks (n : nat) (s : Sprint) : Sprint :=
  mkSprint (sprint_name s) (sprint_project s) (sprint_startDate s) (sprint_endDate s)
           (sprint_status s) (sprint_tasks s) (sprint_completedTasks s) n.

Definition pull (id : positive) (s : Sprint) : Sprint :=
  with_tasks (filter (fun i => i ≠ id) (sprint_tasks s)) s.

Definition addToSet (id : positive) (s : Sprint) : Sprint :=
  if bool_decide (id ∈ sprint_tasks s) then s
  else with_tasks (sprint_tasks s ++ [id]) s.

(** [Sprint.updateMany({ tasks: id }, { $pull: { tasks: id } })] *)
Definition pullFromAllSprints (id : positive) : Db unit :=
  modify (set_sprints (fmap (fun s =>
    if bool_decide (id ∈ sprint_tasks s) then pull id s else s))).

(** First [pre('save')] hook: default story points by type. *)
Definition defaultStoryPoints (ty : TaskType) : Z :=
  match ty with
  | epic => 3
  | task => 2
  | subtask => 1
  | story => 4
  | bug => 5
  end.

Definition pre_save_storyPoints (t : Task) : Task :=
  match task_storyPoints t with
  | None | Some 0 => apply_field (FStoryPoints (Some (defaultStoryPoints (task_type t)))) t
  | Some _ => t
  end.

(** Second hook: the status must name a board column of the project. *)
Definition pre_save_status (isNew modStatus : bool) (t : Task) : Db unit :=
  if isNew || modStatus then
    do found <~ gets (fun w => projects w !! task_project t) in
    match found with
    | None => throw "Project not found"
    | Some project =>
        if existsb (fun column => bool_decide (col_name column = task_status t))
                   (project_boardColumns project)
        then ret tt
        else throw "Invalid status for this project. Must be one of the project board columns."
    end
  else ret tt.

(** Third hook: sprint completion count and [completedAt]. *)
Definition pre_save_sprintStats (modStatus modSprint : bool) (t : Task) : Db Task :=
  match task_sprint t with
  | Some sid =>
      if modStatus || modSprint then
        try_catch
          (do found <~ gets (fun w => sprints w !! sid) in
           match found with
           | Some sprint =>
               let isCompleted := isTerminal (task_status t) in
               do completedCount <~ gets (fun w => countCompleted (sprint_tasks sprint) (tasks w)) in
               run modify (set_sprints (alter (with_completedTasks completedCount) sid)) in
               do now <~ gets clock in
               ret (match isCompleted, task_completedAt t with
                    | true, None => apply_field (FCompletedAt (Some now)) t
                    | false, Some _ => apply_field (FCompletedAt None) t
                    | _, _ => t
                    end)
           | None => ret t
           end)
          (fun _ => ret t)
      else ret t
  | None => ret t
  end.

(** Fourth hook: hierarchy. *)
Definition pre_save_hierarchy (t : Task) : Db Task :=
  let t1 :=
    if bool_decide (task_type t = epic) && bool_decide (task_parentTask t ≠ None)
    then apply_field (FParentTask None) t else t in
  run (match task_type t1, task_parentTask t1 with
       | task, Some pid =>
           do parentTask <~ gets (fun w => tasks w !! pid) in
           match parentTask with
           | Some p => if bool_decide (task_type p = epic) then ret tt
                       else throw "Tasks can only have epics as parents"
           | None => throw "Tasks can only have epics as parents"
           end
       | _, _ => ret tt
       end) in
  run (match task_type t1 with
       | subtask =>
           match task_parentTask t1 with
           | None => throw "Subtasks must have a parent task"
           | Some pid =>
               do parentTask <~ gets (fun w => tasks w !! pid) in
               match parentTask with
               | Some p => if bool_decide (task_type p = task) then ret tt
                           else throw "Subtasks can only have tasks as parents"
               | None => throw "Subtasks can only have tasks as parents"
               end
           end
       | _ => ret tt
       end) in
  ret t1.

(** Fifth hook: a cleared sprint reference pulls the task from every sprint. *)
Definition pre_save_sprintCleared (modSprint : bool) (id : positive) (t : Task) : Db unit :=
  if modSprint && bool_decide (task_sprint t = None)
  then try_catch (pullFromAllSprints id) (fun _ => ret tt)
  else ret tt.

(** [TaskSchema.index({ name: 1, project: 1 }, { unique: true })]: another
    document already carries this (name, project) pair. *)
Definition nameTaken (id : positive) (t : Task) (m : gmap positive Task) : bool :=
  bool_decide (map_Exists (fun i t' =>
    i ≠ id ∧ task_name t' = task_name t ∧ task_project t' = task_project t) m).

Definition duplicateKey : Error := Err "MongoServerError" "E11000 duplicate key error".

(** The write that ends [save()]: an insert for a new document, an update by
    [_id] otherwise. *)
Definition insertTask (id : positive) (t : Task) : Db unit :=
  do m <~ gets tasks in
  if bool_decide (is_Some (m !! id)) then throwErr duplicateKey
  else if nameTaken id t m then throwErr duplicateKey
  else modify (set_tasks (insert id t)).

Definition writeTask (id : positive) (t : Task) : Db unit :=
  do m <~ gets tasks in
  if bool_decide (m !! id = None) then throwErr (Err "DocumentNotFoundError" "No document found for query")
  else if nameTaken id t m then throwErr duplicateKey
  else modify (set_tasks (insert id t)).

(** [task.save()].  [isNew], [modStatus] and [modSprint] are the document's
    [isNew], [isModified('status')] and [isModified('sprint')]. *)
Definition task_save (isNew modStatus modSprint : bool) (id : positive) (t : Task) : Db Task :=
  let t1 := pre_save_storyPoints t in
  run pre_save_status isNew modStatus t1 in
  do t2 <~ pre_save_sprintStats modStatus modSprint t1 in
  do t3 <~ pre_save_hierarchy t2 in
  run pre_save_sprintCleared modSprint id t3 in
  run (if isNew then insertTask id t3 else writeTask id t3) in
  ret t3.

(** [pre('deleteOne', { document: true, query: false })] and the document's
    [deleteOne()] that triggers it. *)
Definition pre_deleteOne (id : positive) : Db unit :=
  try_catch (pullFromAllSprints id) (fun _ => ret tt).

Definition task_deleteOne (id : positive) : Db unit :=
  run pre_deleteOne id in
  modify (set_tasks (delete id)).

(** [TaskSchema.statics.moveToSprint] *)
Definition moveToSprint (taskId : positive) (sprintId : option positive) : Db Task :=
  do found <~ gets (fun w => tasks w !! taskId) in
  match found with
  | None => throw "Task not found"
  | Some t =>
      do moved <~
        (match sprintId with
         | Some sid =>
             do s <~ gets (fun w => sprints w !! sid) in
             match s with
             | None => throw "Sprint not found"
             | Some sprint =>
                 if bool_decide (task_project t ≠ sprint_project sprint)
                 then throw "Task and sprint must belong to the same project"
                 else
                   run modify (set_sprints (map_imap (fun i s' =>
                         Some (if bool_decide (taskId ∈ sprint_tasks s') && bool_decide (i ≠ sid)
                               then pull taskId s' else s')))) in
                   run modify (set_sprints (alter (addToSet taskId) sid)) in
                   ret (apply_field (FSprint (Some sid)) t)
             end
         | None =>
             run pullFromAllSprints taskId in
             ret (apply_field (FSprint None) t)
         end) in
      task_save false false (bool_decide (task_sprint moved ≠ task_sprint t)) taskId moved
  end.

(** ** HTTP handlers *)

(** What a handler sends: [res.status(code).json({ success: true, ... })]
    with its payload, or [res.status(code).json({ success: false, message })]. *)
Inductive Response (A : Type) : Type :=
  | Success (status : nat) (data : A)
  | Failure (status : nat) (message : string).
Arguments Success {A} status data.
Arguments Failure {A} status message.

(** The handler's outer [try { ... } catch (error)]: a [ValidationError] is
    answered with 400 and its message, anything else with 500. *)
Definition catchValidation {A} (body : Db (Response A)) : World -> Response A * World :=
  fun w => match body w with
           | (inr r, w') => (r, w')
           | (inl e, w') =>
               if bool_decide (err_name e = "ValidationError")
               then (Failure 400 (err_message e), w')
               else (Failure 500 "Server error", w')
           end.

(** A handler whose [catch] answers 500 whatever was thrown. *)
Definition catchAll {A} (message : string) (body : Db (Response A)) : World -> Response A * World :=
  fun w => match body w with
           | (inr r, w') => (r, w')
           | (inl _, w') => (Failure 500 message, w')
           end.

(** [handleAsync] with the [errorHandler] middleware behind it: validation
    and duplicate-key errors are answered with 400, the rest with 500 and the
    error's message.  The duplicate-key test is on the driver's code 11000,
    which the model carries in the error name. *)
Definition handleAsync {A} (body : Db (Response A)) : World -> Response A * World :=
  fun w => match body w with
           | (inr r, w') => (r, w')
           | (inl e, w') =>
               if bool_decide (err_name e = "ValidationError")
               then (Failure 400 (err_message e), w')
               else if bool_decide (err_name e = "MongoServerError")
               then (Failure 400 "Duplicate field value entered", w')
               else (Failure 500 (err_message e), w')
           end.

(** ** models/sprint.ts *)

(** [sprint.save()]: the date check, then the task-count hook, then the
    write.  [modTasks] is [isModified('tasks')]. *)
Definition sprint_save (modTasks : bool) (id : positive) (s : Sprint) : Db Sprint :=
  if bool_decide (sprint_startDate s >= sprint_endDate s)
  then throw "Sprint start date must be before end date"
  else
    do s' <~ (if modTasks then
                let s1 := with_totalTasks (length (sprint_tasks s)) s in
                do completedCount <~ gets (fun w => countCompleted (sprint_tasks s1) (tasks w)) in
                ret (with_completedTasks completedCount s1)
              else ret s) in
    run modify (set_sprints (insert id s')) in
    ret s'.

(** ** controllers/sprint.ts *)

(** [{ $addToSet: { tasks: { $each: taskIds } } }] *)
Definition addEachToSet (taskIds : list positive) (s : Sprint) : Sprint :=
  foldl (fun acc id => addToSet id acc) s taskIds.

(** [{ $pullAll: { tasks: taskIds } }] *)
Definition pullAll (taskIds : list positive) (s : Sprint) : Sprint :=
  with_tasks (filter (fun i => i ∉ taskIds) (sprint_tasks s)) s.

Definition addTasksToSprint (sprintId : positive) (taskIds : list positive)
  : World -> Response (option Sprint) * World :=
  catchAll "Server Error"
    (if bool_decide (length taskIds = 0%nat)
     then ret (Failure 400 "Please provide an array of task IDs")
     else
       do found <~ gets (fun w => sprints w !! sprintId) in
       match found with
       | None => ret (Failure 404 "Sprint not found")
       | Some sprint =>
           do matching <~ gets (fun w =>
             filter (fun it : positive * Task =>
                       it.1 ∈ taskIds ∧ task_project it.2 = sprint_project sprint) (tasks w)) in
           if bool_decide (size matching ≠ length taskIds)
           then ret (Failure 400 "Some tasks were not found or do not belong to the project")
           else
             run modify (set_sprints (alter (addEachToSet taskIds) sprintId)) in
             do updatedSprint <~ gets (fun w => sprints w !! sprintId) in
             ret (Success 200 updatedSprint)
       end).

Definition removeTasksFromSprint (sprintId : positive) (taskIds : list positive)
  : World -> Response (option Sprint) * World :=
  catchAll "Server Error"
    (if bool_decide (length taskIds = 0%nat)
     then ret (Failure 400 "Please provide an array of task IDs")
     else
       do found <~ gets (fun w => sprints w !! sprintId) in
       match found with
       | None => ret (Failure 404 "Sprint not found")
       | Some sprint =>
           run modify (set_sprints (alter (pullAll taskIds) sprintId)) in
           do updatedSprint <~ gets (fun w => sprints w !! sprintId) in
           ret (Success 200 updatedSprint)
       end).

(** ** Project model and controllers/project.ts *)

Definition with_boardColumns (cols : list BoardColumn) (updated : Z) (p : Project) : Project :=
  mkProject (project_name p) cols (project_startDate p) (project_endDate p) updated.

(** [ProjectSchema.pre('save')]: a project saved without columns gets the
    four default columns; each new subdocument receives a generated [_id]. *)
Definition pre_save_defaultColumns (p : Project) : Db Project :=
  if bool_decide (length (project_boardColumns p) = 0%nat) then
    do i0 <~ newObjectId in
    do i1 <~ newObjectId in
    do i2 <~ newObjectId in
    do i3 <~ newObjectId in
    ret (with_boardColumns
           [ mkColumn i0 "To Do" 0; mkColumn i1 "In Progress" 1;
             mkColumn i2 "In Review" 2; mkColumn i3 "Done" 3 ]
           (project_updated p) p)
  else ret p.

Definition project_save (id : positive) (p : Project) : Db Project :=
  do p' <~ pre_save_defaultColumns p in
  run modify (set_projects (insert id p')) in
  ret p'.

(** [boardColumns.map((col, idx) => ({ ...col, order: idx }))] *)
Definition renumber (cols : list BoardColumn) : list BoardColumn :=
  imap (fun idx col => mkColumn (col_id col) (col_name col) idx) cols.

(** [boardColumns.findIndex(column => column._id.toString() === columnId)];
    [None] stands for -1. *)
Definition findColumnIndex (columnId : positive) (cols : list BoardColumn) : option nat :=
  fst <$> list_find (fun column => col_id column = columnId) cols.

Definition removeBoardColumn (projectId columnId : positive)
  : World -> Response (list BoardColumn) * World :=
  handleAsync
    (do found <~ gets (fun w => projects w !! projectId) in
     match found with
     | None => ret (Failure 404 "Project not found")
     | Some project =>
         match findColumnIndex columnId (project_boardColumns project) with
         | None => ret (Failure 404 "Column not found")
         | Some columnIndex =>
             let spliced := delete columnIndex (project_boardColumns project) in
             do now <~ gets clock in
             do saved <~ project_save projectId (with_boardColumns (renumber spliced) now project) in
             ret (Success 200 (project_boardColumns saved))
         end
     end).

(** ** Task controller *)

(** An identifier as it arrives in a request: a string that is or is not a
    well-formed ObjectId. *)
Inductive RawId :=
  | WellFormed (id : positive)
  | Malformed (s : string).

Definition validateObjectId (id : RawId) : bool :=
  match id with
  | WellFormed _ => true
  | Malformed _ => false
  end.

(** Casting a request string to an ObjectId for a query; Mongoose throws a
    [CastError] on a malformed one. *)
Definition castId (id : RawId) : Db positive :=
  match id with
  | WellFormed i => ret i
  | Malformed _ => throwErr (Err "CastError" "Cast to ObjectId failed")
  end.

(** [activity.save()] and [Activity.create(...)] *)
Definition activity_save (a : Activity) : Db unit :=
  do refusal <~ gets (fun w => activityRejects w a) in
  match refusal with
  | Some e => throwErr e
  | None => modify (set_activities (fun l => (l ++ [a])%list))
  end.

Definition logActivity (userId : option positive) (action : string)
    (taskId projectId : positive) (details fieldChanged : option string)
    (oldValue newValue : option FieldValue) : Db bool :=
  try_catch
    (do now <~ gets clock in
     let activity := mkActivity userId action taskId projectId details
                                fieldChanged oldValue newValue now in
     run activity_save activity in
     ret true)
    (fun _ => ret false).

(** The body of a create request.  An absent string field and an empty one
    are both falsy and are both modelled by the empty string. *)
Record CreateTaskBody := mkCreateTaskBody {
  body_name : string;
  body_description : string;
  body_type : option TaskType;
  body_status : string;
  body_priority : option Priority;
  body_storyPoints : option Z;
  body_assignee : option RawId;
  body_reporter : option RawId;
  body_parentTask : option RawId;
  body_project : option RawId
}.

Definition defaultStatus : string := "To Do".

(** The status a new task is created with: the requested one when it names
    a column, otherwise the first column's name, otherwise ['To Do'].  The
    project model has no [workflow] field, so the [boardColumns] branch is the
    one taken. *)
Definition chooseStatus (status : string) (projectDoc : Project) : string :=
  let taskStatus := if bool_decide (status = "") then defaultStatus else status in
  if existsb (fun column => bool_decide (col_name column = taskStatus))
             (project_boardColumns projectDoc)
  then taskStatus
  else match project_boardColumns projectDoc with
       | column :: _ => if bool_decide (col_name column = "") then defaultStatus
                        else col_name column
       | [] => defaultStatus
       end.

(** The parent checks of [createTask]; [inl] is the 4xx answer. *)
Definition checkParent (type : option TaskType) (parentTask : option RawId)
  : Db (Response (positive * Task) + option positive) :=
  match parentTask with
  | Some raw =>
      if negb (validateObjectId raw)
      then ret (inl (Failure 400 "Invalid parent task ID"))
      else
        do pid <~ castId raw in
        do parentTaskDoc <~ gets (fun w => tasks w !! pid) in
        match parentTaskDoc with
        | None => ret (inl (Failure 404 "Parent task not found"))
        | Some parentDoc =>
            if bool_decide (type = Some subtask) && bool_decide (task_type parentDoc ≠ task)
            then ret (inl (Failure 400 "Subtasks must have tasks as parents"))
            else if (bool_decide (type = Some task) || bool_decide (type = Some story))
                    && bool_decide (task_type parentDoc ≠ epic)
            then ret (inl (Failure 400 "Tasks and stories must have epics as parents"))
            else if bool_decide (type = Some epic)
            then ret (inl (Failure 400 "Epics cannot have parent tasks"))
            else ret (inr (Some pid))
        end
  | None =>
      if bool_decide (type = Some subtask)
      then ret (inl (Failure 400 "Subtasks must have a parent task"))
      else ret (inr None)
  end.

Definition createTask (user : option positive) (body : CreateTaskBody)
  : World -> Response (positive * Task) * World :=
  catchValidation
    (match body_project body, body_assignee body with
     | Some project, Some assignee =>
         if bool_decide (body_name body = "") || bool_decide (body_description body = "")
         then ret (Failure 400 "Name, description, project, and assignee are required")
         else if negb (validateObjectId project)
         then ret (Failure 400 "Invalid project ID")
         else
           do projectId <~ castId project in
           do foundProject <~ gets (fun w => projects w !! projectId) in
           match foundProject with
           | None => ret (Failure 404 "Project not found")
           | Some projectDoc =>
               let taskStatus := chooseStatus (body_status body) projectDoc in
               if negb (validateObjectId assignee)
               then ret (Failure 400 "Invalid assignee ID")
               else
                 do assigneeId <~ castId assignee in
                 do assigneeDoc <~ gets (fun w => bool_decide (assigneeId ∈ users w)) in
                 if negb assigneeDoc
                 then ret (Failure 404 "Assignee not found")
                 else
                   if match body_reporter body with
                      | Some reporter => negb (validateObjectId reporter)
                      | None => false
                      end
                   then ret (Failure 400 "Invalid reporter ID")
                   else
                     do checked <~ checkParent (body_type body) (body_parentTask body) in
                     match checked with
                     | inl answer => ret answer
                     | inr parentTask =>
                         do newId <~ newObjectId in
                         let newTask :=
                           mkTask (body_name body) (body_description body)
                                  (default medium (body_priority body))
                                  (default task (body_type body))
                                  taskStatus projectId None
                                  (match body_reporter body with
                                   | Some (WellFormed reporter) => Some reporter
                                   | _ => None
                                   end)
                                  assigneeId (body_storyPoints body) None parentTask in
                         do savedTask <~ task_save true true false newId newTask in
                         do now <~ gets clock in
                         run activity_save
                               (mkActivity (Some (default assigneeId user)) "created"
                                           newId projectId None None None None now) in
                         ret (Success 201 (newId, savedTask))
                     end
           end
     | _, _ => ret (Failure 400 "Name, description, project, and assignee are required")
     end).

(** Field access by key, [existingTask.get(key)], in the shape of the
    update value it is compared with. *)
Definition field_of (f : FieldValue) (t : Task) : FieldValue :=
  match f with
  | FName _ => FName (task_name t)
  | FDescription _ => FDescription (task_description t)
  | FPriority _ => FPriority (task_priority t)
  | FType _ => FType (task_type t)
  | FStatus _ => FStatus (task_status t)
  | FProject _ => FProject (task_project t)
  | FSprint _ => FSprint (task_sprint t)
  | FReporter _ => FReporter (task_reporter t)
  | FAssignee _ => FAssignee (task_assignee t)
  | FStoryPoints _ => FStoryPoints (task_storyPoints t)
  | FCompletedAt _ => FCompletedAt (task_completedAt t)
  | FParentTask _ => FParentTask (task_parentTask t)
  end.

Definition field_key (f : FieldValue) : string :=
  match f with
  | FName _ => "name"
  | FDescription _ => "description"
  | FPriority _ => "priority"
  | FType _ => "type"
  | FStatus _ => "status"
  | FProject _ => "project"
  | FSprint _ => "sprint"
  | FReporter _ => "reporter"
  | FAssignee _ => "assignee"
  | FStoryPoints _ => "storyPoints"
  | FCompletedAt _ => "completedAt"
  | FParentTask _ => "parentTask"
  end.

(** The update validators that [runValidators: true] switches on: the
    [required] strings may not be set to the empty string.  Enumerations are
    enforced by the types of the model. *)
Definition violatesRequired (f : FieldValue) : bool :=
  match f with
  | FName s | FDescription s | FStatus s => bool_decide (s = "")
  | _ => false
  end.

(** [Task.findByIdAndUpdate(id, { $set: updateData }, { new: true, runValidators: true })] *)
Definition findByIdAndUpdate (id : positive) (updateData : list FieldValue) : Db (option Task) :=
  match filter (fun f => violatesRequired f = true) updateData with
  | f :: _ => throwErr (Err "ValidationError" ("Validation failed: " ++ field_key f))
  | [] =>
      do found <~ gets (fun w => tasks w !! id) in
      match found with
      | None => ret None
      | Some t =>
          let t' := foldl (fun acc f => apply_field f acc) t updateData in
          do m <~ gets tasks in
          if nameTaken id t' m then throwErr duplicateKey
          else
            run modify (set_tasks (insert id t')) in
            ret (Some t')
      end
  end.

(** The activity-logging loop of [updateTask]. *)
Fixpoint logChanges (actorId : positive) (id projectId : positive)
    (changes : list (FieldValue * FieldValue)) : Db unit :=
  match changes with
  | [] => ret tt
  | (oldValue, newValue) :: rest =>
      let action :=
        if bool_decide (field_key newValue = "status") then "changed status"
        else if bool_decide (field_key newValue = "assignee") then "assigned"
        else "updated" in
      run try_catch
            (run logActivity (Some actorId) action id projectId None
                             (Some (field_key newValue)) (Some oldValue) (Some newValue) in
             ret tt)
            (fun _ => ret tt) in
      logChanges actorId id projectId rest
  end.

Definition updateTask (user : option positive) (id : RawId) (updateData : list FieldValue)
  : World -> Response Task * World :=
  catchValidation
    (do taskId <~ castId id in
     do found <~ gets (fun w => tasks w !! taskId) in
     match found with
     | None => ret (Failure 404 "Task not found")
     | Some existingTask =>
         let actorId := user in
         let actorId := match actorId with
                        | None => Some (task_assignee existingTask)
                        | _ => actorId
                        end in
         let actorId := match actorId with
                        | None => task_reporter existingTask
                        | _ => actorId
                        end in
         match actorId with
         | None => ret (Failure 400 "No valid user ID for activity logging. Authentication required.")
         | Some actor =>
             let changes :=
               omap (fun value =>
                       if bool_decide (field_of value existingTask = value) then None
                       else Some (field_of value existingTask, value)) updateData in
             do updatedTask <~ findByIdAndUpdate taskId updateData in
             match updatedTask with
             | None => ret (Failure 404 "Task not found after update")
             | Some updated =>
                 run logChanges actor taskId (task_project existingTask) changes in
                 ret (Success 200 updated)
             end
         end
     end).

Definition deleteTask (user : option positive) (id : RawId)
  : World -> Response string * World :=
  catchAll "Server error"
    (if negb (validateObjectId id)
     then ret (Failure 400 "Invalid task ID")
     else
       do taskId <~ castId id in
       do found <~ gets (fun w => tasks w !! taskId) in
       match found with
       | None => ret (Failure 404 "Task not found")
       | Some t =>
           do hasChildren <~ gets (fun w =>
             bool_decide (map_Exists (fun _ child => task_parentTask child = Some taskId) (tasks w))) in
           if hasChildren
           then ret (Failure 400 "Cannot delete a task that has child tasks. Delete children first.")
           else
             let projectId := task_project t in
             run modify (set_tasks (delete taskId)) in
             run logActivity user "deleted" taskId projectId None None None None in
             ret (Success 200 "Task deleted successfully")
       end).

(** ** Burndown series

    Dates are milliseconds since the epoch.  A calendar day, the
    [YYYY-MM-DD] prefix of [toISOString()], is represented by its number of
    days since the epoch; [setDate(getDate() + 1)] is taken in a server whose
    local time is UTC, where it adds exactly one day. *)

Definition msPerDay : Z := 86400000.

(** [date.toISOString().split('T')[0]] *)
Definition dateKey (date : Z) : Z := date / msPerDay.

Record BurndownEntry := mkEntry {
  bd_date : Z;
  bd_remainingPoints : Z
}.

(** [Task.find({ project, status: 'Done', completedAt: { $exists: true } })] *)
Definition findCompletedTasks (projectId : positive) (w : World) : list Task :=
  (map_to_list (filter (fun it : positive * Task =>
      task_project it.2 = projectId ∧ task_status it.2 = "Done"
      ∧ is_Some (task_completedAt it.2)) (tasks w))).*2.

(** [Task.find({ project })] *)
Definition findProjectTasks (projectId : positive) (w : World) : list Task :=
  (map_to_list (filter (fun it : positive * Task =>
      task_project it.2 = projectId) (tasks w))).*2.

(** [list.reduce((sum, task) => sum + (task.storyPoints || 0), 0)] *)
Definition sumStoryPoints (l : list Task) : Z :=
  foldl (fun sum t => sum + default 0 (task_storyPoints t)) 0 l.

(** The [forEach] that fills [pointsByDate]. *)
Definition addPoints (pointsByDate : gmap Z Z) (t : Task) : gmap Z Z :=
  match task_completedAt t with
  | Some completedAt =>
      let key := dateKey completedAt in
      <[key := default 0 (pointsByDate !! key) + default 0 (task_storyPoints t)]> pointsByDate
  | None => pointsByDate
  end.

Definition groupPointsByDate (completedTasks : list Task) : gmap Z Z :=
  foldl addPoints ∅ completedTasks.

(** [while (currentDate <= endDate) { ... }]; [None] when the fuel runs out
    before the loop ends. *)
Fixpoint burndownLoop (fuel : nat) (currentDate endDate remainingPoints : Z)
    (pointsByDate : gmap Z Z) : option (list BurndownEntry) :=
  if bool_decide (currentDate <= endDate) then
    match fuel with
    | O => None
    | S fuel' =>
        let key := dateKey currentDate in
        let remainingPoints :=
          match pointsByDate !! key with
          | Some points => if bool_decide (points = 0) then remainingPoints
                           else remainingPoints - points
          | None => remainingPoints
          end in
        cons (mkEntry key remainingPoints)
          <$> burndownLoop fuel' (currentDate + msPerDay) endDate remainingPoints pointsByDate
    end
  else Some [].

(** [getBurndownData]: the answer carries [totalPoints] and [burndownData].
    The handler only reads the store. *)
Definition getBurndownData (fuel : nat) (projectId : RawId) (w : World)
  : option (Response (Z * list BurndownEntry)) :=
  match projectId with
  | Malformed _ =>
      (* [!validateObjectId(projectId)] *)
      Some (Failure 400 "Invalid project ID")
  | WellFormed pid =>
      match projects w !! pid with
      | None => Some (Failure 404 "Project not found")
      | Some project =>
          let completedTasks := findCompletedTasks pid w in
          let allTasks := findProjectTasks pid w in
          let totalPoints := sumStoryPoints allTasks in
          match project_startDate project, project_endDate project with
          | Some startDate, Some endDate =>
              burndownData ← burndownLoop fuel startDate endDate totalPoints
                                          (groupPointsByDate completedTasks);
              Some (Success 200 (totalPoints, burndownData))
          | _, _ => Some (Success 200 (totalPoints, []))
          end
      end
  end.


(** * Further handlers

    The handlers below reuse the store and the models above.  Column and
    sprint documents that are already stored passed their schema's validators
    when they were written; the validation that [save()] repeats on them is
    not modelled, only that of values a handler introduces.  The sprint and
    project handlers are given the identifier of the request already cast: a
    malformed one makes [findById] throw before anything is read. *)

(** ** controllers/project.ts, continued *)

(** [addBoardColumn].  [trim] stands for [String.prototype.trim], which the
    column schema's [trim: true] setter applies when the new column is cast;
    the schema's [required] validator then refuses an empty name at
    [save()]. *)
Definition addBoardColumn (trim : string -> string) (projectId : positive) (name : string)
  : World -> Response (list BoardColumn) * World :=
  handleAsync
    (if bool_decide (name = "")
     then ret (Failure 400 "Column name is required")
     else
       do found <~ gets (fun w => projects w !! projectId) in
       match found with
       | None => ret (Failure 404 "Project not found")
       | Some project =>
           do newId <~ newObjectId in
           let newColumn :=
             mkColumn newId (trim name) (length (project_boardColumns project)) in
           do now <~ gets clock in
           if bool_decide (col_name newColumn = "")
           then throwErr (Err "ValidationError" "Path `name` is required.")
           else
             do saved <~ project_save projectId
                           (with_boardColumns (project_boardColumns project ++ [newColumn])
                                              now project) in
             ret (Success 200 (project_boardColumns saved))
       end).

Inductive Direction := up | down.

#[global] Instance Direction_eq_dec : EqDecision Direction.
Proof. solve_decision. Defined.

Definition directionName (direction : Direction) : string :=
  match direction with
  | up => "up"
  | down => "down"
  end.

(** [temp = cols[i]; cols[i] = cols[j]; cols[j] = temp].  The handler only
    swaps indices that are both in range; outside it the list is returned as
    it is. *)
Definition swapColumns (i j : nat) (cols : list BoardColumn) : list BoardColumn :=
  match cols !! i, cols !! j with
  | Some temp, Some adjacent => <[j := temp]> (<[i := adjacent]> cols)
  | _, _ => cols
  end.

(** [reorderBoardColumns].  [None] is a missing direction or one that is
    neither ['up'] nor ['down']. *)
Definition reorderBoardColumns (projectId columnId : positive)
    (direction : option Direction) : World -> Response (list BoardColumn) * World :=
  handleAsync
    (match direction with
     | None => ret (Failure 400 "Valid direction (up or down) is required")
     | Some direction =>
         do found <~ gets (fun w => projects w !! projectId) in
         match found with
         | None => ret (Failure 404 "Project not found")
         | Some project =>
             match findColumnIndex columnId (project_boardColumns project) with
             | None => ret (Failure 404 "Column not found")
             | Some columnIndex =>
                 if (bool_decide (direction = up) && bool_decide (columnIndex = 0%nat))
                    || (bool_decide (direction = down)
                        && bool_decide (columnIndex
                                        = (length (project_boardColumns project) - 1)%nat))
                 then ret (Failure 400 ("Cannot move column " ++ directionName direction))
                 else
                   let adjacentIndex :=
                     match direction with
                     | up => (columnIndex - 1)%nat
                     | down => (columnIndex + 1)%nat
                     end in
                   let swapped :=
                     swapColumns columnIndex adjacentIndex (project_boardColumns project) in
                   do now <~ gets clock in
                   do saved <~ project_save projectId
                                 (with_boardColumns (renumber swapped) now project) in
                   ret (Success 200 (project_boardColumns saved))
             end
         end
     end).

(** ** controllers/sprint.ts, continued *)

#[global] Instance SprintStatus_eq_dec : EqDecision SprintStatus.
Proof. solve_decision. Defined.

Definition with_status (status : SprintStatus) (s : Sprint) : Sprint :=
  mkSprint (sprint_name s) (sprint_project s) (sprint_startDate s) (sprint_endDate s)
           status (sprint_tasks s) (sprint_completedTasks s) (sprint_totalTasks s).

Definition startSprint (id : positive) : World -> Response Sprint * World :=
  catchAll "Server Error"
    (do found <~ gets (fun w => sprints w !! id) in
     match found with
     | None => ret (Failure 404 "Sprint not found")
     | Some sprint =>
         if bool_decide (sprint_status sprint ≠ planning)
         then ret (Failure 400 "Sprint is already active or completed")
         else
           do saved <~ sprint_save false id (with_status active sprint) in
           ret (Success 200 saved)
     end).

Definition completeSprint (id : positive) : World -> Response Sprint * World :=
  catchAll "Server Error"
    (do found <~ gets (fun w => sprints w !! id) in
     match found with
     | None => ret (Failure 404 "Sprint not found")
     | Some sprint =>
         if bool_decide (sprint_status sprint ≠ active)
         then ret (Failure 400 "Only active sprints can be completed")
         else
           do saved <~ sprint_save false id (with_status completed sprint) in
           ret (Success 200 saved)
     end).

(** ** Counting into a JavaScript object

    [acc[key] = (acc[key] || 0) + 1] on an object literal.  A key that names
    a member of [Object.prototype] reads as that member, not as [undefined]:
    the sum is then a string, kept here as [Junk]; an assignment to
    ['__proto__'] of a value that is not an object is ignored. *)

Definition protoKeys : list string :=
  [ "constructor"; "__defineGetter__"; "__defineSetter__"; "hasOwnProperty";
    "__lookupGetter__"; "__lookupSetter__"; "isPrototypeOf"; "propertyIsEnumerable";
    "toString"; "valueOf"; "__proto__"; "toLocaleString" ].

Inductive JsCount :=
  | Count (n : nat)
  | Junk.

#[global] Instance JsCount_eq_dec : EqDecision JsCount.
Proof. solve_decision. Defined.

Definition countKey (acc : gmap string JsCount) (key : string) : gmap string JsCount :=
  if bool_decide (key = "__proto__") then acc
  else match acc !! key with
       | Some (Count n) => <[key := Count (n + 1)]> acc
       | Some Junk => <[key := Junk]> acc
       | None => if bool_decide (key ∈ protoKeys) then <[key := Junk]> acc
                 else <[key := Count 1]> acc
       end.

(** [getSprintStats].  The handler only reads the store.  Its last field,
    [progressPercentage], is a floating-point quotient of the two task counts
    and is not part of the model. *)
Record SprintStats := mkSprintStats {
  stats_tasksByStatus : gmap string JsCount;
  stats_totalTasks : nat;
  stats_completedTasks : nat;
  stats_totalPoints : Z;
  stats_completedPoints : Z
}.

(** [Task.find({ _id: { $in: ids } })] *)
Definition findTasksIn (ids : list positive) (w : World) : list Task :=
  (map_to_list (filter (fun it : positive * Task => it.1 ∈ ids) (tasks w))).*2.

Definition getSprintStats (sprintId : positive) (w : World) : Response SprintStats :=
  match sprints w !! sprintId with
  | None => Failure 404 "Sprint not found"
  | Some sprint =>
      let found := findTasksIn (sprint_tasks sprint) w in
      let tasksByStatus := foldl (fun acc t => countKey acc (task_status t)) ∅ found in
      let totalTasks := length found in
      let completedTasksList := filter (fun t => isTerminal (task_status t) = true) found in
      let completedTasks := length completedTasksList in
      let totalPoints := sumStoryPoints found in
      let completedPoints := sumStoryPoints completedTasksList in
      Success 200 (mkSprintStats tasksByStatus totalTasks completedTasks
                                 totalPoints completedPoints)
  end.

(** ** Task controller, continued *)

(** [getTaskSummary]: the answer carries [total] and [statusCounts]. *)
Definition getTaskSummary (projectId : RawId) (w : World)
  : Response (nat * gmap string JsCount) :=
  match projectId with
  | Malformed _ =>
      (* [!validateObjectId(projectId)] *)
      Failure 400 "Invalid project ID"
  | WellFormed pid =>
      let found := findProjectTasks pid w in
      Success 200 (foldl (fun total _ => S total) 0%nat found,
                   foldl (fun statusCounts t => countKey statusCounts (task_status t)) ∅ found)
  end.

(** [getAvailableStatuses].  The project model has no [workflow] field, so
    the statuses are the board columns' names. *)
Definition getAvailableStatuses (projectId : RawId) (w : World) : Response (list string) :=
  match projectId with
  | Malformed _ => Failure 400 "Invalid project ID"
  | WellFormed pid =>
      match projects w !! pid with
      | None => Failure 404 "Project not found"
      | Some project => Success 200 (col_name <$> project_boardColumns project)
      end
  end.

(** [getChildTasks]: [Task.find({ parentTask: taskId })]; the populated
    user fields are presentation and are left out. *)
Definition getChildTasks (taskId : RawId) (w : World) : Response (list Task) :=
  match taskId with
  | Malformed _ => Failure 400 "Invalid task ID"
  | WellFormed id =>
      Success 200 (map_to_list (filter (fun it : positive * Task =>
                                          task_parentTask it.2 = Some id) (tasks w))).*2
  end.

(** * Specification vocabulary

    The predicates and measures the theorems are stated with. *)

(** The counters agree with the task list. *)
Definition countersConsistent (s : Sprint) : Prop :=
  (sprint_completedTasks s <= sprint_totalTasks s)%nat
  ∧ sprint_totalTasks s = length (sprint_tasks s).

(** The value the third hook leaves in [completedAt]. *)
Definition completedAtAfterSave (modStatus modSprint : bool) (t : Task) (w : World)
  : option Z :=
  match task_sprint t with
  | Some sid =>
      if (modStatus || modSprint) && bool_decide (is_Some (sprints w !! sid)) then
        if isTerminal (task_status t)
        then Some (default (clock w) (task_completedAt t))
        else None
      else task_completedAt t
  | None => task_completedAt t
  end.

(** The document [createTask] hands to [save()]. *)
Definition builtFrom (body : CreateTaskBody) (pid : positive) (projectDoc : Project)
    (newTask : Task) : Prop :=
  task_name newTask = body_name body
  ∧ task_type newTask = default task (body_type body)
  ∧ task_status newTask = chooseStatus (body_status body) projectDoc
  ∧ task_project newTask = pid
  ∧ task_sprint newTask = None
  ∧ task_completedAt newTask = None
  ∧ (body_type body = Some epic ->
     body_parentTask body = None ∧ task_parentTask newTask = None).

(** No stored epic has a parent. *)
Definition epicsParentless (m : gmap positive Task) : Prop :=
  map_Forall (fun _ t => task_type t = epic -> task_parentTask t = None) m.

(** The status is the name of one of the project's board columns. *)
Definition namesColumn (status : string) (projectDoc : Project) : bool :=
  existsb (fun column => bool_decide (col_name column = status))
          (project_boardColumns projectDoc).

(** Two stores that differ at most in the activity collection. *)
Definition sameButActivities (w1 w2 : World) : Prop :=
  tasks w1 = tasks w2 ∧ sprints w1 = sprints w2 ∧ projects w1 = projects w2
  ∧ users w1 = users w2 ∧ clock w1 = clock w2 ∧ nextId w1 = nextId w2.

(** The actor and the changed fields of an update, as [updateTask] computes
    them. *)
Definition actorOf (user : option positive) (existingTask : Task) : positive :=
  default (task_assignee existingTask) user.

Definition changesOf (existingTask : Task) (updateData : list FieldValue)
  : list (FieldValue * FieldValue) :=
  omap (fun value =>
          if bool_decide (field_of value existingTask = value) then None
          else Some (field_of value existingTask, value)) updateData.

(** No two stored tasks of one project share a name. *)
Definition namesUnique (m : gmap positive Task) : Prop :=
  ∀ i j t1 t2, m !! i = Some t1 -> m !! j = Some t2 -> i ≠ j ->
               task_project t1 = task_project t2 -> task_name t1 ≠ task_name t2.

(** [task.storyPoints || 0] *)
Definition points (t : Task) : Z := default 0 (task_storyPoints t).








(** One step of the sprint lifecycle that [startSprint] and
    [completeSprint] can take. *)
Definition forwardStep (before after : SprintStatus) : Prop :=
  (before = planning ∧ after = active) ∨ (before = active ∧ after = completed).

(** A sprint handler that leaves everything but the status of its sprint
    alone, and moves that status one step forward when it succeeds. *)
Definition keepsLifecycle (handler : positive -> World -> Response Sprint * World) : Prop :=
  ∀ w id s r w',
    sprints w !! id = Some s ->
    handler id w = (r, w') ->
    tasks w' = tasks w
    ∧ (∀ j, j ≠ id -> sprints w' !! j = sprints w !! j)
    ∧ ∃ s', sprints w' !! id = Some s'
            ∧ with_status (sprint_status s) s' = s
            ∧ match r with
              | Success _ data => data = s' ∧ forwardStep (sprint_status s) (sprint_status s')
              | Failure _ _ => w' = w
              end.

(** How many tasks of a list carry a status. *)
Definition withStatus (status : string) (l : list Task) : nat :=
  length (filter (fun t => task_status t = status) l).

(** What a counting object holds under a key that was counted [n] times. *)
Definition tally (n : nat) : option JsCount :=
  match n with
  | O => None
  | S _ => Some (Count n)
  end.

(** The sum of the numbers a counting object holds. *)
Definition sumCounts (counts : gmap string JsCount) : nat :=
  map_fold (fun _ c total => match c with
                             | Count n => (n + total)%nat
                             | Junk => total
                             end) 0%nat counts.

(** No task of the list carries a status that names a member of
    [Object.prototype]. *)
Definition plainStatuses (l : list Task) : Prop :=
  ∀ t, t ∈ l -> task_status t ∉ protoKeys.

(** The identifier and the name of the column at a position. *)
Definition columnAt (cols : list BoardColumn) (k : nat) : option (positive * string) :=
  (fun column => (col_id column, col_name column)) <$> cols !! k.

(** The position [reorderBoardColumns] moves the column at [i] to. *)
Definition adjacent (direction : Direction) (i : nat) : nat :=
  match direction with
  | up => (i - 1)%nat
  | down => (i + 1)%nat
  end.

(** The first column cannot move up, the last cannot move down. *)
Definition atEdge (direction : Direction) (i : nat) (cols : list BoardColumn) : Prop :=
  (direction = up ∧ i = 0%nat) ∨ (direction = down ∧ i = (length cols - 1)%nat).

(** The [order] values are the positions. *)
Definition ordersDense (cols : list BoardColumn) : Prop :=
  col_order <$> cols = seq 0 (length cols).

(** Every stored project has columns, numbered by position. *)
Definition boardsOk (w : World) : Prop :=
  map_Forall (fun _ p => project_boardColumns p ≠ []
                         ∧ ordersDense (project_boardColumns p)) (projects w).

(** The task lists of the stored sprints. *)
Definition memberLists (w : World) : gmap positive (list positive) :=
  sprint_tasks <$> sprints w.

(** The parent the model's hooks require of a task of each type: none for
    an epic, an epic for a task that has a parent, a task for a subtask. *)
Definition parentOk (m : gmap positive Task) (t : Task) : Prop :=
  match task_type t with
  | epic => task_parentTask t = None
  | task => ∀ pid, task_parentTask t = Some pid ->
                   ∃ p, m !! pid = Some p ∧ task_type p = epic
  | subtask => ∃ pid p, task_parentTask t = Some pid ∧ m !! pid = Some p
                        ∧ task_type p = task
  | story | bug => True
  end.

Definition hierarchyOk (m : gmap positive Task) : Prop :=
  map_Forall (fun _ t => parentOk m t) m.


(** * Sample stores

    Concrete stores and requests on which the model is run. *)

(** The four default columns, as stored in a project. *)
Definition defaultColumns : list BoardColumn :=
  [ mkColumn 100 "To Do" 0; mkColumn 101 "In Progress" 1;
    mkColumn 102 "In Review" 2; mkColumn 103 "Done" 3 ].

Definition sampleProject : Project :=
  mkProject "Apollo" defaultColumns (Some (10 * msPerDay)) (Some (11 * msPerDay)) 0.

Definition sampleTask (name status : string) (project : positive) : Task :=
  mkTask name "text" medium task status project None None 7 (Some 5) None None.

Definition sampleSprint (project : positive) (members : list positive) : Sprint :=
  mkSprint "Sprint 1" project 0 (14 * msPerDay) planning members 0 (length members).

Definition emptyWorld : World :=
  mkWorld ∅ ∅ ∅ {[ 7%positive ]} [] (fun _ => None) (20 * msPerDay) 1000.

(** Two projects, one task in project 1, one empty sprint in each project. *)
Definition world1 : World :=
  set_tasks (fun _ => {[ 20%positive := sampleTask "Fix login" "Done" 1 ]})
    (set_sprints (fun _ => {[ 30%positive := sampleSprint 1 []; 31%positive := sampleSprint 2 [] ]})
      (set_projects (fun _ => {[ 1%positive := sampleProject; 2%positive := sampleProject ]})
        emptyWorld)).

(** Sprint 30 holds the childless task 20. *)
Definition world2 : World :=
  set_sprints (fun _ => {[ 30%positive := sampleSprint 1 [20%positive] ]}) world1.

(** Task 20 is in sprint 30, stored with status 'To Do'. *)
Definition world3 : World :=
  set_tasks (fun _ => {[ 20%positive := apply_field (FSprint (Some 30%positive))
                                          (sampleTask "Fix login" "To Do" 1) ]})
            world2.

(** An epic (20) and a task (21) under it. *)
Definition world4 : World :=
  set_tasks (fun _ => {[ 20%positive := apply_field (FType epic) (sampleTask "Platform" "To Do" 1);
                         21%positive := apply_field (FParentTask (Some 20%positive))
                                          (sampleTask "Fix login" "To Do" 1) ]})
            world1.

(** A create request for project 1 with assignee 7. *)
Definition requestBody (name status : string) (type : option TaskType)
    (parent : option positive) : CreateTaskBody :=
  mkCreateTaskBody name "text" type status None None (Some (WellFormed 7)) None
                   (WellFormed <$> parent) (Some (WellFormed 1)).

(** A project whose columns were all removed by an update. *)
Definition world5 : World :=
  set_projects (insert 3%positive (mkProject "Bare" [] (Some 0) (Some msPerDay) 0)) world1.

(** A project whose board has the single column 200. *)
Definition world6 : World :=
  set_projects (insert 4%positive
    (mkProject "Solo" [mkColumn 200 "Backlog" 0] (Some 0) (Some msPerDay) 0)) world1.

(** A task with status 'Done' and a completion date. *)
Definition doneTask (name : string) (project : positive) (storyPoints completedAt : Z) : Task :=
  mkTask name "text" medium task "Done" project None None 7 (Some storyPoints)
         (Some completedAt) None.

(** Project 1 runs over days 10 and 11.  Task 20 (5 points) was completed on
    day 10; task 22 (5 points) is open. *)
Definition world7 : World :=
  set_tasks (fun _ => {[ 20%positive := doneTask "Fix login" 1 5 (10 * msPerDay + 3600000);
                         22%positive := sampleTask "Write docs" "To Do" 1 ]})
            world1.



(** Task 20 of project 1 carries the status 'constructor' and is in
    sprint 30. *)
Definition world9 : World :=
  set_tasks (fun _ => {[ 20%positive := sampleTask "Fix login" "constructor" 1 ]}) world2.

(** Task 21 has the plain task 20 as its parent, which only an update
    that ran no hook can have stored. *)
Definition world10 : World :=
  set_tasks (fun _ => {[ 20%positive := sampleTask "Fix login" "Done" 1;
                         21%positive := apply_field (FParentTask (Some 20%positive))
                                          (sampleTask "Write docs" "To Do" 1) ]})
            world1.

(** * Verification *)

Ltac unfold_db :=
  unfold bind, gets, ret, throw, throwErr, modify, try_catch, newObjectId in *.

(** ** Running a computation step by step *)

Lemma bind_inr {A B} (m : Db A) (k : A -> Db B) (w w' : World) (b : B) :
  bind m k w = (inr b, w') ->
  ∃ a w1, m w = (inr a, w1) ∧ k a w1 = (inr b, w').
Proof.
  unfold bind. destruct (m w) as [[e|a] w1]; [discriminate|]. eauto.
Qed.

Lemma bind_inv {A B} (m : Db A) (k : A -> Db B) (w w' : World) (r : Error + B) :
  bind m k w = (r, w') ->
  (∃ e, m w = (inl e, w') ∧ r = inl e)
  ∨ (∃ a w1, m w = (inr a, w1) ∧ k a w1 = (r, w')).
Proof.
  unfold bind. destruct (m w) as [[e|a] w1]; [intros [= <- <-]|]; eauto.
Qed.

Lemma bind_inr_eq {A B} (m : Db A) (k : A -> Db B) (w w1 : World) (a : A) :
  m w = (inr a, w1) -> bind m k w = k a w1.
Proof. unfold bind. by intros ->. Qed.

(** ** C5: moving a task to a sprint of another project *)

(** C5. When the task and the sprint belong to different projects,
    [moveToSprint] throws the cross-project error and the store it leaves is
    the store it found: the task, its sprint reference and every sprint's task
    list are untouched. *)
Theorem moveToSprint_cross_project (w : World) (taskId sprintId : positive)
    (t : Task) (s : Sprint) :
  tasks w !! taskId = Some t ->
  sprints w !! sprintId = Some s ->
  task_project t ≠ sprint_project s ->
  moveToSprint taskId (Some sprintId) w
  = (inl (Err "Error" "Task and sprint must belong to the same project"), w).
Proof.
  intros Ht Hs Hne. unfold moveToSprint. unfold_db.
  rewrite Ht. cbn. rewrite Hs. cbn.
  rewrite bool_decide_eq_true_2 by done. reflexivity.
Qed.

Lemma moveToSprint_cross_project_witness :
  moveToSprint 20 (Some 31%positive) world1
  = (inl (Err "Error" "Task and sprint must belong to the same project"), world1).
Proof.
  apply (moveToSprint_cross_project world1 20 31
           (sampleTask "Fix login" "Done" 1) (sampleSprint 2 [])).
  - vm_compute; reflexivity.
  - vm_compute; reflexivity.
  - vm_compute; discriminate.
Defined.

(** ** C1: sprint counters *)

Lemma size_list_to_set_le (l : list positive) :
  (size (list_to_set l : gset positive) <= length l)%nat.
Proof.
  induction l as [|x l IH]; cbn [list_to_set foldr length].
  - by rewrite size_empty.
  - rewrite size_union_alt, size_singleton.
    assert (size (list_to_set l ∖ {[x]} : gset positive) <= size (list_to_set l : gset positive))%nat
      by (apply subseteq_size; intros y Hy; apply elem_of_difference in Hy as [Hy _]; exact Hy).
    lia.
Qed.

Lemma countCompleted_le_length (ids : list positive) (m : gmap positive Task) :
  (countCompleted ids m <= length ids)%nat.
Proof.
  unfold countCompleted.
  rewrite <- (size_dom (D := gset positive)).
  etransitivity; [|apply size_list_to_set_le].
  apply subseteq_size. intros i Hi.
  apply elem_of_dom in Hi as [t Ht].
  apply map_lookup_filter_Some in Ht as [_ [Hin _]].
  by apply elem_of_list_to_set.
Qed.

(** What the sprint model's own save hook does when the task list was
    modified: it re-derives both counters, and they are consistent. *)
Lemma sprint_save_counters (id : positive) (s s' : Sprint) (w w' : World) :
  sprint_save true id s w = (inr s', w') ->
  sprints w' !! id = Some s'
  ∧ sprint_tasks s' = sprint_tasks s
  ∧ sprint_completedTasks s' = countCompleted (sprint_tasks s) (tasks w)
  ∧ countersConsistent s'.
Proof.
  unfold sprint_save. unfold_db. case_bool_decide; [done|].
  cbn. intros [= <- <-]. cbn. rewrite lookup_insert_eq.
  repeat split; cbn. apply countCompleted_le_length.
Qed.

(** C1, at a failing input.  Sprint 30 starts empty with both counters at 0.
    [addTasksToSprint] puts task 20 into its list and leaves [totalTasks] at
    0; [moveToSprint] does the same and its save hook then counts one
    completed task, so [completedTasks] exceeds [totalTasks]. *)
Theorem addTasksToSprint_stale_counters :
  countersConsistent (sampleSprint 1 [])
  ∧ (∃ s' w', addTasksToSprint 30 [20%positive] world1 = (Success 200 (Some s'), w')
        ∧ sprints w' !! 30%positive = Some s'
        ∧ sprint_tasks s' = [20%positive]
        ∧ sprint_totalTasks s' = 0%nat
        ∧ ¬ countersConsistent s')
  ∧ (∃ t' s' w', moveToSprint 20 (Some 30%positive) world1 = (inr t', w')
        ∧ sprints w' !! 30%positive = Some s'
        ∧ sprint_tasks s' = [20%positive]
        ∧ sprint_completedTasks s' = 1%nat
        ∧ sprint_totalTasks s' = 0%nat
        ∧ ¬ countersConsistent s').
Proof.
  split; [|split].
  - split; cbn; lia.
  - eexists _, _. split; [vm_compute; reflexivity|].
    split; [vm_compute; reflexivity|].
    repeat split. intros [_ H]. cbn in H. discriminate.
  - eexists _, _, _. split; [vm_compute; reflexivity|].
    split; [vm_compute; reflexivity|].
    repeat split. intros [H _]. cbn in H. lia.
Qed.

(** ** C6: deleting a task *)

(** A task that another task names as its parent is not deleted: the answer
    is 400 and the store is unchanged. *)
Lemma deleteTask_parent_rejected (user : option positive) (w : World)
    (id child : positive) (t c : Task) :
  tasks w !! id = Some t ->
  tasks w !! child = Some c ->
  task_parentTask c = Some id ->
  deleteTask user (WellFormed id) w
  = (Failure 400 "Cannot delete a task that has child tasks. Delete children first.", w).
Proof.
  intros Ht Hc Hp. unfold deleteTask, catchAll, castId. unfold_db. cbn.
  rewrite Ht. cbn.
  rewrite bool_decide_eq_true_2; [done|]. by exists child, c.
Qed.

(** The document-level [deleteOne] path, with its hook, does pull the task
    from every sprint. *)
Lemma task_deleteOne_pulls (id : positive) (w : World) :
  ∃ w', task_deleteOne id w = (inr tt, w')
        ∧ tasks w' !! id = None
        ∧ ∀ sid s, sprints w' !! sid = Some s -> id ∉ sprint_tasks s.
Proof.
  eexists. split; [reflexivity|]. cbn. split; [apply lookup_delete_eq|].
  intros sid s. rewrite lookup_fmap. destruct (sprints w !! sid) as [s0|]; [|done].
  cbn. intros [= <-]. case_bool_decide as Hin; [|done].
  cbn. rewrite list_elem_of_filter. intros [Hne _]. by apply Hne.
Qed.

(** C6, at a failing input.  [deleteTask] removes the childless task 20 with
    [findByIdAndDelete], for which the [deleteOne] hook does not run: the
    task is gone and sprint 30 still lists it. *)
Theorem deleteTask_leaves_sprint_entry :
  ∃ w', deleteTask None (WellFormed 20) world2 = (Success 200 "Task deleted successfully", w')
        ∧ tasks w' !! 20%positive = None
        ∧ sprints w' = sprints world2
        ∧ ∃ s, sprints w' !! 30%positive = Some s ∧ 20%positive ∈ sprint_tasks s.
Proof.
  eexists. split; [vm_compute; reflexivity|].
  split; [vm_compute; reflexivity|].
  split; [vm_compute; reflexivity|].
  eexists. split; [vm_compute; reflexivity|]. cbn. apply list_elem_of_here.
Qed.

(** ** The save hooks, one by one *)

Lemma pre_save_storyPoints_fields (t : Task) :
  task_name (pre_save_storyPoints t) = task_name t
  ∧ task_type (pre_save_storyPoints t) = task_type t
  ∧ task_status (pre_save_storyPoints t) = task_status t
  ∧ task_project (pre_save_storyPoints t) = task_project t
  ∧ task_sprint (pre_save_storyPoints t) = task_sprint t
  ∧ task_completedAt (pre_save_storyPoints t) = task_completedAt t
  ∧ task_parentTask (pre_save_storyPoints t) = task_parentTask t.
Proof.
  unfold pre_save_storyPoints.
  destruct (task_storyPoints t) as [[| |]|]; cbn; repeat split.
Qed.

Lemma pre_save_status_world (isNew modStatus : bool) (t : Task) (w w' : World)
    (r : Error + unit) :
  pre_save_status isNew modStatus t w = (r, w') -> w' = w.
Proof.
  unfold pre_save_status. unfold_db.
  destruct (isNew || modStatus); [|congruence].
  destruct (projects w !! task_project t) as [p|]; [|congruence].
  destruct (existsb _ _); congruence.
Qed.

Lemma pre_save_sprintStats_spec (modStatus modSprint : bool) (t : Task) (w : World) :
  ∃ w', pre_save_sprintStats modStatus modSprint t w
        = (inr (apply_field (FCompletedAt (completedAtAfterSave modStatus modSprint t w)) t), w')
        ∧ tasks w' = tasks w ∧ projects w' = projects w ∧ clock w' = clock w
        ∧ nextId w' = nextId w ∧ activities w' = activities w
        ∧ activityRejects w' = activityRejects w ∧ users w' = users w
        ∧ dom (sprints w') = dom (sprints w).
Proof.
  unfold pre_save_sprintStats, completedAtAfterSave. unfold_db.
  destruct t as [n d p ty st pr [sid|] rep a sp c par]; cbn;
    [|by exists w].
  destruct (modStatus || modSprint); cbn; [|by exists w].
  destruct (sprints w !! sid) as [s|] eqn:Hs; cbn; [|by exists w].
  eexists. split.
  - destruct (isTerminal st), c; reflexivity.
  - cbn. repeat split. apply dom_alter_L.
Qed.

Lemma pre_save_hierarchy_spec (t : Task) (w w' : World) (r : Error + Task) :
  pre_save_hierarchy t w = (r, w') ->
  w' = w
  ∧ ∀ t', r = inr t' ->
      t' = (if bool_decide (task_type t = epic) && bool_decide (task_parentTask t ≠ None)
            then apply_field (FParentTask None) t else t).
Proof.
  unfold pre_save_hierarchy. unfold_db.
  set (t1 := if _ && _ then _ else t).
  destruct (task_type t1) eqn:Hty, (task_parentTask t1) as [pid|] eqn:Hpar; cbn;
    repeat (match goal with
            | |- context [tasks w !! ?i] => destruct (tasks w !! i) as [?|]; cbn
            | |- context [bool_decide ?P] => destruct (bool_decide P); cbn
            end);
    intros [= <- <-]; split; try reflexivity; intros ? [= <-]; try reflexivity; try discriminate.
Qed.

Lemma pre_save_sprintCleared_spec (modSprint : bool) (id : positive) (t : Task) (w : World) :
  ∃ w', pre_save_sprintCleared modSprint id t w = (inr tt, w')
        ∧ tasks w' = tasks w ∧ projects w' = projects w ∧ clock w' = clock w
        ∧ nextId w' = nextId w ∧ activities w' = activities w
        ∧ activityRejects w' = activityRejects w ∧ users w' = users w.
Proof.
  unfold pre_save_sprintCleared, pullFromAllSprints. unfold_db.
  destruct (modSprint && _); eexists; (split; [reflexivity|]); repeat split.
Qed.

(** The write that ends a save either throws and leaves the tasks alone, or
    stores the document under its [_id] with its (name, project) pair free. *)
Lemma final_write_spec (isNew : bool) (id : positive) (t : Task) (w w' : World)
    (r : Error + unit) :
  (if isNew then insertTask id t else writeTask id t) w = (r, w') ->
  (∃ e, r = inl e ∧ w' = w)
  ∨ (r = inr tt ∧ nameTaken id t (tasks w) = false
     ∧ w' = set_tasks (insert id t) w).
Proof.
  destruct isNew; unfold insertTask, writeTask; unfold_db; cbn;
    destruct (bool_decide _); cbn; try (intros [= <- <-]; left; eauto; fail);
    destruct (nameTaken id t (tasks w)) eqn:Hn; cbn; intros [= <- <-]; eauto.
Qed.

(** What a successful save returns and stores. *)
Lemma task_save_success (isNew modStatus modSprint : bool) (id : positive)
    (t t' : Task) (w w' : World) :
  task_save isNew modStatus modSprint id t w = (inr t', w') ->
  let t1 := pre_save_storyPoints t in
  let t2 := apply_field (FCompletedAt (completedAtAfterSave modStatus modSprint t1 w)) t1 in
  t' = (if bool_decide (task_type t2 = epic) && bool_decide (task_parentTask t2 ≠ None)
        then apply_field (FParentTask None) t2 else t2)
  ∧ nameTaken id t' (tasks w) = false
  ∧ tasks w' = <[id := t']> (tasks w).
Proof.
  unfold task_save. intros H. cbv zeta in H |- *.
  apply bind_inr in H as ([] & w1 & H1 & H).
  apply pre_save_status_world in H1 as ->.
  apply bind_inr in H as (t2 & w2 & H2 & H).
  destruct (pre_save_sprintStats_spec modStatus modSprint (pre_save_storyPoints t) w)
    as (w2' & Hstats & Htasks & _).
  rewrite Hstats in H2. injection H2 as <- <-.
  apply bind_inr in H as (t3 & w3 & H3 & H).
  apply pre_save_hierarchy_spec in H3 as [-> H3]. specialize (H3 _ eq_refl).
  apply bind_inr in H as ([] & w4 & H4 & H).
  destruct (pre_save_sprintCleared_spec modSprint id t3 w2') as (w4' & Hcleared & Htasks4 & _).
  rewrite Hcleared in H4. injection H4 as <-.
  apply bind_inr in H as ([] & w5 & H5 & H).
  apply final_write_spec in H5 as [(e & [=] & _)|(_ & Hfree & ->)].
  unfold ret in H. injection H as <- <-.
  rewrite Htasks4, Htasks in Hfree.
  split; [exact H3|]. split; [exact Hfree|].
  unfold set_tasks; cbn [tasks]. by rewrite Htasks4, Htasks.
Qed.

(** ** C4: completion timestamp *)

(** C4, as the code has it.  After a successful save the stored document's
    [completedAt] is set to the current time when the status is terminal and
    it was unset, and cleared when the status is not terminal, but only if the
    status or the sprint was modified and the task's sprint reference resolves
    to a stored sprint; for a task without a sprint (or with neither field
    modified) [completedAt] is left as it was. *)
Theorem task_save_completedAt (isNew modStatus modSprint : bool) (id : positive)
    (t t' : Task) (w w' : World) :
  task_save isNew modStatus modSprint id t w = (inr t', w') ->
  tasks w' !! id = Some t'
  ∧ task_completedAt t' =
      match task_sprint t with
      | Some sid =>
          if (modStatus || modSprint) && bool_decide (is_Some (sprints w !! sid)) then
            if isTerminal (task_status t)
            then match task_completedAt t with
                 | None => Some (clock w)
                 | Some previous => Some previous
                 end
            else None
          else task_completedAt t
      | None => task_completedAt t
      end.
Proof.
  intros H. apply task_save_success in H as (-> & _ & ->). cbn zeta.
  split; [apply lookup_insert_eq|].
  destruct (pre_save_storyPoints_fields t) as (_ & _ & Hst & _ & Hsp & Hc & _).
  set (t2 := apply_field _ _).
  assert (task_completedAt t2
          = completedAtAfterSave modStatus modSprint (pre_save_storyPoints t) w) as Ht2
    by reflexivity.
  assert (task_completedAt (if bool_decide (task_type t2 = epic)
                               && bool_decide (task_parentTask t2 ≠ None)
                            then apply_field (FParentTask None) t2 else t2)
          = task_completedAt t2) as -> by (destruct (_ && _); reflexivity).
  rewrite Ht2. unfold completedAtAfterSave. rewrite Hst, Hsp, Hc.
  destruct (task_sprint t); [|done].
  destruct (_ && _); [|done].
  destruct (isTerminal _); [|done].
  by destruct (task_completedAt t).
Qed.

Lemma task_save_completedAt_witness :
  ∃ t' w',
    task_save false true false 20
      (apply_field (FStatus "Done") (apply_field (FSprint (Some 30%positive))
         (sampleTask "Fix login" "To Do" 1))) world3 = (inr t', w')
    ∧ tasks w' !! 20%positive = Some t'
    ∧ task_completedAt t' = Some (clock world3).
Proof.
  eexists _, _.
  assert (task_save false true false 20
            (apply_field (FStatus "Done") (apply_field (FSprint (Some 30%positive))
               (sampleTask "Fix login" "To Do" 1))) world3 = (inr _, _)) as Hsave
    by (vm_compute; reflexivity).
  split; [exact Hsave|].
  exact (task_save_completedAt false true false 20 _ _ world3 _ Hsave).
Defined.

(** The claim as stated fails for a task outside any sprint: saved with its
    status changed to 'Done', it keeps an unset [completedAt]. *)
Lemma task_save_no_sprint_no_timestamp :
  ∃ t' w',
    task_save false true false 20
      (apply_field (FStatus "Done") (sampleTask "Fix login" "To Do" 1))
      (set_tasks (fun _ => {[ 20%positive := sampleTask "Fix login" "To Do" 1 ]}) world1)
    = (inr t', w')
    ∧ task_sprint t' = None
    ∧ isTerminal (task_status t') = true
    ∧ task_completedAt t' = None.
Proof.
  eexists _, _. split; [vm_compute; reflexivity|]. repeat split.
Qed.

Lemma checkParent_outcome (type : option TaskType) (parentTask : option RawId)
    (w w' : World) (r : Error + (Response (positive * Task) + option positive)) :
  checkParent type parentTask w = (r, w') ->
  w' = w
  ∧ ((∃ code msg, r = inr (inl (Failure code msg)))
     ∨ (∃ parent, r = inr (inr parent)
          ∧ (type = Some epic -> parentTask = None ∧ parent = None))).
Proof.
  unfold checkParent, castId. unfold_db.
  destruct parentTask as [[pid|s]|]; cbn.
  - destruct (tasks w !! pid) as [parentDoc|]; cbn.
    + destruct (_ && _); [intros [= <- <-]; eauto 6|].
      destruct (_ && _); [intros [= <- <-]; eauto 6|].
      case_bool_decide as Hepic; intros [= <- <-]; [eauto 6|].
      split; [done|]. right. eexists. split; [done|]. done.
    + intros [= <- <-]; eauto 6.
  - intros [= <- <-]; eauto 6.
  - case_bool_decide as Hsub; intros [= <- <-]; [eauto 6|].
    split; [done|]. right. eexists. split; [done|]. done.
Qed.

Arguments task_save : simpl never.

Arguments checkParent : simpl never.

Arguments activity_save : simpl never.

Lemma createTask_outcome (user : option positive) (body : CreateTaskBody)
    (w w' : World) (r : Response (positive * Task)) :
  createTask user body w = (r, w') ->
  (∃ code msg, r = Failure code msg ∧ w' = w)
  ∨ ∃ (pid : positive) (projectDoc : Project) (newTask : Task)
      (saved : Error + Task) (w2 : World),
      body_project body = Some (WellFormed pid)
      ∧ projects w !! pid = Some projectDoc
      ∧ builtFrom body pid projectDoc newTask
      ∧ task_save true true false (nextId w) newTask (bump_nextId w) = (saved, w2)
      ∧ tasks w' = tasks w2
      ∧ match saved with
        | inl _ => ∃ code msg, r = Failure code msg
        | inr t' => r = Success 201 (nextId w, t') ∨ ∃ code msg, r = Failure code msg
        end.
Proof.
  unfold createTask, catchValidation. intros H.
  destruct (body_project body) as [project|] eqn:Hp;
    [|unfold ret in H; injection H as <- <-; left; eauto].
  destruct (body_assignee body) as [assignee|] eqn:Ha;
    [|unfold ret in H; injection H as <- <-; left; eauto].
  destruct (_ || _); [unfold ret in H; injection H as <- <-; left; eauto|].
  destruct project as [pid|s]; cbn [validateObjectId negb] in H;
    [|unfold ret in H; injection H as <- <-; left; eauto].
  unfold castId at 1 in H. unfold bind at 1 2, ret at 1, gets at 1 in H.
  destruct (projects w !! pid) as [projectDoc|] eqn:Hproj;
    [|unfold ret in H; injection H as <- <-; left; eauto].
  destruct assignee as [aid|s]; cbn [validateObjectId negb] in H;
    [|unfold ret in H; injection H as <- <-; left; eauto].
  unfold castId at 1 in H. unfold bind at 1 2, ret at 1, gets at 1 in H.
  destruct (negb _); [unfold ret in H; injection H as <- <-; left; eauto|].
  destruct (match body_reporter body with Some _ => _ | None => _ end);
    [unfold ret in H; injection H as <- <-; left; eauto|].
  unfold bind at 1 in H.
  destruct (checkParent _ _ w) as [checked w1] eqn:Hcheck.
  apply checkParent_outcome in Hcheck as [-> [(code & msg & ->)|(parent & -> & Hepic)]];
    [unfold ret in H; injection H as <- <-; left; eauto|].
  unfold bind at 1, newObjectId at 1 in H.
  set (newTask := mkTask _ _ _ _ _ _ _ _ _ _ _ _) in H.
  unfold bind at 1 in H.
  destruct (task_save true true false (nextId w) newTask (bump_nextId w))
    as [saved w2] eqn:Hsave.
  right. exists pid, projectDoc, newTask, saved, w2.
  split; [done|]. split; [done|]. split; [unfold builtFrom; do 6 (split; [reflexivity|]); exact Hepic|]. split; [done|].
  destruct saved as [e|t'].
  - destruct (bool_decide _); injection H as <- <-; eauto.
  - unfold bind at 1 2, gets at 1, activity_save, bind, gets in H.
    destruct (activityRejects w2 _) as [e|]; cbn in H.
    + destruct (bool_decide _); injection H as <- <-; eauto.
    + injection H as <- <-. eauto.
Qed.

Lemma task_save_failure (isNew modStatus modSprint : bool) (id : positive)
    (t : Task) (w w' : World) (e : Error) :
  task_save isNew modStatus modSprint id t w = (inl e, w') ->
  tasks w' = tasks w.
Proof.
  unfold task_save. intros H. cbv zeta in H.
  apply bind_inv in H as [(e1 & H1 & _)|([] & w1 & H1 & H)];
    apply pre_save_status_world in H1 as ->; [done|].
  destruct (pre_save_sprintStats_spec modStatus modSprint (pre_save_storyPoints t) w)
    as (w2 & Hstats & Htasks & _).
  apply bind_inv in H as [(e1 & H2 & _)|(t2 & w2' & H2 & H)];
    rewrite Hstats in H2; [discriminate|]. injection H2 as <- <-.
  apply bind_inv in H as [(e1 & H3 & _)|(t3 & w3 & H3 & H)];
    apply pre_save_hierarchy_spec in H3 as [-> _]; [done|].
  destruct (pre_save_sprintCleared_spec modSprint id t3 w2) as (w4 & Hcleared & Htasks4 & _).
  apply bind_inv in H as [(e1 & H4 & _)|([] & w4' & H4 & H)];
    rewrite Hcleared in H4; [discriminate|]. injection H4 as <-.
  apply bind_inv in H as [(e1 & H5 & _)|([] & w5 & H5 & H)]; [|discriminate].
  apply final_write_spec in H5 as [(e2 & _ & ->)|([=] & _)]. congruence.
Qed.

(** ** C2: epics and parents *)

(** The hierarchy hook at work: whatever a save stores as an epic has no
    parent. *)
Lemma task_save_epic (isNew modStatus modSprint : bool) (id : positive)
    (t t' : Task) (w w' : World) :
  task_save isNew modStatus modSprint id t w = (inr t', w') ->
  task_type t' = epic -> task_parentTask t' = None.
Proof.
  intros H. apply task_save_success in H as (-> & _ & _). cbv zeta.
  set (t2 := apply_field _ _).
  destruct (bool_decide (task_type t2 = epic)) eqn:Hty; cbn [andb]; [|].
  - destruct (bool_decide (task_parentTask t2 ≠ None)) eqn:Hpar; [done|].
    intros _. apply bool_decide_eq_false in Hpar.
    by destruct (task_parentTask t2); [destruct Hpar|].
  - apply bool_decide_eq_false in Hty. done.
Qed.

(** C2, as the code has it.  On creation an epic that comes with a parent is
    rejected, and nothing is stored; it is not normalized.  The model's save
    hook clears the parent of an epic on every document save, so a store in
    which every epic is parentless stays so across [createTask], and a task
    created as an epic has no parent. *)
Theorem createTask_epic_parent (user : option positive) (body : CreateTaskBody)
    (w : World) :
  epicsParentless (tasks w) ->
  (body_type body = Some epic -> body_parentTask body ≠ None ->
     ∃ code msg, createTask user body w = (Failure code msg, w))
  ∧ epicsParentless (tasks (createTask user body w).2)
  ∧ (∀ id t w', createTask user body w = (Success 201 (id, t), w') ->
       tasks w' !! id = Some t ∧ (task_type t = epic -> task_parentTask t = None)).
Proof.
  intros Hinv.
  destruct (createTask user body w) as [r w'] eqn:Hcreate.
  pose proof (createTask_outcome _ _ _ _ _ Hcreate) as Hout.
  split; [|split].
  - intros Hepic Hparent.
    destruct Hout as [(code & msg & -> & ->)|
                      (pid & projectDoc & newTask & saved & w2 & _ & _ & Hbuilt & _)];
      [eauto|].
    destruct Hbuilt as (_ & _ & _ & _ & _ & _ & Hnone).
    by destruct (Hnone Hepic) as [? _].
  - cbn [snd].
    destruct Hout as [(code & msg & -> & ->)|
                      (pid & projectDoc & newTask & saved & w2 & _ & _ & _ & Hsave & -> & _)];
      [done|].
    destruct saved as [e|t'].
    + by rewrite (task_save_failure _ _ _ _ _ _ _ _ Hsave).
    + pose proof (task_save_epic _ _ _ _ _ _ _ _ Hsave) as Hepic.
      apply task_save_success in Hsave as (_ & _ & ->).
      by apply map_Forall_insert_2.
  - intros id t wf [= -> ->].
    destruct Hout as [(code & msg & [=] & _)|
                      (pid & projectDoc & newTask & saved & w2 & _ & _ & _ & Hsave & Htasks & Hr)].
    destruct saved as [e|t']; [by destruct Hr as (? & ? & [=])|].
    destruct Hr as [[= -> ->]|(? & ? & [=])].
    split; [|by eapply task_save_epic].
    apply task_save_success in Hsave as (_ & _ & Hw2).
    rewrite Htasks, Hw2. apply lookup_insert_eq.
Qed.

Lemma createTask_epic_parent_witness :
  (∃ code msg, createTask None (requestBody "Roadmap" "To Do" (Some epic) (Some 20%positive)) world4
               = (Failure code msg, world4))
  ∧ epicsParentless
      (tasks (createTask None (requestBody "Roadmap" "To Do" (Some epic) None) world4).2).
Proof.
  split.
  - apply (createTask_epic_parent None _ world4);
      [apply (bool_decide_unpack _); vm_compute; exact I|reflexivity|discriminate].
  - apply (createTask_epic_parent None _ world4).
    apply (bool_decide_unpack _); vm_compute; exact I.
Defined.

(** The claim as stated fails on both paths: creation rejects an epic with a
    parent instead of clearing it, and an update that turns the child task 21
    into an epic goes through [findByIdAndUpdate], runs no save hook, and
    leaves an epic with a parent in the store. *)
Lemma createTask_rejects_epic_with_parent :
  createTask None (requestBody "Roadmap" "To Do" (Some epic) (Some 20%positive)) world4
  = (Failure 400 "Epics cannot have parent tasks", world4)
  ∧ ∃ t' w', updateTask None (WellFormed 21) [FType epic] world4 = (Success 200 t', w')
             ∧ tasks w' !! 21%positive = Some t'
             ∧ task_type t' = epic
             ∧ task_parentTask t' = Some 20%positive.
Proof.
  split; [vm_compute; reflexivity|].
  eexists _, _. split; [vm_compute; reflexivity|].
  split; [vm_compute; reflexivity|]. split; reflexivity.
Qed.

(** ** C3: a status that names no column *)

(** A save goes through only if the status hook, when it applies, found the
    status among the project's columns; the save changes neither the status
    nor the name, type, project or sprint of the document. *)
Lemma task_save_status_checked (isNew modStatus modSprint : bool) (id : positive)
    (t t' : Task) (w w' : World) :
  task_save isNew modStatus modSprint id t w = (inr t', w') ->
  isNew || modStatus = true ->
  ∃ projectDoc, projects w !! task_project t = Some projectDoc
                ∧ namesColumn (task_status t) projectDoc = true.
Proof.
  unfold task_save. intros H Hmod. cbv zeta in H.
  apply bind_inr in H as ([] & w1 & H1 & _).
  destruct (pre_save_storyPoints_fields t) as (_ & _ & Hst & Hpr & _).
  unfold pre_save_status in H1. rewrite Hmod, Hst, Hpr in H1. unfold_db.
  destruct (projects w !! task_project t) as [projectDoc|]; [|discriminate].
  exists projectDoc. split; [done|]. unfold namesColumn.
  by destruct (existsb _ _).
Qed.

Lemma task_save_fields (isNew modStatus modSprint : bool) (id : positive)
    (t t' : Task) (w w' : World) :
  task_save isNew modStatus modSprint id t w = (inr t', w') ->
  task_name t' = task_name t ∧ task_type t' = task_type t
  ∧ task_status t' = task_status t ∧ task_project t' = task_project t
  ∧ task_sprint t' = task_sprint t.
Proof.
  intros H. apply task_save_success in H as (-> & _ & _). cbv zeta.
  destruct (pre_save_storyPoints_fields t) as (Hn & Hty & Hst & Hpr & Hsp & _).
  destruct (_ && _); cbn; by rewrite Hn, Hty, Hst, Hpr, Hsp.
Qed.

(** A new, sprintless document whose status names a column, whose parent
    needs no check and whose [_id] and (name, project) pair are free is
    saved. *)
Lemma task_save_new (id : positive) (t : Task) (w : World) (projectDoc : Project) :
  projects w !! task_project t = Some projectDoc ->
  namesColumn (task_status t) projectDoc = true ->
  task_sprint t = None ->
  task_parentTask t = None ->
  task_type t ≠ subtask ->
  tasks w !! id = None ->
  nameTaken id t (tasks w) = false ->
  task_save true true false id t w
  = (inr (pre_save_storyPoints t), set_tasks (insert id (pre_save_storyPoints t)) w).
Proof.
  intros Hproj Hcol Hsprint Hparent Htype Hfresh Hfree.
  destruct (pre_save_storyPoints_fields t) as (Hn & Hty & Hst & Hpr & Hsp & _ & Hpa).
  unfold task_save. cbv zeta. set (t1 := pre_save_storyPoints t) in *.
  rewrite (bind_inr_eq _ _ w w tt).
  2:{ unfold pre_save_status. unfold_db. cbn [orb]. rewrite Hst, Hpr, Hproj.
      unfold namesColumn in Hcol. by rewrite Hcol. }
  rewrite (bind_inr_eq _ _ w w t1).
  2:{ unfold pre_save_sprintStats. by rewrite Hsp, Hsprint. }
  rewrite (bind_inr_eq _ _ w w t1).
  2:{ unfold pre_save_hierarchy. unfold_db.
      replace (bool_decide (task_parentTask t1 ≠ None)) with false
        by (rewrite Hpa, Hparent; symmetry; apply bool_decide_eq_false_2;
            intros Hne; by apply Hne).
      rewrite andb_false_r. cbv iota zeta. rewrite !Hpa, !Hparent.
      destruct (task_type t1) eqn:E; try reflexivity.
      exfalso. rewrite Hty in E. done. }
  rewrite (bind_inr_eq _ _ w w tt) by reflexivity.
  rewrite (bind_inr_eq _ _ w (set_tasks (insert id t1) w) tt); [reflexivity|].
  unfold insertTask. unfold_db. rewrite Hfresh.
  rewrite bool_decide_eq_false_2 by (by intros [? ?]).
  assert (nameTaken id t1 (tasks w) = nameTaken id t (tasks w)) as ->
    by (unfold nameTaken; by rewrite Hn, Hpr).
  by rewrite Hfree.
Qed.

(** C3, as the code has it.  For a project with at least one column, a
    requested status that names none of its columns is replaced by the first
    column's name and an otherwise valid creation proceeds with it; whatever
    task [createTask] creates carries a status that names a column, so for a
    project without columns (where the substitute is ['To Do']) nothing is
    ever created. *)
Theorem createTask_status_substitution (user : option positive)
    (body : CreateTaskBody) (w : World) (pid : positive) (projectDoc : Project) :
  body_project body = Some (WellFormed pid) ->
  projects w !! pid = Some projectDoc ->
  namesColumn (if bool_decide (body_status body = "") then defaultStatus
               else body_status body) projectDoc = false ->
  (∀ first rest aid,
     project_boardColumns projectDoc = first :: rest ->
     col_name first ≠ "" ->
     body_name body ≠ "" -> body_description body ≠ "" ->
     body_assignee body = Some (WellFormed aid) -> aid ∈ users w ->
     body_reporter body = None -> body_parentTask body = None ->
     body_type body ≠ Some subtask ->
     tasks w !! nextId w = None ->
     (∀ i t, tasks w !! i = Some t ->
             ¬ (task_name t = body_name body ∧ task_project t = pid)) ->
     (∀ a, activityRejects w a = None) ->
     ∃ t w', createTask user body w = (Success 201 (nextId w, t), w')
             ∧ task_status t = col_name first
             ∧ tasks w' !! nextId w = Some t)
  ∧ (∀ id t w', createTask user body w = (Success 201 (id, t), w') ->
       task_status t = chooseStatus (body_status body) projectDoc
       ∧ namesColumn (task_status t) projectDoc = true)
  ∧ (project_boardColumns projectDoc = [] ->
     chooseStatus (body_status body) projectDoc = "To Do"
     ∧ ∃ code msg, (createTask user body w).1 = Failure code msg
                   ∧ tasks (createTask user body w).2 = tasks w).
Proof.
  intros Hp Hproj Hunknown.
  assert (∀ id t w', createTask user body w = (Success 201 (id, t), w') ->
            task_status t = chooseStatus (body_status body) projectDoc
            ∧ namesColumn (task_status t) projectDoc = true) as Hcreated.
  { intros id t w' Hcreate.
    apply createTask_outcome in Hcreate
      as [(code & msg & [=] & _)|
          (pid' & projectDoc' & newTask & saved & w2 & Hp' & Hproj' & Hbuilt & Hsave & _ & Hr)].
    rewrite Hp in Hp'. injection Hp' as <-. rewrite Hproj in Hproj'. injection Hproj' as <-.
    destruct saved as [e|t']; [by destruct Hr as (? & ? & [=])|].
    destruct Hr as [[= -> ->]|(? & ? & [=])].
    destruct Hbuilt as (_ & _ & Hst & Hpr & _).
    pose proof (task_save_fields _ _ _ _ _ _ _ _ Hsave) as (_ & _ & Hst' & _).
    apply task_save_status_checked in Hsave as (projectDoc' & Hproj' & Hcol); [|done].
    cbn in Hproj'. rewrite Hpr, Hproj in Hproj'. injection Hproj' as <-.
    rewrite Hst'. split; [done|exact Hcol]. }
  split; [|split; [exact Hcreated|]].
  - intros first rest aid Hcols Hfirst Hname Hdesc Ha Huser Hrep Hparent Htype
           Hfresh Hfree Hact.
    assert (chooseStatus (body_status body) projectDoc = col_name first) as Hchoose.
    { unfold chooseStatus. unfold namesColumn in Hunknown. rewrite Hunknown, Hcols.
      by rewrite bool_decide_eq_false_2. }
    set (newTask := mkTask (body_name body) (body_description body)
                      (default medium (body_priority body))
                      (default task (body_type body))
                      (col_name first) pid None None aid (body_storyPoints body) None None).
    assert (namesColumn (task_status newTask) projectDoc = true) as Hcolumn.
    { unfold namesColumn. rewrite Hcols. cbn. by rewrite bool_decide_eq_true_2. }
    assert (task_type newTask ≠ subtask) as Htype'.
    { cbn. destruct (body_type body) as [[]|]; cbn; congruence. }
    assert (nameTaken (nextId w) newTask (tasks w) = false) as Hfree'.
    { apply bool_decide_eq_false_2. intros (i & t & Hi & _ & Hn & Hpr).
      by apply (Hfree i t Hi). }
    exists (pre_save_storyPoints newTask).
    eexists. split; [|split].
    + unfold createTask, catchValidation. rewrite Hp, Ha.
      rewrite (bool_decide_eq_false_2 (body_name body = "")) by done.
      rewrite (bool_decide_eq_false_2 (body_description body = "")) by done.
      cbn [orb validateObjectId negb castId].
      unfold bind at 1 2, ret at 1, gets at 1. rewrite Hproj.
      unfold bind at 1 2, ret at 1, gets at 1.
      rewrite bool_decide_eq_true_2 by done. cbn [negb]. rewrite Hrep.
      unfold checkParent. rewrite Hparent.
      rewrite (bool_decide_eq_false_2 (body_type body = Some subtask)) by done.
      unfold bind at 1, ret at 1. unfold bind at 1, newObjectId at 1.
      rewrite Hchoose. fold newTask.
      rewrite (bind_inr_eq _ _ _ _ _ (task_save_new (nextId w) newTask (bump_nextId w) projectDoc
                 Hproj Hcolumn eq_refl eq_refl Htype' Hfresh Hfree')).
      unfold bind, gets, activity_save, modify, ret. cbn. rewrite Hact. reflexivity.
    + destruct (pre_save_storyPoints_fields newTask) as (_ & _ & Hst & _). by rewrite Hst.
    + cbn. apply lookup_insert_eq.
  - intros Hnone. split.
    + unfold chooseStatus. unfold namesColumn in Hunknown. by rewrite Hunknown, Hnone.
    + destruct (createTask user body w) as [r w'] eqn:Hcreate. cbn [fst snd].
      apply createTask_outcome in Hcreate
        as [(code & msg & -> & ->)|
            (pid' & projectDoc' & newTask & saved & w2 & Hp' & _ & Hbuilt & Hsave & -> & Hr)];
        [eauto|].
      destruct saved as [e|t'].
      * destruct Hr as (code & msg & ->). exists code, msg.
        split; [done|]. exact (task_save_failure _ _ _ _ _ _ _ _ Hsave).
      * exfalso.
        apply task_save_status_checked in Hsave as (pd & Hpd & Hcol); [|done].
        destruct Hbuilt as (_ & _ & _ & Hpr & _).
        rewrite Hp in Hp'. injection Hp' as <-.
        cbn in Hpd. rewrite Hpr, Hproj in Hpd. injection Hpd as <-.
        unfold namesColumn in Hcol. by rewrite Hnone in Hcol.
Qed.

Lemma createTask_status_substitution_witness :
  ∃ t w', createTask None (requestBody "Write docs" "Blocked" None None) world1
          = (Success 201 (nextId world1, t), w')
          ∧ task_status t = "To Do"
          ∧ tasks w' !! nextId world1 = Some t.
Proof.
  assert (projects world1 !! 1%positive = Some sampleProject) as Hproj
    by (vm_compute; reflexivity).
  destruct (createTask_status_substitution None
              (requestBody "Write docs" "Blocked" None None) world1 1 sampleProject
              eq_refl Hproj eq_refl) as [Hcreates _].
  apply (Hcreates (mkColumn 100 "To Do" 0)
           [ mkColumn 101 "In Progress" 1; mkColumn 102 "In Review" 2; mkColumn 103 "Done" 3 ]
           7%positive); try reflexivity; try discriminate.
  intros i t Hi [Hname _]. cbn in Hi.
  apply lookup_singleton_Some in Hi as [_ <-]. discriminate.
Defined.

(** The claim as stated fails on both halves.  On creation in a project
    without columns the substitute is ['To Do'], which the save hook rejects:
    the request ends in a 500 and nothing is created.  On update, the status
    goes through [findByIdAndUpdate], whose validators only check that it is
    non-empty: the unknown status 'Blocked' is stored. *)
Lemma unknown_status_not_handled_as_claimed :
  (∃ w', createTask None
           (mkCreateTaskBody "Write docs" "text" None "Blocked" None None
                             (Some (WellFormed 7)) None None (Some (WellFormed 3))) world5
         = (Failure 500 "Server error", w')
         ∧ tasks w' = tasks world5)
  ∧ ∃ t' w', updateTask None (WellFormed 20) [FStatus "Blocked"] world1 = (Success 200 t', w')
             ∧ namesColumn "Blocked" sampleProject = false
             ∧ task_status t' = "Blocked"
             ∧ tasks w' !! 20%positive = Some t'.
Proof.
  split.
  - eexists. split; vm_compute; reflexivity.
  - eexists _, _. split; [vm_compute; reflexivity|].
    split; [reflexivity|]. split; [reflexivity|]. vm_compute; reflexivity.
Qed.

(** ** C8: removing a board column *)

Lemma renumber_order (cols : list BoardColumn) :
  col_order <$> renumber cols = seq 0 (length cols).
Proof.
  unfold renumber. rewrite fmap_imap.
  rewrite (imap_ext _ (fun j _ => id j)) by done.
  by rewrite imap_seq_0, list_fmap_id.
Qed.

Lemma renumber_id (cols : list BoardColumn) :
  col_id <$> renumber cols = col_id <$> cols.
Proof.
  unfold renumber. rewrite fmap_imap.
  rewrite (imap_ext _ (const col_id)) by done. apply imap_const.
Qed.

Lemma renumber_name (cols : list BoardColumn) :
  col_name <$> renumber cols = col_name <$> cols.
Proof.
  unfold renumber. rewrite fmap_imap.
  rewrite (imap_ext _ (const col_name)) by done. apply imap_const.
Qed.

Lemma renumber_length (cols : list BoardColumn) :
  length (renumber cols) = length cols.
Proof. apply length_imap. Qed.

(** C8, as the code has it.  An id that matches no column gives 404 and
    leaves the store alone.  Otherwise the first column with that id is
    removed and the stored columns are numbered 0..n-1; they are the
    remaining columns in their old relative order, unless none remains: then
    the project's save hook puts the four default columns in their place. *)
Theorem removeBoardColumn_spec (w : World) (projectId columnId : positive)
    (project : Project) :
  projects w !! projectId = Some project ->
  ((∀ column, column ∈ project_boardColumns project -> col_id column ≠ columnId) ->
     removeBoardColumn projectId columnId w = (Failure 404 "Column not found", w))
  ∧ (∀ i column,
       project_boardColumns project !! i = Some column ->
       col_id column = columnId ->
       (∀ j other, (j < i)%nat -> project_boardColumns project !! j = Some other ->
                   col_id other ≠ columnId) ->
       ∃ stored w',
         removeBoardColumn projectId columnId w = (Success 200 stored, w')
         ∧ project_boardColumns <$> projects w' !! projectId = Some stored
         ∧ col_order <$> stored = seq 0 (length stored)
         ∧ (delete i (project_boardColumns project) ≠ [] ->
            col_id <$> stored = col_id <$> delete i (project_boardColumns project)
            ∧ col_name <$> stored = col_name <$> delete i (project_boardColumns project))
         ∧ (delete i (project_boardColumns project) = [] ->
            col_name <$> stored = ["To Do"; "In Progress"; "In Review"; "Done"])).
Proof.
  intros Hproj. split.
  - intros Habsent. unfold removeBoardColumn, handleAsync. unfold_db. rewrite Hproj.
    assert (findColumnIndex columnId (project_boardColumns project) = None) as ->; [|done].
    unfold findColumnIndex.
    destruct (list_find _ _) as [[i c]|] eqn:Hfind; [|done].
    apply list_find_Some in Hfind as (Hi & Hc & _).
    exfalso. eapply Habsent; [|exact Hc]. eapply list_elem_of_lookup_2, Hi.
  - intros i column Hi Hid Hfirst.
    assert (findColumnIndex columnId (project_boardColumns project) = Some i) as Hindex.
    { unfold findColumnIndex.
      assert (list_find (fun c => col_id c = columnId) (project_boardColumns project)
              = Some (i, column)) as ->; [|done].
      apply list_find_Some. split; [done|]. split; [done|].
      intros j other Hj Hlt. by eapply Hfirst. }
    unfold removeBoardColumn, handleAsync, project_save, pre_save_defaultColumns.
    unfold_db. rewrite Hproj, Hindex. cbn [project_boardColumns with_boardColumns].
    rewrite renumber_length.
    set (remaining := delete i (project_boardColumns project)).
    destruct (decide (remaining = [])) as [Hnil|Hne].
    + rewrite Hnil. cbn. eexists _, _. split; [reflexivity|]. cbn.
      rewrite lookup_insert_eq. cbn. repeat split; done.
    + rewrite bool_decide_eq_false_2
        by (intros Hlen; by apply Hne, length_zero_iff_nil).
      eexists _, _. split; [reflexivity|]. cbn [projects set_projects].
      rewrite lookup_insert_eq.
      split; [done|]. cbn [project_boardColumns with_boardColumns].
      split; [by rewrite renumber_order, renumber_length|].
      split; [|done]. intros _. by rewrite renumber_id, renumber_name.
Qed.

Lemma removeBoardColumn_spec_witness :
  ∃ stored w',
    removeBoardColumn 1 101 world1 = (Success 200 stored, w')
    ∧ project_boardColumns <$> projects w' !! 1%positive = Some stored
    ∧ col_order <$> stored = seq 0 (length stored)
    ∧ col_id <$> stored = [100; 102; 103]%positive
    ∧ col_name <$> stored = ["To Do"; "In Review"; "Done"].
Proof.
  assert (projects world1 !! 1%positive = Some sampleProject) as Hproj
    by (vm_compute; reflexivity).
  destruct (removeBoardColumn_spec world1 1 101 sampleProject Hproj) as [_ Hremoves].
  destruct (Hremoves 1%nat (mkColumn 101 "In Progress" 1) eq_refl eq_refl)
    as (stored & w' & Hrun & Hstored & Horder & Hrest & _).
  - intros [|j] other Hlt; [intros [= <-]; discriminate|lia].
  - exists stored, w'. destruct Hrest as [Hids Hnames]; [discriminate|].
    repeat split; assumption.
Defined.

(** The claim as stated fails when the removed column was the only one: the
    remaining list is empty, and what the project then holds is the four
    default columns, not an empty board. *)
Lemma removeBoardColumn_last_column_restores_defaults :
  ∃ stored w',
    removeBoardColumn 4 200 world6 = (Success 200 stored, w')
    ∧ project_boardColumns <$> projects w' !! 4%positive = Some stored
    ∧ col_name <$> stored = ["To Do"; "In Progress"; "In Review"; "Done"]
    ∧ stored ≠ renumber (delete 0%nat [mkColumn 200 "Backlog" 0]).
Proof.
  eexists _, _. split; [vm_compute; reflexivity|].
  split; [vm_compute; reflexivity|]. split; [reflexivity|]. discriminate.
Qed.

(** ** C9: activity logging never fails its caller *)

Lemma logActivity_returns (userId : option positive) (action : string)
    (taskId projectId : positive) (details fieldChanged : option string)
    (oldValue newValue : option FieldValue) (w : World) :
  let entry := mkActivity userId action taskId projectId details fieldChanged
                          oldValue newValue (clock w) in
  logActivity userId action taskId projectId details fieldChanged oldValue newValue w
  = match activityRejects w entry with
    | Some _ => (inr false, w)
    | None => (inr true, set_activities (fun l => (l ++ [entry])%list) w)
    end.
Proof.
  unfold logActivity, activity_save. unfold_db. cbn.
  by destruct (activityRejects w _).
Qed.

Lemma logChanges_returns (actorId id projectId : positive)
    (changes : list (FieldValue * FieldValue)) (w : World) :
  ∃ w', logChanges actorId id projectId changes w = (inr tt, w')
        ∧ sameButActivities w' w.
Proof.
  revert w. induction changes as [|[oldValue newValue] rest IH]; intros w.
  - exists w. by repeat split.
  - cbn [logChanges]. unfold bind at 1, try_catch at 1, bind at 1.
    rewrite logActivity_returns. cbv zeta.
    destruct (activityRejects w _).
    + unfold ret at 1. apply IH.
    + unfold ret at 1.
      destruct (IH (set_activities
                      (fun l => (l ++ [mkActivity (Some actorId)
                         (if bool_decide (field_key newValue = "status") then "changed status"
                          else if bool_decide (field_key newValue = "assignee") then "assigned"
                          else "updated") id projectId None (Some (field_key newValue))
                         (Some oldValue) (Some newValue) (clock w)])%list) w))
        as (w' & Hrun & Hsame).
      exists w'. split; [exact Hrun|].
      destruct Hsame as (? & ? & ? & ? & ? & ?). by repeat split.
Qed.


(** [updateTask] in closed form: the lookup, the update, then the logging
    loop, which only ever adds activity entries. *)
Lemma updateTask_unfold (user : option positive) (id : RawId)
    (updateData : list FieldValue) (w : World) :
  updateTask user id updateData w =
  match id with
  | Malformed _ => (Failure 500 "Server error", w)
  | WellFormed taskId =>
      match tasks w !! taskId with
      | None => (Failure 404 "Task not found", w)
      | Some existingTask =>
          match findByIdAndUpdate taskId updateData w with
          | (inl e, w1) =>
              (if bool_decide (err_name e = "ValidationError")
               then Failure 400 (err_message e) else Failure 500 "Server error", w1)
          | (inr None, w1) => (Failure 404 "Task not found after update", w1)
          | (inr (Some updated), w1) =>
              (Success 200 updated,
               (logChanges (actorOf user existingTask) taskId (task_project existingTask)
                           (changesOf existingTask updateData) w1).2)
          end
      end
  end.
Proof.
  unfold updateTask, catchValidation.
  destruct id as [taskId|s]; cbn [castId]; unfold bind, ret, gets, throwErr;
    cbv beta iota; [|reflexivity].
  destruct (tasks w !! taskId) as [existingTask|]; [|reflexivity].
  replace (match match user with
                 | Some _ => user
                 | None => Some (task_assignee existingTask)
                 end with
           | Some _ => match user with
                       | Some _ => user
                       | None => Some (task_assignee existingTask)
                       end
           | None => task_reporter existingTask
           end) with (Some (actorOf user existingTask)) by (by destruct user).
  destruct (findByIdAndUpdate taskId updateData w) as [[e|[updated|]] w1];
    [by destruct (bool_decide _)| |reflexivity].
  fold (changesOf existingTask updateData).
  by destruct (logChanges_returns (actorOf user existingTask) taskId
                 (task_project existingTask) (changesOf existingTask updateData) w1)
    as (w2 & -> & _).
Qed.



(** An instance: with an activity store that refuses every entry, updating
    task 20 and deleting it both succeed. *)
Example logging_down_update_and_delete_succeed :
  let w := set_activityRejects (fun _ => Some (Err "MongoNetworkError" "down")) world1 in
  (∃ t' w', updateTask None (WellFormed 20) [FStatus "In Progress"] w = (Success 200 t', w')
            ∧ task_status t' = "In Progress" ∧ tasks w' !! 20%positive = Some t'
            ∧ activities w' = [])
  ∧ (∃ w', deleteTask None (WellFormed 20) w = (Success 200 "Task deleted successfully", w')
           ∧ tasks w' !! 20%positive = None ∧ activities w' = []).
Proof.
  split.
  - eexists _, _. split; [vm_compute; reflexivity|]. repeat split.
  - eexists. split; [vm_compute; reflexivity|]. repeat split.
Qed.

(** ** C10: task names are unique within a project *)

Lemma nameTaken_false (id : positive) (t : Task) (m : gmap positive Task) :
  nameTaken id t m = false ->
  ∀ j other, m !! j = Some other -> j ≠ id ->
             task_project other = task_project t -> task_name other ≠ task_name t.
Proof.
  intros Hfree j other Hj Hne Hproject Hname.
  apply bool_decide_eq_false in Hfree. apply Hfree. by exists j, other.
Qed.

Lemma nameTaken_true (id : positive) (t : Task) (m : gmap positive Task)
    (j : positive) (other : Task) :
  m !! j = Some other -> j ≠ id ->
  task_name other = task_name t -> task_project other = task_project t ->
  nameTaken id t m = true.
Proof. intros. apply bool_decide_eq_true. by exists j, other. Qed.

(** The decidable form, for concrete stores. *)
Lemma namesUnique_check (m : gmap positive Task) :
  map_Forall (fun i t => nameTaken i t m = false) m -> namesUnique m.
Proof.
  intros Hall i j t1 t2 Hi Hj Hne Hproject Hname.
  eapply (nameTaken_false j t2 m (Hall j t2 Hj) i t1); done.
Qed.

Lemma namesUnique_insert (id : positive) (t : Task) (m : gmap positive Task) :
  namesUnique m -> nameTaken id t m = false -> namesUnique (<[id := t]> m).
Proof.
  intros Hm Hfree i j t1 t2 Hi Hj Hne.
  pose proof (nameTaken_false _ _ _ Hfree) as Hother.
  destruct (decide (i = id)) as [->|Hi'], (decide (j = id)) as [->|Hj']; [done|..].
  - rewrite lookup_insert_eq in Hi. rewrite lookup_insert_ne in Hj by done.
    injection Hi as <-. intros Hproject Hname.
    exact (Hother j t2 Hj Hj' (eq_sym Hproject) (eq_sym Hname)).
  - rewrite lookup_insert_eq in Hj. rewrite lookup_insert_ne in Hi by done.
    injection Hj as <-. intros Hproject Hname.
    exact (Hother i t1 Hi Hi' Hproject Hname).
  - rewrite lookup_insert_ne in Hi by done. rewrite lookup_insert_ne in Hj by done.
    by eapply Hm.
Qed.

Lemma namesUnique_delete (id : positive) (m : gmap positive Task) :
  namesUnique m -> namesUnique (delete id m).
Proof.
  intros Hm i j t1 t2 Hi Hj. apply lookup_delete_Some in Hi as [_ Hi].
  apply lookup_delete_Some in Hj as [_ Hj]. by eapply Hm.
Qed.

(** A new document is only inserted under an [_id] that is not in use. *)
Lemma task_save_new_fresh (modStatus modSprint : bool) (id : positive)
    (t t' : Task) (w w' : World) :
  task_save true modStatus modSprint id t w = (inr t', w') ->
  tasks w !! id = None.
Proof.
  unfold task_save. intros Hsave. cbv zeta in Hsave.
  apply bind_inr in Hsave as ([] & w1 & H1 & H).
  apply pre_save_status_world in H1 as ->.
  apply bind_inr in H as (t2 & w2 & H2 & H).
  destruct (pre_save_sprintStats_spec modStatus modSprint (pre_save_storyPoints t) w)
    as (w2' & Hstats & Htasks2 & _).
  rewrite Hstats in H2. injection H2 as <- <-.
  apply bind_inr in H as (t3 & w3 & H3 & H).
  apply pre_save_hierarchy_spec in H3 as [-> _].
  apply bind_inr in H as ([] & w4 & H4 & H).
  destruct (pre_save_sprintCleared_spec modSprint id t3 w2') as (w4' & Hcl & Htasks4 & _).
  rewrite Hcl in H4. injection H4 as <-.
  apply bind_inr in H as ([] & w5 & H5 & _).
  unfold insertTask in H5. unfold_db. rewrite Htasks4, Htasks2 in H5.
  destruct (tasks w !! id); [|done].
  rewrite bool_decide_eq_true_2 in H5 by eauto. discriminate.
Qed.

(** What any save does to the task collection. *)
Lemma task_save_tasks (isNew modStatus modSprint : bool) (id : positive)
    (t : Task) (w : World) :
  tasks (task_save isNew modStatus modSprint id t w).2 = tasks w
  ∨ ∃ t', nameTaken id t' (tasks w) = false
          ∧ tasks (task_save isNew modStatus modSprint id t w).2 = <[id := t']> (tasks w).
Proof.
  destruct (task_save isNew modStatus modSprint id t w) as [[e|t'] w'] eqn:Hsave; cbn [fst snd].
  - left. by eapply task_save_failure.
  - right. exists t'.
    by pose proof (task_save_success _ _ _ _ _ _ _ _ Hsave) as (_ & Hfree & Htasks).
Qed.

Lemma findByIdAndUpdate_tasks (id : positive) (updateData : list FieldValue) (w : World) :
  tasks (findByIdAndUpdate id updateData w).2 = tasks w
  ∨ ∃ t', nameTaken id t' (tasks w) = false
          ∧ tasks (findByIdAndUpdate id updateData w).2 = <[id := t']> (tasks w).
Proof.
  unfold findByIdAndUpdate. destruct (filter _ updateData); [|by left].
  unfold_db. cbn. destruct (tasks w !! id) as [t|]; [|by left].
  destruct (nameTaken _ _ _) eqn:Hfree; [by left|]. right. eauto.
Qed.

Lemma moveToSprint_tasks (taskId : positive) (sprintId : option positive)
    (w w' : World) (r : Error + Task) :
  moveToSprint taskId sprintId w = (r, w') ->
  tasks w' = tasks w
  ∨ ∃ t', nameTaken taskId t' (tasks w) = false
          ∧ tasks w' = <[taskId := t']> (tasks w).
Proof.
  unfold moveToSprint, pullFromAllSprints.
  unfold bind, gets, ret, modify, throw, throwErr. cbv beta iota.
  destruct (tasks w !! taskId) as [t|]; [|intros [= <- <-]; by left].
  destruct sprintId as [sid|].
  - destruct (sprints w !! sid) as [sprint|]; [|intros [= <- <-]; by left].
    destruct (bool_decide _); [intros [= <- <-]; by left|].
    match goal with
    | |- task_save ?a ?b ?c ?d ?e ?f = _ -> _ =>
        intros Hsave;
        destruct (task_save_tasks a b c d e f) as [Hsame|(t' & Hfree & Hins)];
        rewrite Hsave in *; [by left|right; eauto]
    end.
  - match goal with
    | |- task_save ?a ?b ?c ?d ?e ?f = _ -> _ =>
        intros Hsave;
        destruct (task_save_tasks a b c d e f) as [Hsame|(t' & Hfree & Hins)];
        rewrite Hsave in *; [by left|right; eauto]
    end.
Qed.

Lemma deleteTask_tasks (user : option positive) (id : RawId) (w : World) :
  tasks (deleteTask user id w).2 = tasks w
  ∨ ∃ taskId, tasks (deleteTask user id w).2 = delete taskId (tasks w).
Proof.
  unfold deleteTask, catchAll.
  destruct id as [taskId|s]; cbn [validateObjectId negb castId]; [|by left].
  unfold bind, ret, gets, modify. cbv beta iota.
  destruct (tasks w !! taskId) as [t|]; [|by left].
  destruct (bool_decide (map_Exists _ _)); [by left|].
  rewrite logActivity_returns. cbv zeta. right. exists taskId.
  by destruct (activityRejects _ _).
Qed.

(** C10.  In a store where no two tasks of a project share a name, the
    unique index on (name, project) keeps it so across every operation that
    writes tasks: [createTask], [updateTask], [deleteTask] and
    [moveToSprint].  Creating a task, or updating one, to a (name, project)
    pair that another task already carries fails and leaves the task
    collection as it was. *)
Theorem task_names_stay_unique (w : World) :
  namesUnique (tasks w) ->
  (∀ user body, namesUnique (tasks (createTask user body w).2))
  ∧ (∀ user id updateData, namesUnique (tasks (updateTask user id updateData w).2))
  ∧ (∀ user id, namesUnique (tasks (deleteTask user id w).2))
  ∧ (∀ taskId sprintId, namesUnique (tasks (moveToSprint taskId sprintId w).2))
  ∧ (∀ user body pid i other,
       body_project body = Some (WellFormed pid) ->
       tasks w !! i = Some other ->
       task_name other = body_name body -> task_project other = pid ->
       ∃ code msg, (createTask user body w).1 = Failure code msg
                   ∧ tasks (createTask user body w).2 = tasks w)
  ∧ (∀ user taskId updateData existing j other,
       tasks w !! taskId = Some existing ->
       tasks w !! j = Some other -> j ≠ taskId ->
       task_name other
         = task_name (foldl (fun acc f => apply_field f acc) existing updateData) ->
       task_project other
         = task_project (foldl (fun acc f => apply_field f acc) existing updateData) ->
       ∃ code msg, (updateTask user (WellFormed taskId) updateData w).1 = Failure code msg
                   ∧ tasks (updateTask user (WellFormed taskId) updateData w).2 = tasks w).
Proof.
  intros Hunique. repeat split.
  - intros user body.
    destruct (createTask user body w) as [r w'] eqn:Hcreate. cbn [snd].
    apply createTask_outcome in Hcreate
      as [(code & msg & _ & ->)|(pid & pd & newTask & saved & w2 & _ & _ & _ & Hsave & -> & _)];
      [done|].
    destruct (task_save_tasks true true false (nextId w) newTask (bump_nextId w))
      as [Hsame|(t' & Hfree & Hins)]; rewrite Hsave in *; cbn [snd] in *.
    + by rewrite Hsame.
    + rewrite Hins. by apply namesUnique_insert.
  - intros user id updateData. rewrite updateTask_unfold.
    destruct id as [taskId|s]; [|done].
    destruct (tasks w !! taskId) as [existingTask|]; [|done].
    pose proof (findByIdAndUpdate_tasks taskId updateData w) as Hupdate.
    destruct (findByIdAndUpdate taskId updateData w) as [[e|[updated|]] w1]; cbn [snd] in *.
    + destruct Hupdate as [->|(t' & Hfree & ->)]; [done|by apply namesUnique_insert].
    + destruct (logChanges_returns (actorOf user existingTask) taskId
                  (task_project existingTask) (changesOf existingTask updateData) w1)
        as (w2 & Hrun & Htasks & _).
      rewrite Hrun. cbn [snd]. rewrite Htasks.
      destruct Hupdate as [->|(t' & Hfree & ->)]; [done|by apply namesUnique_insert].
    + destruct Hupdate as [->|(t' & Hfree & ->)]; [done|by apply namesUnique_insert].
  - intros user id.
    destruct (deleteTask_tasks user id w) as [->|(taskId & ->)];
      [done|by apply namesUnique_delete].
  - intros taskId sprintId.
    destruct (moveToSprint taskId sprintId w) as [r w'] eqn:Hmove. cbn [snd].
    apply moveToSprint_tasks in Hmove as [->|(t' & Hfree & ->)];
      [done|by apply namesUnique_insert].
  - intros user body pid i other Hp Hi Hname Hproject.
    destruct (createTask user body w) as [r w'] eqn:Hcreate. cbn [fst snd].
    apply createTask_outcome in Hcreate
      as [(code & msg & -> & ->)|
          (pid' & pd & newTask & saved & w2 & Hp' & _ & Hbuilt & Hsave & -> & Hr)];
      [eauto|].
    rewrite Hp in Hp'. injection Hp' as <-.
    destruct Hbuilt as (Hn & _ & _ & Hpr & _).
    destruct saved as [e|t'].
    + destruct Hr as (code & msg & ->). exists code, msg.
      split; [done|]. exact (task_save_failure _ _ _ _ _ _ _ _ Hsave).
    + exfalso.
      pose proof (task_save_new_fresh _ _ _ _ _ _ _ Hsave) as Hfresh.
      pose proof (task_save_fields _ _ _ _ _ _ _ _ Hsave) as (Hn' & _ & _ & Hpr' & _).
      apply task_save_success in Hsave as (_ & Hfree & _).
      cbn [tasks bump_nextId] in Hfresh, Hfree.
      apply (nameTaken_false _ _ _ Hfree i other Hi).
      * intros ->. by rewrite Hfresh in Hi.
      * by rewrite Hpr', Hpr.
      * by rewrite Hn', Hn.
  - intros user taskId updateData existing j other Hexisting Hj Hne Hname Hproject.
    rewrite updateTask_unfold, Hexisting. unfold findByIdAndUpdate.
    destruct (filter _ updateData) as [|f rest].
    + unfold bind, gets, ret, throwErr. cbv beta iota. rewrite Hexisting.
      rewrite (nameTaken_true _ _ _ j other Hj Hne Hname Hproject). cbn. eauto.
    + unfold throwErr. cbn. eauto.
Qed.

Lemma task_names_stay_unique_witness :
  namesUnique (tasks (createTask None (requestBody "Write docs" "To Do" None None) world4).2)
  ∧ ∃ code msg,
      (createTask None (requestBody "Fix login" "To Do" None None) world4).1 = Failure code msg
      ∧ tasks (createTask None (requestBody "Fix login" "To Do" None None) world4).2
        = tasks world4.
Proof.
  assert (namesUnique (tasks world4)) as Hunique
    by (apply namesUnique_check, (bool_decide_unpack _); vm_compute; exact I).
  destruct (task_names_stay_unique world4 Hunique) as (Hcreate & _ & _ & _ & Hdup & _).
  split; [apply Hcreate|].
  apply (Hdup None _ 1%positive 21%positive
           (apply_field (FParentTask (Some 20%positive)) (sampleTask "Fix login" "To Do" 1)));
    reflexivity.
Defined.

(** ** C7: the burndown series *)













Example getBurndownData_world7 :
  getBurndownData 5 (WellFormed 1) world7
  = Some (Success 200 (10, [mkEntry 10 5; mkEntry 11 5])).
Proof. vm_compute; reflexivity. Qed.

(** Negative values are emitted as they are.  With an open task of -8
    points beside the completed 5-point task, the series starts at -3 - 5. *)
Example getBurndownData_negative :
  getBurndownData 5 (WellFormed 1)
    (set_tasks (insert 23%positive
       (apply_field (FStoryPoints (Some (-8))) (sampleTask "Refund" "To Do" 1)))
       (set_tasks (delete 22%positive) world7))
  = Some (Success 200 (-3, [mkEntry 10 (-8); mkEntry 11 (-8)])).
Proof. vm_compute; reflexivity. Qed.


(** * Further properties *)

(** ** Sprint lifecycle: [startSprint] and [completeSprint] *)

Lemma sprint_save_unmodified (id : positive) (s : Sprint) (w : World) :
  sprint_save false id s w
  = if bool_decide (sprint_startDate s >= sprint_endDate s)
    then (inl (Err "Error" "Sprint start date must be before end date"), w)
    else (inr s, set_sprints (insert id s) w).
Proof. unfold sprint_save. unfold_db. by destruct (bool_decide _). Qed.

Lemma with_status_same (s : Sprint) : with_status (sprint_status s) s = s.
Proof. by destruct s. Qed.

Lemma startSprint_unfold (id : positive) (w : World) :
  startSprint id w
  = match sprints w !! id with
    | None => (Failure 404 "Sprint not found", w)
    | Some s =>
        if bool_decide (sprint_status s ≠ planning)
        then (Failure 400 "Sprint is already active or completed", w)
        else if bool_decide (sprint_startDate s >= sprint_endDate s)
        then (Failure 500 "Server Error", w)
        else (Success 200 (with_status active s),
              set_sprints (insert id (with_status active s)) w)
    end.
Proof.
  unfold startSprint, catchAll. unfold bind, gets, ret. cbv beta iota.
  destruct (sprints w !! id) as [s|]; [|done].
  destruct (bool_decide (sprint_status s ≠ planning)); [done|].
  rewrite sprint_save_unmodified. cbn [sprint_startDate sprint_endDate with_status].
  by destruct (bool_decide _).
Qed.

Lemma completeSprint_unfold (id : positive) (w : World) :
  completeSprint id w
  = match sprints w !! id with
    | None => (Failure 404 "Sprint not found", w)
    | Some s =>
        if bool_decide (sprint_status s ≠ active)
        then (Failure 400 "Only active sprints can be completed", w)
        else if bool_decide (sprint_startDate s >= sprint_endDate s)
        then (Failure 500 "Server Error", w)
        else (Success 200 (with_status completed s),
              set_sprints (insert id (with_status completed s)) w)
    end.
Proof.
  unfold completeSprint, catchAll. unfold bind, gets, ret. cbv beta iota.
  destruct (sprints w !! id) as [s|]; [|done].
  destruct (bool_decide (sprint_status s ≠ active)); [done|].
  rewrite sprint_save_unmodified. cbn [sprint_startDate sprint_endDate with_status].
  by destruct (bool_decide _).
Qed.

(** X1.  [startSprint] and [completeSprint] never move a sprint backwards:
    each either fails and leaves the store as it is, or succeeds and moves the
    sprint's status exactly one step, planning to active or active to
    completed.  Neither touches the tasks, another sprint, or the sprint's own
    task list, counters, dates and project; a completed or cancelled sprint is
    refused by both. *)
Theorem sprint_handlers_keep_lifecycle :
  keepsLifecycle startSprint ∧ keepsLifecycle completeSprint.
Proof.
  split; intros w id s r w' Hs.
  - rewrite startSprint_unfold, Hs.
    case_bool_decide as Hst; [intros [= <- <-]|].
    { split; [done|]. split; [done|]. exists s. by rewrite with_status_same. }
    case_bool_decide; intros [= <- <-].
    { split; [done|]. split; [done|]. exists s. by rewrite with_status_same. }
    split; [done|]. split; [intros j Hj; cbn; by rewrite lookup_insert_ne|].
    exists (with_status active s). cbn. rewrite lookup_insert_eq.
    split; [done|]. split; [by destruct s|]. split; [done|]. left.
    split; [|done]. by destruct (decide (sprint_status s = planning)).
  - rewrite completeSprint_unfold, Hs.
    case_bool_decide as Hst; [intros [= <- <-]|].
    { split; [done|]. split; [done|]. exists s. by rewrite with_status_same. }
    case_bool_decide; intros [= <- <-].
    { split; [done|]. split; [done|]. exists s. by rewrite with_status_same. }
    split; [done|]. split; [intros j Hj; cbn; by rewrite lookup_insert_ne|].
    exists (with_status completed s). cbn. rewrite lookup_insert_eq.
    split; [done|]. split; [by destruct s|]. split; [done|]. right.
    split; [|done]. by destruct (decide (sprint_status s = active)).
Qed.

(** X2.  A planning sprint whose start date is before its end date is
    started by [startSprint] and then completed by [completeSprint], ending
    with status completed and nothing else changed; completing it without
    starting it, or starting it a second time, is refused with 400. *)
Theorem startSprint_then_completeSprint (w : World) (id : positive) (s : Sprint) :
  sprints w !! id = Some s ->
  sprint_status s = planning ->
  sprint_startDate s < sprint_endDate s ->
  ∃ w1 w2,
    startSprint id w = (Success 200 (with_status active s), w1)
    ∧ completeSprint id w1 = (Success 200 (with_status completed s), w2)
    ∧ sprints w2 = <[id := with_status completed s]> (sprints w)
    ∧ tasks w2 = tasks w
    ∧ completeSprint id w = (Failure 400 "Only active sprints can be completed", w)
    ∧ startSprint id w1 = (Failure 400 "Sprint is already active or completed", w1).
Proof.
  intros Hs Hst Hdates. eexists _, _.
  rewrite !startSprint_unfold, !completeSprint_unfold, Hs, Hst.
  rewrite (bool_decide_eq_false_2 (planning ≠ planning)) by (intros Hne; by apply Hne).
  rewrite (bool_decide_eq_false_2 (sprint_startDate s >= sprint_endDate s)) by lia.
  split; [reflexivity|]. cbn [sprints set_sprints]. rewrite lookup_insert_eq.
  cbn [sprint_status with_status sprint_startDate sprint_endDate].
  rewrite (bool_decide_eq_false_2 (active ≠ active)) by (intros Hne; by apply Hne).
  rewrite (bool_decide_eq_false_2 (sprint_startDate s >= sprint_endDate s)) by lia.
  rewrite (bool_decide_eq_true_2 (planning ≠ active)) by done.
  rewrite (bool_decide_eq_true_2 (active ≠ planning)) by done.
  split; [reflexivity|]. cbn. rewrite insert_insert_eq.
  repeat split.
Qed.

Lemma startSprint_then_completeSprint_witness :
  ∃ w1 w2,
    startSprint 30 world1 = (Success 200 (with_status active (sampleSprint 1 [])), w1)
    ∧ completeSprint 30 w1 = (Success 200 (with_status completed (sampleSprint 1 [])), w2)
    ∧ sprints w2 = <[30%positive := with_status completed (sampleSprint 1 [])]> (sprints world1)
    ∧ tasks w2 = tasks world1
    ∧ completeSprint 30 world1 = (Failure 400 "Only active sprints can be completed", world1)
    ∧ startSprint 30 w1 = (Failure 400 "Sprint is already active or completed", w1).
Proof.
  apply (startSprint_then_completeSprint world1 30 (sampleSprint 1 [])).
  - vm_compute; reflexivity.
  - reflexivity.
  - vm_compute; reflexivity.
Defined.

Lemma sprint_handlers_keep_lifecycle_witness :
  tasks (startSprint 30 world1).2 = tasks world1
  ∧ ∃ s', sprints (startSprint 30 world1).2 !! 30%positive = Some s'
          ∧ sprint_status s' = active.
Proof.
  destruct sprint_handlers_keep_lifecycle as [Hstart _].
  destruct (Hstart world1 30%positive (sampleSprint 1 [])
              (startSprint 30 world1).1 (startSprint 30 world1).2)
    as (Htasks & _ & s' & Hs' & _ & Hres).
  - vm_compute; reflexivity.
  - apply surjective_pairing.
  - split; [exact Htasks|]. exists s'. split; [exact Hs'|].
    assert (sprints (startSprint 30 world1).2 !! 30%positive
            = Some (with_status active (sampleSprint 1 []))) as Hrun
      by (vm_compute; reflexivity).
    rewrite Hrun in Hs'. by injection Hs' as <-.
Defined.

(** ** Sprint membership: [addTasksToSprint] and [removeTasksFromSprint] *)

Lemma size_list_to_set_NoDup (l : list positive) :
  size (list_to_set l : gset positive) = length l -> NoDup l.
Proof.
  induction l as [|x l IH]; [constructor|].
  cbn [list_to_set foldr length]. intros Hsize.
  pose proof (size_list_to_set_le l) as Hle.
  destruct (decide (x ∈ l)) as [Hin|Hnotin].
  - exfalso.
    assert ({[x]} ∪ list_to_set l = (list_to_set l : gset positive)) as Heq.
    { apply set_eq. intros y. rewrite elem_of_union, elem_of_singleton, !elem_of_list_to_set.
      split; [intros [->|?]; done|by right]. }
    rewrite Heq in Hsize. lia.
  - constructor; [done|]. apply IH.
    rewrite size_union in Hsize.
    + rewrite size_singleton in Hsize. lia.
    + intros y Hy1 Hy2. apply elem_of_singleton in Hy1 as ->.
      by apply elem_of_list_to_set in Hy2.
Qed.

(** The count that [addTasksToSprint] compares with the number of ids equals
    it exactly when the ids are distinct and each names a task of the
    project. *)
Lemma matching_count (taskIds : list positive) (project : positive)
    (m : gmap positive Task) :
  size (filter (fun it : positive * Task =>
                  it.1 ∈ taskIds ∧ task_project it.2 = project) m) = length taskIds
  ↔ NoDup taskIds
    ∧ ∀ id, id ∈ taskIds -> ∃ t, m !! id = Some t ∧ task_project t = project.
Proof.
  set (matching := filter _ m).
  assert (dom matching ⊆ (list_to_set taskIds : gset positive)) as Hsub.
  { intros i Hi. apply elem_of_dom in Hi as [t Ht].
    apply map_lookup_filter_Some in Ht as [_ [Hin _]]. by apply elem_of_list_to_set. }
  pose proof (subseteq_size _ _ Hsub) as Hle1.
  pose proof (size_list_to_set_le taskIds) as Hle2.
  rewrite <- (size_dom (D := gset positive)). split.
  - intros Hsize.
    assert (NoDup taskIds) as Hnodup by (apply size_list_to_set_NoDup; lia).
    split; [done|]. intros id Hin.
    assert (dom matching = (list_to_set taskIds : gset positive)) as Hdom
      by (apply set_subseteq_size_eq; [done|lia]).
    assert (id ∈ dom matching) as Hid by (rewrite Hdom; by apply elem_of_list_to_set).
    apply elem_of_dom in Hid as [t Ht].
    apply map_lookup_filter_Some in Ht as [Ht [_ Hp]]. eauto.
  - intros [Hnodup Hall].
    rewrite <- (size_list_to_set (C := gset positive) taskIds Hnodup). f_equal.
    apply set_eq. intros id. split; [apply Hsub|].
    intros Hin%elem_of_list_to_set. destruct (Hall id Hin) as (t & Ht & Hp).
    apply elem_of_dom. exists t. apply map_lookup_filter_Some. done.
Qed.

Lemma alter_as_insert {A} (f : A -> A) (i : positive) (m : gmap positive A) (x : A) :
  m !! i = Some x -> alter f i m = <[i := f x]> m.
Proof.
  intros Hx. apply map_eq. intros j. destruct (decide (j = i)) as [->|Hne].
  - by rewrite lookup_alter_eq, lookup_insert_eq, Hx.
  - by rewrite lookup_alter_ne, lookup_insert_ne.
Qed.

Lemma addTasksToSprint_unfold (sprintId : positive) (taskIds : list positive) (w : World) :
  addTasksToSprint sprintId taskIds w
  = if bool_decide (length taskIds = 0%nat)
    then (Failure 400 "Please provide an array of task IDs", w)
    else match sprints w !! sprintId with
         | None => (Failure 404 "Sprint not found", w)
         | Some sprint =>
             if bool_decide
                  (size (filter (fun it : positive * Task =>
                                   it.1 ∈ taskIds ∧ task_project it.2 = sprint_project sprint)
                                (tasks w)) ≠ length taskIds)
             then (Failure 400 "Some tasks were not found or do not belong to the project", w)
             else (Success 200 (Some (addEachToSet taskIds sprint)),
                   set_sprints (insert sprintId (addEachToSet taskIds sprint)) w)
         end.
Proof.
  unfold addTasksToSprint, catchAll. destruct (bool_decide (length taskIds = 0%nat)); [done|].
  unfold bind, gets, ret, modify. cbv beta iota.
  destruct (sprints w !! sprintId) as [sprint|] eqn:Hs; [|done].
  destruct (bool_decide _); [done|]. unfold set_sprints. cbn [sprints].
  rewrite (alter_as_insert _ _ _ _ Hs). by rewrite lookup_insert_eq.
Qed.

(** X3.  [addTasksToSprint] accepts a non-empty list of ids for a stored
    sprint exactly when the ids are pairwise distinct and each names a stored
    task of the sprint's project; an id of another project, an unknown id or a
    repeated id makes it answer 400 and leave the store as it was. *)
Theorem addTasksToSprint_accepts_iff (w : World) (sprintId : positive)
    (sprint : Sprint) (taskIds : list positive) :
  sprints w !! sprintId = Some sprint ->
  taskIds ≠ [] ->
  ((∃ data w', addTasksToSprint sprintId taskIds w = (Success 200 data, w'))
   ↔ NoDup taskIds
     ∧ ∀ id, id ∈ taskIds ->
             ∃ t, tasks w !! id = Some t ∧ task_project t = sprint_project sprint)
  ∧ ((∃ data w', addTasksToSprint sprintId taskIds w = (Success 200 data, w'))
     ∨ addTasksToSprint sprintId taskIds w
       = (Failure 400 "Some tasks were not found or do not belong to the project", w)).
Proof.
  intros Hs Hne. rewrite addTasksToSprint_unfold, Hs.
  rewrite bool_decide_eq_false_2 by (by destruct taskIds).
  rewrite <- matching_count.
  case_bool_decide as Hcount.
  - split; [|by right]. split; [intros (? & ? & [=])|done].
  - split; [|left; eauto]. split; [intros _|eauto].
    by destruct (decide (size (filter (fun it : positive * Task =>
          it.1 ∈ taskIds ∧ task_project it.2 = sprint_project sprint) (tasks w))
        = length taskIds)).
Qed.

Lemma addTasksToSprint_accepts_iff_witness :
  (∃ data w', addTasksToSprint 30 [20%positive] world1 = (Success 200 data, w'))
  ↔ NoDup [20%positive]
    ∧ ∀ id, id ∈ [20%positive] ->
            ∃ t, tasks world1 !! id = Some t
                 ∧ task_project t = sprint_project (sampleSprint 1 []).
Proof.
  apply (addTasksToSprint_accepts_iff world1 30 (sampleSprint 1 []) [20%positive]).
  - vm_compute; reflexivity.
  - discriminate.
Defined.

Lemma addToSet_fields (id : positive) (s : Sprint) :
  with_tasks (sprint_tasks s) (addToSet id s) = s.
Proof. unfold addToSet. destruct (bool_decide _); by destruct s. Qed.

Lemma addEachToSet_shape (taskIds : list positive) (s : Sprint) :
  ∃ l, addEachToSet taskIds s = with_tasks l s.
Proof.
  unfold addEachToSet. revert s. induction taskIds as [|x ids IH]; intros s; cbn [foldl].
  - exists (sprint_tasks s). by destruct s.
  - destruct (IH (addToSet x s)) as [l ->]. exists l.
    unfold addToSet. by destruct (bool_decide _).
Qed.

Lemma addEachToSet_fields (taskIds : list positive) (s : Sprint) :
  addEachToSet taskIds s = with_tasks (sprint_tasks (addEachToSet taskIds s)) s.
Proof. destruct (addEachToSet_shape taskIds s) as [l ->]. reflexivity. Qed.

Lemma filter_ext_elem {A} (P Q : A -> Prop) `{!∀ x, Decision (P x), !∀ x, Decision (Q x)}
    (l : list A) :
  (∀ x, x ∈ l -> (P x ↔ Q x)) -> filter P l = filter Q l.
Proof.
  induction l as [|a l IH]; intros Hext; [done|].
  rewrite !filter_cons, IH by (intros x Hx; apply Hext; by right).
  destruct (decide (P a)) as [Hp|Hp], (decide (Q a)) as [Hq|Hq]; try done.
  - exfalso. apply Hq. by apply (Hext a); [left|].
  - exfalso. apply Hp. by apply (Hext a); [left|].
Qed.

Lemma addEachToSet_tasks (taskIds : list positive) (s : Sprint) :
  NoDup taskIds ->
  sprint_tasks (addEachToSet taskIds s)
  = (sprint_tasks s ++ filter (fun i => i ∉ sprint_tasks s) taskIds)%list.
Proof.
  unfold addEachToSet. revert s.
  induction taskIds as [|x ids IH]; intros s Hnodup; cbn [foldl].
  - by rewrite filter_nil, app_nil_r.
  - apply NoDup_cons in Hnodup as [Hx Hnodup]. rewrite IH by done.
    rewrite filter_cons. unfold addToSet. case_bool_decide as Hin.
    + by rewrite decide_False by (intros Hn; by apply Hn).
    + rewrite decide_True by done. cbn [sprint_tasks with_tasks].
      rewrite <- app_assoc. cbn [app]. do 2 f_equal.
      apply filter_ext_elem. intros i Hi.
      rewrite elem_of_app, list_elem_of_singleton.
      split; [intros Hn ?; apply Hn; by left|].
      intros Hn [? | ->]; [by apply Hn|done].
Qed.

Lemma addEachToSet_noop (taskIds : list positive) (s : Sprint) :
  (∀ i, i ∈ taskIds -> i ∈ sprint_tasks s) -> addEachToSet taskIds s = s.
Proof.
  unfold addEachToSet. induction taskIds as [|x ids IH]; intros Hall; cbn [foldl]; [done|].
  unfold addToSet at 2. rewrite bool_decide_eq_true_2 by (apply Hall; by left).
  apply IH. intros i Hi. apply Hall. by right.
Qed.

(** What a successful [addTasksToSprint] returns and stores. *)
Lemma addTasksToSprint_result (w w' : World) (sprintId : positive)
    (sprint : Sprint) (taskIds : list positive) (data : option Sprint) :
  sprints w !! sprintId = Some sprint ->
  addTasksToSprint sprintId taskIds w = (Success 200 data, w') ->
  let added := with_tasks (sprint_tasks sprint
                           ++ filter (fun i => i ∉ sprint_tasks sprint) taskIds)%list
                          sprint in
  taskIds ≠ [] ∧ data = Some added ∧ w' = set_sprints (insert sprintId added) w.
Proof.
  intros Hs. rewrite addTasksToSprint_unfold, Hs.
  case_bool_decide as Hempty; [done|].
  case_bool_decide as Hcount; [done|].
  assert (size (filter (fun it : positive * Task =>
            it.1 ∈ taskIds ∧ task_project it.2 = sprint_project sprint) (tasks w))
          = length taskIds) as Hmatch
    by (destruct (decide (size (filter (fun it : positive * Task =>
            it.1 ∈ taskIds ∧ task_project it.2 = sprint_project sprint) (tasks w))
          = length taskIds)); done).
  pose proof (proj1 (matching_count _ _ _) Hmatch) as [Hnodup _].
  intros [= <- <-]. cbv zeta.
  rewrite addEachToSet_fields, addEachToSet_tasks by done.
  split; [|done]. intros ->. by apply Hempty.
Qed.

(** X4.  A successful [addTasksToSprint] appends to the sprint's list, in
    request order, exactly the requested ids that were not in it, and changes
    nothing else of the sprint or of the store (the counters stay as they
    were); a list without repetitions stays without repetitions, and sending
    the same request again changes nothing. *)
Theorem addTasksToSprint_appends (w w' : World) (sprintId : positive)
    (sprint : Sprint) (taskIds : list positive) (data : option Sprint) :
  sprints w !! sprintId = Some sprint ->
  addTasksToSprint sprintId taskIds w = (Success 200 data, w') ->
  let added := with_tasks (sprint_tasks sprint
                           ++ filter (fun i => i ∉ sprint_tasks sprint) taskIds)%list
                          sprint in
  data = Some added
  ∧ w' = set_sprints (insert sprintId added) w
  ∧ (NoDup (sprint_tasks sprint) -> NoDup (sprint_tasks added))
  ∧ addTasksToSprint sprintId taskIds w' = (Success 200 data, w').
Proof.
  intros Hs. rewrite addTasksToSprint_unfold, Hs.
  case_bool_decide as Hempty; [done|].
  case_bool_decide as Hcount; [done|].
  assert (size (filter (fun it : positive * Task =>
            it.1 ∈ taskIds ∧ task_project it.2 = sprint_project sprint) (tasks w))
          = length taskIds) as Hmatch
    by (destruct (decide (size (filter (fun it : positive * Task =>
            it.1 ∈ taskIds ∧ task_project it.2 = sprint_project sprint) (tasks w))
          = length taskIds)); done).
  pose proof (proj1 (matching_count _ _ _) Hmatch) as [Hnodup _].
  intros [= <- <-]. cbv zeta.
  assert (addEachToSet taskIds sprint
          = with_tasks (sprint_tasks sprint
                        ++ filter (fun i => i ∉ sprint_tasks sprint) taskIds)%list
                       sprint) as Hadded
    by (rewrite addEachToSet_fields, addEachToSet_tasks; done).
  rewrite Hadded. set (added := with_tasks _ sprint).
  split; [done|]. split; [done|]. split.
  - intros Hold. cbn. apply NoDup_app. split; [done|]. split.
    + intros i Hi Hi'. by apply list_elem_of_filter in Hi' as [? _].
    + by apply NoDup_filter.
  - rewrite addTasksToSprint_unfold. cbn [sprints set_sprints tasks].
    rewrite lookup_insert_eq, bool_decide_eq_false_2 by done.
    replace (sprint_project added) with (sprint_project sprint) by reflexivity.
    rewrite bool_decide_eq_false_2 by (intros Hn; by apply Hn).
    rewrite (addEachToSet_noop taskIds added).
    + unfold set_sprints. cbn. by rewrite insert_insert_eq.
    + intros i Hi. cbn. rewrite elem_of_app, list_elem_of_filter.
      destruct (decide (i ∈ sprint_tasks sprint)); [by left|by right].
Qed.

Lemma addTasksToSprint_appends_witness :
  ∃ added w',
    addTasksToSprint 30 [20%positive] world1 = (Success 200 (Some added), w')
    ∧ sprint_tasks added = [20%positive]
    ∧ addTasksToSprint 30 [20%positive] w' = (Success 200 (Some added), w').
Proof.
  assert (∃ data w', addTasksToSprint 30 [20%positive] world1 = (Success 200 data, w'))
    as (data & w' & Hadd) by (eexists _, _; vm_compute; reflexivity).
  pose proof (addTasksToSprint_appends world1 w' 30 (sampleSprint 1 []) [20%positive] data)
    as Happends.
  cbv zeta in Happends. destruct Happends as (Hdata & _ & _ & Hagain).
  - vm_compute; reflexivity.
  - exact Hadd.
  - eexists _, w'. rewrite <- Hdata. split; [exact Hadd|]. split; [|exact Hagain].
    vm_compute; reflexivity.
Defined.

Lemma removeTasksFromSprint_unfold (sprintId : positive) (taskIds : list positive) (w : World) :
  removeTasksFromSprint sprintId taskIds w
  = if bool_decide (length taskIds = 0%nat)
    then (Failure 400 "Please provide an array of task IDs", w)
    else match sprints w !! sprintId with
         | None => (Failure 404 "Sprint not found", w)
         | Some sprint =>
             (Success 200 (Some (pullAll taskIds sprint)),
              set_sprints (insert sprintId (pullAll taskIds sprint)) w)
         end.
Proof.
  unfold removeTasksFromSprint, catchAll. destruct (bool_decide (length taskIds = 0%nat)); [done|].
  unfold bind, gets, ret, modify. cbv beta iota.
  destruct (sprints w !! sprintId) as [sprint|] eqn:Hs; [|done].
  unfold set_sprints. cbn [sprints].
  rewrite (alter_as_insert _ _ _ _ Hs). by rewrite lookup_insert_eq.
Qed.

Lemma set_sprints_insert_same (w : World) (id : positive) (s : Sprint) :
  sprints w !! id = Some s -> set_sprints (insert id s) w = w.
Proof. intros Hs. unfold set_sprints. rewrite (insert_id _ _ _ Hs). by destruct w. Qed.

(** X5.  [removeTasksFromSprint] on a stored sprint takes every listed id
    out of the sprint's list, whether or not the id names a task, keeps the
    other ids in their order, and leaves the counters and the rest of the store
    as they were. *)
Theorem removeTasksFromSprint_removes (w : World) (sprintId : positive)
    (sprint : Sprint) (taskIds : list positive) :
  sprints w !! sprintId = Some sprint ->
  taskIds ≠ [] ->
  ∃ s', removeTasksFromSprint sprintId taskIds w
        = (Success 200 (Some s'), set_sprints (insert sprintId s') w)
        ∧ s' = with_tasks (filter (fun i => i ∉ taskIds) (sprint_tasks sprint)) sprint
        ∧ (∀ i, i ∈ sprint_tasks s' ↔ i ∈ sprint_tasks sprint ∧ i ∉ taskIds)
        ∧ sprint_totalTasks s' = sprint_totalTasks sprint
        ∧ sprint_completedTasks s' = sprint_completedTasks sprint.
Proof.
  intros Hs Hne. eexists. rewrite removeTasksFromSprint_unfold, Hs.
  rewrite bool_decide_eq_false_2 by (by destruct taskIds).
  split; [reflexivity|]. split; [reflexivity|]. split; [|done].
  intros i. cbn. rewrite list_elem_of_filter. tauto.
Qed.

Lemma removeTasksFromSprint_removes_witness :
  ∃ s', removeTasksFromSprint 30 [20%positive; 99%positive] world2
        = (Success 200 (Some s'), set_sprints (insert 30%positive s') world2)
        ∧ s' = with_tasks (filter (fun i => i ∉ [20%positive; 99%positive])
                             (sprint_tasks (sampleSprint 1 [20%positive])))
                          (sampleSprint 1 [20%positive])
        ∧ (∀ i, i ∈ sprint_tasks s'
                ↔ i ∈ sprint_tasks (sampleSprint 1 [20%positive])
                  ∧ i ∉ [20%positive; 99%positive])
        ∧ sprint_totalTasks s' = sprint_totalTasks (sampleSprint 1 [20%positive])
        ∧ sprint_completedTasks s' = sprint_completedTasks (sampleSprint 1 [20%positive]).
Proof.
  apply (removeTasksFromSprint_removes world2 30 (sampleSprint 1 [20%positive])).
  - vm_compute; reflexivity.
  - discriminate.
Defined.

Lemma filter_all {A} (P : A -> Prop) `{!∀ x, Decision (P x)} (l : list A) :
  (∀ x, x ∈ l -> P x) -> filter P l = l.
Proof.
  induction l as [|a l IH]; intros Hall; [done|].
  rewrite filter_cons, decide_True by (apply Hall; by left).
  f_equal. apply IH. intros x Hx. apply Hall. by right.
Qed.

Lemma filter_none {A} (P : A -> Prop) `{!∀ x, Decision (P x)} (l : list A) :
  (∀ x, x ∈ l -> ¬ P x) -> filter P l = [].
Proof.
  induction l as [|a l IH]; intros Hall; [done|].
  rewrite filter_cons, decide_False by (apply Hall; by left).
  apply IH. intros x Hx. apply Hall. by right.
Qed.

(** X6.  Removing from a sprint the ids that [addTasksToSprint] has just
    added undoes the addition: when none of the ids was in the sprint before,
    the store is again the one before the two requests. *)
Theorem add_then_remove_tasks (w w1 : World) (sprintId : positive) (sprint : Sprint)
    (taskIds : list positive) (data : option Sprint) :
  sprints w !! sprintId = Some sprint ->
  (∀ i, i ∈ taskIds -> i ∉ sprint_tasks sprint) ->
  addTasksToSprint sprintId taskIds w = (Success 200 data, w1) ->
  removeTasksFromSprint sprintId taskIds w1 = (Success 200 (Some sprint), w).
Proof.
  intros Hs Hnew Hadd.
  destruct (addTasksToSprint_result w w1 sprintId sprint taskIds data Hs Hadd)
    as (Hne & _ & ->).
  rewrite removeTasksFromSprint_unfold.
  rewrite bool_decide_eq_false_2 by (by destruct taskIds).
  cbn [sprints set_sprints]. rewrite lookup_insert_eq.
  assert (pullAll taskIds
            (with_tasks (sprint_tasks sprint
                         ++ filter (fun i => i ∉ sprint_tasks sprint) taskIds)%list sprint)
          = sprint) as ->.
  { unfold pullAll. cbn [sprint_tasks with_tasks]. rewrite filter_app.
    rewrite (filter_all (fun i => i ∉ taskIds) (sprint_tasks sprint))
      by (intros i Hi Hin; by apply (Hnew i)).
    rewrite (filter_none (fun i => i ∉ taskIds))
      by (intros i Hi%list_elem_of_filter Hn; apply Hn, Hi).
    rewrite app_nil_r. by destruct sprint. }
  unfold set_sprints. cbn. rewrite insert_insert_eq, (insert_id _ _ _ Hs).
  by destruct w.
Qed.

Lemma add_then_remove_tasks_witness :
  removeTasksFromSprint 30 [20%positive] (addTasksToSprint 30 [20%positive] world1).2
  = (Success 200 (Some (sampleSprint 1 [])), world1).
Proof.
  eapply (add_then_remove_tasks world1 _ 30 (sampleSprint 1 []) [20%positive]).
  - vm_compute; reflexivity.
  - intros i _ Hin. by apply elem_of_nil in Hin.
  - vm_compute; reflexivity.
Defined.

(** ** Status counts: [getSprintStats] and [getTaskSummary] *)

Lemma countKey_other (acc : gmap string JsCount) (key k : string) :
  k ≠ key -> countKey acc key !! k = acc !! k.
Proof.
  intros Hne. unfold countKey. case_bool_decide; [done|].
  destruct (acc !! key) as [[n|]|]; [| |case_bool_decide];
    by rewrite lookup_insert_ne.
Qed.

Lemma not_proto_key (k : string) : k ∉ protoKeys -> k ≠ "__proto__".
Proof. intros Hk ->. apply Hk. unfold protoKeys. set_solver. Qed.

Lemma countKey_same (acc : gmap string JsCount) (k : string) :
  k ∉ protoKeys ->
  countKey acc k !! k = match acc !! k with
                        | None => Some (Count 1)
                        | Some (Count n) => Some (Count (n + 1))
                        | Some Junk => Some Junk
                        end.
Proof.
  intros Hk. unfold countKey.
  rewrite bool_decide_eq_false_2 by (by apply not_proto_key).
  destruct (acc !! k) as [[n|]|]; [| |rewrite bool_decide_eq_false_2 by done];
    by rewrite lookup_insert_eq.
Qed.

Lemma withStatus_cons (k : string) (t : Task) (l : list Task) :
  withStatus k (t :: l)
  = ((if bool_decide (task_status t = k) then 1 else 0) + withStatus k l)%nat.
Proof.
  unfold withStatus. rewrite filter_cons.
  case_bool_decide; destruct (decide (task_status t = k)); done.
Qed.

Lemma countStatuses_lookup (l : list Task) (acc : gmap string JsCount) (k : string) :
  k ∉ protoKeys ->
  foldl (fun acc t => countKey acc (task_status t)) acc l !! k
  = match withStatus k l with
    | O => acc !! k
    | S m => match acc !! k with
             | None => Some (Count (S m))
             | Some (Count n) => Some (Count (n + S m))
             | Some Junk => Some Junk
             end
    end.
Proof.
  intros Hk. revert acc. induction l as [|t l IH]; intros acc; [done|].
  cbn [foldl]. rewrite IH, withStatus_cons. case_bool_decide as Hs.
  - rewrite Hs, countKey_same by done.
    destruct (withStatus k l) as [|m], (acc !! k) as [[n|]|]; cbn;
      try done; do 2 f_equal; lia.
  - rewrite countKey_other by done. done.
Qed.

Lemma length_filter_map_to_list {A} (P : positive * A -> Prop)
    `{!∀ x, Decision (P x)} (m : gmap positive A) :
  length (filter P (map_to_list m)) = size (filter P m).
Proof.
  induction m as [|i x m Hi IH] using map_ind.
  - by rewrite map_filter_empty, map_to_list_empty, map_size_empty.
  - rewrite (Permutation_length (filter_Permutation P _ _ (map_to_list_insert m i x Hi))).
    rewrite filter_cons. destruct (decide (P (i, x))) as [HP|HP].
    + rewrite map_filter_insert_True by done.
      rewrite map_size_insert_None by (by rewrite map_lookup_filter_None; left).
      cbn. by rewrite IH.
    + rewrite map_filter_insert_False, delete_id by done. done.
Qed.

Lemma filter_values {A} (P : A -> Prop) `{!∀ x, Decision (P x)}
    (l : list (positive * A)) :
  filter P l.*2 = (filter (fun it => P it.2) l).*2.
Proof.
  induction l as [|[i x] l IH]; [done|].
  cbn [fmap list_fmap snd]. rewrite !filter_cons. cbn [snd].
  destruct (decide (P x)); cbn [fmap list_fmap snd]; by rewrite IH.
Qed.

Lemma length_findTasksIn (ids : list positive) (w : World) :
  length (findTasksIn ids w)
  = size (filter (fun it : positive * Task => it.1 ∈ ids) (tasks w)).
Proof.
  unfold findTasksIn. by rewrite length_fmap, length_map_to_list.
Qed.

Lemma completed_findTasksIn (ids : list positive) (w : World) :
  length (filter (fun t => isTerminal (task_status t) = true) (findTasksIn ids w))
  = countCompleted ids (tasks w).
Proof.
  unfold findTasksIn, countCompleted.
  rewrite filter_values, length_fmap, length_filter_map_to_list, map_filter_filter.
  f_equal. apply map_filter_ext. intros i t _. cbn. tauto.
Qed.

Lemma completed_withStatus (l : list Task) :
  length (filter (fun t => isTerminal (task_status t) = true) l)
  = (withStatus "Done" l + withStatus "Completed" l)%nat.
Proof.
  induction l as [|t l IH]; [done|].
  rewrite !withStatus_cons, filter_cons.
  destruct (decide (isTerminal (task_status t) = true)) as [Ht|Ht];
    cbn [length]; rewrite IH; unfold isTerminal in Ht;
    repeat case_bool_decide; simplify_eq/=; try lia; congruence.
Qed.

Lemma listed_le_length (ids : list positive) (m : gmap positive Task) :
  (size (filter (fun it : positive * Task => it.1 ∈ ids) m) <= length ids)%nat.
Proof.
  etrans; [|apply size_list_to_set_le].
  rewrite <- (size_dom (D := gset positive)). apply subseteq_size.
  intros i Hi. apply elem_of_dom in Hi as [t Ht].
  apply map_lookup_filter_Some in Ht as [_ Hin]. by apply elem_of_list_to_set.
Qed.

(** X7.  [getSprintStats] on a stored sprint: under every status that is
    not the name of a member of [Object.prototype], [tasksByStatus] holds the
    number of the sprint's stored tasks with that status, and nothing when
    there is none.  [totalTasks] counts the listed tasks that still exist, so
    it never exceeds the length of the sprint's task list;
    [completedTasks] is the number of those whose status is ['Done'] or
    ['Completed'], which is the count the models' hooks store. *)
Theorem getSprintStats_counts (w : World) (sprintId : positive) (sprint : Sprint) :
  sprints w !! sprintId = Some sprint ->
  let found := findTasksIn (sprint_tasks sprint) w in
  ∃ stats,
    getSprintStats sprintId w = Success 200 stats
    ∧ (∀ status, status ∉ protoKeys ->
         stats_tasksByStatus stats !! status = tally (withStatus status found))
    ∧ stats_totalTasks stats
      = size (filter (fun it : positive * Task => it.1 ∈ sprint_tasks sprint) (tasks w))
    ∧ stats_completedTasks stats
      = (withStatus "Done" found + withStatus "Completed" found)%nat
    ∧ stats_completedTasks stats = countCompleted (sprint_tasks sprint) (tasks w)
    ∧ (stats_completedTasks stats <= stats_totalTasks stats
       <= length (sprint_tasks sprint))%nat.
Proof.
  intros Hs found. unfold getSprintStats. rewrite Hs. eexists. split; [done|].
  cbn [stats_tasksByStatus stats_totalTasks stats_completedTasks]. fold found.
  split; [|split; [|split; [|split]]].
  - intros status Hstatus. rewrite countStatuses_lookup, lookup_empty by done.
    by destruct (withStatus status found).
  - apply length_findTasksIn.
  - apply completed_withStatus.
  - apply completed_findTasksIn.
  - split; [apply length_filter|].
    unfold found. rewrite length_findTasksIn. apply listed_le_length.
Qed.

Lemma getSprintStats_counts_witness :
  ∃ stats,
    getSprintStats 30 world2 = Success 200 stats
    ∧ stats_tasksByStatus stats !! "Done" = Some (Count 1)
    ∧ stats_completedTasks stats = 1%nat.
Proof.
  destruct (getSprintStats_counts world2 30 (sampleSprint 1 [20%positive]))
    as (stats & Hstats & Hcount & _ & Hdone & _).
  - vm_compute; reflexivity.
  - exists stats. split; [exact Hstats|]. split.
    + rewrite Hcount by (apply (bool_decide_unpack _); vm_compute; reflexivity).
      vm_compute; reflexivity.
    + rewrite Hdone. vm_compute; reflexivity.
Defined.

Lemma sprint_save_true_inv (id : positive) (s s' : Sprint) (w w' : World) :
  sprint_save true id s w = (inr s', w') ->
  s' = with_completedTasks (countCompleted (sprint_tasks s) (tasks w))
                           (with_totalTasks (length (sprint_tasks s)) s)
  ∧ w' = set_sprints (insert id s') w.
Proof.
  unfold sprint_save. case_bool_decide; [by unfold_db|].
  unfold_db. cbn. by intros [= <- <-].
Qed.

(** X8.  After a [sprint.save()] that ran the task-count hook, the stored
    [completedTasks] is the number [getSprintStats] reports for the sprint,
    and the stored [totalTasks] is at least the reported one; the two totals
    are equal when the task list has no duplicate and no entry without a
    stored task. *)
Theorem sprint_save_agrees_with_stats (id : positive) (s s' : Sprint) (w w' : World) :
  sprint_save true id s w = (inr s', w') ->
  ∃ stats,
    getSprintStats id w' = Success 200 stats
    ∧ stats_completedTasks stats = sprint_completedTasks s'
    ∧ (stats_totalTasks stats <= sprint_totalTasks s')%nat
    ∧ (NoDup (sprint_tasks s) ->
       (∀ i, i ∈ sprint_tasks s -> is_Some (tasks w !! i)) ->
       stats_totalTasks stats = sprint_totalTasks s').
Proof.
  intros [-> ->]%sprint_save_true_inv.
  set (s' := with_completedTasks _ _).
  unfold getSprintStats. cbn [sprints set_sprints]. rewrite lookup_insert_eq.
  eexists. split; [done|].
  cbn [stats_totalTasks stats_completedTasks].
  replace (sprint_tasks s') with (sprint_tasks s) by reflexivity.
  replace (findTasksIn (sprint_tasks s) (mkWorld (tasks w) (<[id:=s']> (sprints w))
             (projects w) (users w) (activities w) (activityRejects w) (clock w) (nextId w)))
    with (findTasksIn (sprint_tasks s) w) by reflexivity.
  rewrite completed_findTasksIn, length_findTasksIn.
  split; [done|]. split; [apply listed_le_length|].
  intros Hnodup Hall. cbn.
  rewrite <- (size_list_to_set (C := gset positive) _ Hnodup).
  rewrite <- (size_dom (D := gset positive)). f_equal.
  apply set_eq. intros i. rewrite elem_of_dom, elem_of_list_to_set. split.
  - intros [t Ht]. by apply map_lookup_filter_Some in Ht as [_ Hin].
  - intros Hin. destruct (Hall i Hin) as [t Ht]. exists t.
    by apply map_lookup_filter_Some.
Qed.

Lemma sprint_save_agrees_with_stats_witness :
  ∃ stats,
    getSprintStats 30 (sprint_save true 30 (sampleSprint 1 [20%positive]) world1).2
    = Success 200 stats
    ∧ stats_completedTasks stats = 1%nat
    ∧ stats_totalTasks stats = 1%nat.
Proof.
  destruct (sprint_save_agrees_with_stats 30 (sampleSprint 1 [20%positive])
              (with_completedTasks 1 (with_totalTasks 1 (sampleSprint 1 [20%positive])))
              world1 (sprint_save true 30 (sampleSprint 1 [20%positive]) world1).2)
    as (stats & Hstats & Hcompleted & _ & Htotal).
  - vm_compute; reflexivity.
  - exists stats. split; [exact Hstats|]. split; [exact Hcompleted|].
    apply Htotal.
    + apply NoDup_singleton.
    + intros i ->%list_elem_of_singleton. eexists. vm_compute; reflexivity.
Defined.

Lemma countStatuses_absent (l : list Task) (acc : gmap string JsCount) (k : string) :
  (∀ t, t ∈ l -> task_status t ≠ k) ->
  foldl (fun acc t => countKey acc (task_status t)) acc l !! k = acc !! k.
Proof.
  revert acc. induction l as [|t l IH]; intros acc Hl; [done|].
  cbn [foldl]. rewrite IH by (intros t' Ht'; apply Hl, elem_of_cons; by right).
  apply countKey_other. intros ->. apply (Hl t); [apply elem_of_cons; by left|done].
Qed.

Lemma sumCounts_comm (z1 z2 : JsCount) (y : nat) :
  match z1 with
  | Count n => (n + match z2 with Count n' => (n' + y)%nat | Junk => y end)%nat
  | Junk => match z2 with Count n' => (n' + y)%nat | Junk => y end
  end
  = match z2 with
    | Count n => (n + match z1 with Count n' => (n' + y)%nat | Junk => y end)%nat
    | Junk => match z1 with Count n' => (n' + y)%nat | Junk => y end
    end.
Proof. destruct z1, z2; lia. Qed.

Lemma sumCounts_countKey (acc : gmap string JsCount) (k : string) :
  k ∉ protoKeys ->
  map_Forall (fun _ c => c ≠ Junk) acc ->
  sumCounts (countKey acc k) = S (sumCounts acc)
  ∧ map_Forall (fun _ c => c ≠ Junk) (countKey acc k).
Proof.
  intros Hk Hacc. unfold countKey.
  rewrite bool_decide_eq_false_2 by (by apply not_proto_key).
  destruct (acc !! k) as [[n|]|] eqn:Hlook.
  - split; [|by apply map_Forall_insert_2].
    unfold sumCounts.
    rewrite (map_fold_delete_L _ _ k (Count n) acc)
      by (done || intros; apply sumCounts_comm).
    rewrite <- insert_delete_eq.
    rewrite map_fold_insert_L
      by (apply lookup_delete_eq || intros; apply sumCounts_comm).
    lia.
  - by destruct (Hacc k Junk).
  - rewrite bool_decide_eq_false_2 by done.
    split; [|by apply map_Forall_insert_2].
    unfold sumCounts. rewrite map_fold_insert_L by (done || intros; apply sumCounts_comm).
    done.
Qed.

Lemma sumCounts_countStatuses (l : list Task) (acc : gmap string JsCount) :
  plainStatuses l ->
  map_Forall (fun _ c => c ≠ Junk) acc ->
  sumCounts (foldl (fun acc t => countKey acc (task_status t)) acc l)
  = (sumCounts acc + length l)%nat.
Proof.
  revert acc. induction l as [|t l IH]; intros acc Hl Hacc; [cbn; lia|].
  cbn [foldl length].
  destruct (sumCounts_countKey acc (task_status t)) as [Hsum Hnum];
    [apply Hl, elem_of_cons; by left|done|].
  rewrite IH by (done || intros t' Ht'; apply Hl, elem_of_cons; by right).
  rewrite Hsum. lia.
Qed.

Lemma total_is_length {A} (l : list A) (n : nat) :
  foldl (fun total _ => S total) n l = (n + length l)%nat.
Proof.
  revert n. induction l as [|x l IH]; intros n; cbn [foldl length]; [lia|].
  rewrite IH. lia.
Qed.

(** X9.  [getTaskSummary] for a well-formed project id, when no task of the
    project carries a status that names a member of [Object.prototype]:
    [total] is the number of stored tasks of the project, [statusCounts]
    holds under each status the number of those tasks that carry it, and the
    counts add up to [total]. *)
Theorem getTaskSummary_total (w : World) (pid : positive) :
  plainStatuses (findProjectTasks pid w) ->
  ∃ total statusCounts,
    getTaskSummary (WellFormed pid) w = Success 200 (total, statusCounts)
    ∧ total = size (filter (fun it : positive * Task => task_project it.2 = pid) (tasks w))
    ∧ (∀ status, statusCounts !! status
                 = tally (withStatus status (findProjectTasks pid w)))
    ∧ sumCounts statusCounts = total.
Proof.
  intros Hplain. do 2 eexists. split; [reflexivity|].
  rewrite total_is_length. split; [|split].
  - unfold findProjectTasks. by rewrite length_fmap, length_map_to_list.
  - intros status. destruct (decide (status ∈ protoKeys)) as [Hin|Hout].
    + rewrite countStatuses_absent, lookup_empty
        by (intros t Ht Hs; apply (Hplain t Ht); by rewrite Hs).
      unfold withStatus. rewrite filter_none; [done|].
      intros t Ht Hs. apply (Hplain t Ht). by rewrite Hs.
    + rewrite countStatuses_lookup, lookup_empty by done.
      by destruct (withStatus status _).
  - rewrite sumCounts_countStatuses by (done || apply map_Forall_empty). done.
Qed.

Lemma getTaskSummary_total_witness :
  ∃ total statusCounts,
    getTaskSummary (WellFormed 1) world1 = Success 200 (total, statusCounts)
    ∧ total = 1%nat
    ∧ statusCounts !! "Done" = Some (Count 1)
    ∧ sumCounts statusCounts = total.
Proof.
  destruct (getTaskSummary_total world1 1) as (total & counts & Hr & Ht & Hc & Hs).
  - intros t Ht.
    assert (task_status t = "Done") as ->; [|apply (bool_decide_unpack _); vm_compute; reflexivity].
    revert Ht. vm_compute. intros Ht.
    apply list_elem_of_singleton in Ht. by subst t.
  - exists total, counts. split; [exact Hr|]. split; [|split; [|exact Hs]].
    + rewrite Ht. vm_compute; reflexivity.
    + rewrite Hc. vm_compute; reflexivity.
Defined.

Lemma withStatus_elem (k : string) (t : Task) (l : list Task) :
  t ∈ l -> task_status t = k -> withStatus k l ≠ 0%nat.
Proof.
  intros Ht Hk Hzero. unfold withStatus in Hzero.
  apply length_zero_iff_nil in Hzero.
  assert (t ∈ filter (fun t => task_status t = k) l) as Hin
    by (by apply list_elem_of_filter).
  rewrite Hzero in Hin. by apply elem_of_nil in Hin.
Qed.

Lemma countStatuses_proto (l : list Task) (acc : gmap string JsCount) (k : string) :
  k ∈ protoKeys ->
  acc !! k = None ∨ acc !! k = Some Junk ->
  foldl (fun acc t => countKey acc (task_status t)) acc l !! k
  = if bool_decide (k = "__proto__") then acc !! k
    else match withStatus k l with
         | O => acc !! k
         | S _ => Some Junk
         end.
Proof.
  intros Hk. revert acc. induction l as [|t l IH]; intros acc Hacc.
  { cbn. by case_bool_decide. }
  cbn [foldl]. rewrite withStatus_cons.
  destruct (decide (task_status t = k)) as [Hs|Hs].
  - rewrite (bool_decide_eq_true_2 (task_status t = k)) by done. rewrite Hs.
    destruct (decide (k = "__proto__")) as [Hp|Hp].
    + assert (countKey acc k = acc) as ->
        by (unfold countKey; by rewrite bool_decide_eq_true_2).
      rewrite IH by done. by rewrite bool_decide_eq_true_2.
    + assert (countKey acc k !! k = Some Junk) as Hjunk.
      { unfold countKey. rewrite bool_decide_eq_false_2 by done.
        destruct Hacc as [-> | ->]; [rewrite bool_decide_eq_true_2 by done|];
          apply lookup_insert_eq. }
      rewrite IH by (by right). rewrite bool_decide_eq_false_2 by done.
      rewrite Hjunk. cbn. by destruct (withStatus k l).
  - rewrite (bool_decide_eq_false_2 (task_status t = k)) by done.
    rewrite IH by (rewrite countKey_other; done).
    rewrite countKey_other by done. done.
Qed.

(** X10.  A status that names a member of [Object.prototype] is not
    counted: when a task of the project carries such a status,
    [getTaskSummary] answers with [statusCounts] holding no number under it
    (nothing at all for ['__proto__']), and [getSprintStats] does the same in
    [tasksByStatus] for a task of the sprint. *)
Theorem status_counts_lose_prototype_keys (w : World) (i : positive) (t : Task) :
  tasks w !! i = Some t ->
  task_status t ∈ protoKeys ->
  let reported := if bool_decide (task_status t = "__proto__") then None else Some Junk in
  (∃ total statusCounts,
     getTaskSummary (WellFormed (task_project t)) w = Success 200 (total, statusCounts)
     ∧ statusCounts !! task_status t = reported)
  ∧ (∀ sprintId sprint,
       sprints w !! sprintId = Some sprint ->
       i ∈ sprint_tasks sprint ->
       ∃ stats, getSprintStats sprintId w = Success 200 stats
                ∧ stats_tasksByStatus stats !! task_status t = reported).
Proof.
  intros Ht Hproto reported. split.
  - do 2 eexists. split; [reflexivity|].
    rewrite countStatuses_proto, lookup_empty by (done || by left).
    unfold reported. case_bool_decide; [done|].
    assert (t ∈ findProjectTasks (task_project t) w) as Hin.
    { unfold findProjectTasks. apply list_elem_of_fmap. exists (i, t). split; [done|].
      apply elem_of_map_to_list. by apply map_lookup_filter_Some. }
    pose proof (withStatus_elem _ _ _ Hin eq_refl).
    by destruct (withStatus _ _).
  - intros sprintId sprint Hs Hlisted. unfold getSprintStats. rewrite Hs.
    eexists. split; [reflexivity|]. cbn [stats_tasksByStatus].
    rewrite countStatuses_proto, lookup_empty by (done || by left).
    unfold reported. case_bool_decide; [done|].
    assert (t ∈ findTasksIn (sprint_tasks sprint) w) as Hin.
    { unfold findTasksIn. apply list_elem_of_fmap. exists (i, t). split; [done|].
      apply elem_of_map_to_list. by apply map_lookup_filter_Some. }
    pose proof (withStatus_elem _ _ _ Hin eq_refl).
    by destruct (withStatus _ _).
Qed.

Lemma status_counts_lose_prototype_keys_witness :
  (∃ total statusCounts,
     getTaskSummary (WellFormed 1) world9 = Success 200 (total, statusCounts)
     ∧ statusCounts !! "constructor" = Some Junk)
  ∧ ∃ stats, getSprintStats 30 world9 = Success 200 stats
             ∧ stats_tasksByStatus stats !! "constructor" = Some Junk.
Proof.
  destruct (status_counts_lose_prototype_keys world9 20
              (sampleTask "Fix login" "constructor" 1)) as [Hsummary Hstats].
  - vm_compute; reflexivity.
  - apply (bool_decide_unpack _). vm_compute; reflexivity.
  - split; [exact Hsummary|].
    apply (Hstats 30%positive (sampleSprint 1 [20%positive])).
    + vm_compute; reflexivity.
    + apply list_elem_of_singleton. reflexivity.
Defined.

(** ** Board columns: [reorderBoardColumns] and [addBoardColumn] *)

Lemma project_save_nonempty (id : positive) (p : Project) (w : World) :
  project_boardColumns p ≠ [] ->
  project_save id p w = (inr p, set_projects (insert id p) w).
Proof.
  intros Hne. unfold project_save, pre_save_defaultColumns.
  rewrite bool_decide_eq_false_2 by (intros Hlen; by apply Hne, length_zero_iff_nil).
  by unfold_db.
Qed.

Lemma findColumnIndex_Some (columnId : positive) (cols : list BoardColumn) (i : nat) :
  findColumnIndex columnId cols = Some i
  ↔ ∃ column, cols !! i = Some column ∧ col_id column = columnId
              ∧ ∀ j other, cols !! j = Some other -> (j < i)%nat -> col_id other ≠ columnId.
Proof.
  unfold findColumnIndex. split.
  - destruct (list_find _ _) as [[i' c]|] eqn:Hfind; [|done].
    intros [= <-]. apply list_find_Some in Hfind as (Hi & Hc & Hfirst). eauto.
  - intros (column & Hi & Hc & Hfirst).
    assert (list_find (fun c => col_id c = columnId) cols = Some (i, column)) as ->; [|done].
    apply list_find_Some. eauto.
Qed.

Lemma renumber_lookup (cols : list BoardColumn) (k : nat) :
  renumber cols !! k
  = (fun column => mkColumn (col_id column) (col_name column) k) <$> cols !! k.
Proof. unfold renumber. by rewrite list_lookup_imap. Qed.

Lemma columnAt_renumber (cols : list BoardColumn) (k : nat) :
  columnAt (renumber cols) k = columnAt cols k.
Proof. unfold columnAt. rewrite renumber_lookup. by destruct (cols !! k). Qed.

Lemma swapColumns_length (i j : nat) (cols : list BoardColumn) :
  length (swapColumns i j cols) = length cols.
Proof.
  unfold swapColumns. destruct (cols !! i), (cols !! j); try done.
  by rewrite !length_insert.
Qed.

Lemma swapColumns_lookup (i j k : nat) (cols : list BoardColumn) :
  (i < length cols)%nat -> (j < length cols)%nat ->
  swapColumns i j cols !! k
  = cols !! (if decide (k = j) then i else if decide (k = i) then j else k).
Proof.
  intros Hi Hj. unfold swapColumns.
  destruct (lookup_lt_is_Some_2 cols i Hi) as [ci Hci].
  destruct (lookup_lt_is_Some_2 cols j Hj) as [cj Hcj].
  rewrite Hci, Hcj. destruct (decide (k = j)) as [->|Hkj].
  - by rewrite list_lookup_insert_eq by (by rewrite length_insert).
  - rewrite list_lookup_insert_ne by done. destruct (decide (k = i)) as [->|Hki].
    + by rewrite list_lookup_insert_eq.
    + by rewrite list_lookup_insert_ne.
Qed.

Lemma reorderBoardColumns_unfold (w : World) (projectId columnId : positive)
    (direction : Direction) (project : Project) (i : nat) :
  projects w !! projectId = Some project ->
  findColumnIndex columnId (project_boardColumns project) = Some i ->
  reorderBoardColumns projectId columnId (Some direction) w
  = if decide (atEdge direction i (project_boardColumns project))
    then (Failure 400 ("Cannot move column " ++ directionName direction), w)
    else
      let stored :=
        renumber (swapColumns i (adjacent direction i) (project_boardColumns project)) in
      (Success 200 stored,
       set_projects (insert projectId (with_boardColumns stored (clock w) project)) w).
Proof.
  intros Hproj Hindex.
  assert (i < length (project_boardColumns project))%nat as Hlt.
  { apply findColumnIndex_Some in Hindex as (c & Hc & _). by eapply lookup_lt_Some. }
  unfold reorderBoardColumns, handleAsync. unfold_db. rewrite Hproj, Hindex.
  destruct (decide (atEdge direction i (project_boardColumns project))) as [Hedge|Hedge].
  - assert (bool_decide (direction = up) && bool_decide (i = 0%nat)
            || bool_decide (direction = down)
               && bool_decide (i = (length (project_boardColumns project) - 1)%nat)
            = true) as ->; [|done].
    destruct Hedge as [[-> ->]|[-> Hlast]]; [done|].
    by rewrite (bool_decide_eq_true_2 _ Hlast).
  - assert (bool_decide (direction = up) && bool_decide (i = 0%nat)
            || bool_decide (direction = down)
               && bool_decide (i = (length (project_boardColumns project) - 1)%nat)
            = false) as ->.
    { apply not_true_is_false. intros Hcond. apply Hedge. unfold atEdge.
      apply orb_true_iff in Hcond as [Hcond|Hcond];
        apply andb_true_iff in Hcond as [Hd Hi];
        apply bool_decide_eq_true in Hd, Hi; auto. }
    fold (adjacent direction i).
    rewrite project_save_nonempty; [done|].
    cbn [project_boardColumns with_boardColumns]. intros Hnil.
    apply (f_equal length) in Hnil.
    rewrite renumber_length, swapColumns_length in Hnil. cbn in Hnil. lia.
Qed.

(** X11.  [reorderBoardColumns] with a valid direction, on a stored project
    in which [findIndex] finds the column at position [i]: the first column
    is not moved up and the last is not moved down, the answer is 400 and the
    store is unchanged; otherwise the column and its neighbour exchange
    positions, every other column keeps its position, and the stored columns
    are numbered by position. *)
Theorem reorderBoardColumns_swaps (w : World) (projectId columnId : positive)
    (direction : Direction) (project : Project) (i : nat) :
  projects w !! projectId = Some project ->
  findColumnIndex columnId (project_boardColumns project) = Some i ->
  let cols := project_boardColumns project in
  let j := adjacent direction i in
  (atEdge direction i cols ->
     reorderBoardColumns projectId columnId (Some direction) w
     = (Failure 400 ("Cannot move column " ++ directionName direction), w))
  ∧ (¬ atEdge direction i cols ->
     ∃ stored w',
       reorderBoardColumns projectId columnId (Some direction) w = (Success 200 stored, w')
       ∧ project_boardColumns <$> projects w' !! projectId = Some stored
       ∧ (∀ other, other ≠ projectId -> projects w' !! other = projects w !! other)
       ∧ length stored = length cols
       ∧ ordersDense stored
       ∧ columnAt stored j = columnAt cols i
       ∧ columnAt stored i = columnAt cols j
       ∧ ∀ k, k ≠ i -> k ≠ j -> columnAt stored k = columnAt cols k).
Proof.
  intros Hproj Hindex cols j.
  rewrite (reorderBoardColumns_unfold w projectId columnId direction project i Hproj Hindex).
  fold cols. split; intros Hedge.
  { by rewrite decide_True. }
  rewrite decide_False by done. cbv zeta. fold j.
  assert (i < length cols)%nat as Hi.
  { apply findColumnIndex_Some in Hindex as (c & Hc & _). by eapply lookup_lt_Some. }
  assert (j < length cols)%nat as Hj.
  { unfold j, adjacent. unfold atEdge in Hedge. fold cols in Hedge.
    destruct direction; [lia|].
    destruct (decide (i = (length cols - 1)%nat)); [|lia].
    exfalso. apply Hedge. by right. }
  eexists _, _. split; [reflexivity|].
  cbn [projects set_projects]. rewrite lookup_insert_eq.
  split; [done|]. split; [by intros other Hother; rewrite lookup_insert_ne|].
  split; [by rewrite renumber_length, swapColumns_length|].
  split; [unfold ordersDense; by rewrite renumber_order, renumber_length|].
  unfold columnAt. rewrite !renumber_lookup, <- !option_fmap_compose.
  split; [|split].
  - rewrite swapColumns_lookup, decide_True by done. done.
  - rewrite swapColumns_lookup by done.
    destruct (decide (i = j)) as [Hij|Hij]; [by rewrite <- Hij|].
    by rewrite decide_True.
  - intros k Hki Hkj. rewrite renumber_lookup, <- option_fmap_compose.
    by rewrite swapColumns_lookup, !decide_False by done.
Qed.

Lemma reorderBoardColumns_swaps_witness :
  ∃ stored w',
    reorderBoardColumns 1 101 (Some down) world1 = (Success 200 stored, w')
    ∧ project_boardColumns <$> projects w' !! 1%positive = Some stored
    ∧ columnAt stored 2 = Some (101%positive, "In Progress")
    ∧ columnAt stored 1 = Some (102%positive, "In Review").
Proof.
  destruct (reorderBoardColumns_swaps world1 1 101 down sampleProject 1) as [_ Hmove].
  - vm_compute; reflexivity.
  - vm_compute; reflexivity.
  - destruct Hmove as (stored & w' & Hr & Hstored & _ & _ & _ & Hj & Hi & _).
    + intros [[Hup _]|[_ Hlast]]; [discriminate Hup|]. vm_compute in Hlast. lia.
    + exists stored, w'. split; [exact Hr|]. split; [exact Hstored|].
      split; [exact Hj|exact Hi].
Defined.

Lemma renumber_dense (cols : list BoardColumn) :
  ordersDense cols -> renumber cols = cols.
Proof.
  intros Hdense. apply list_eq. intros k. rewrite renumber_lookup.
  destruct (cols !! k) as [c|] eqn:Hk; [|done]. cbn. f_equal.
  assert ((col_order <$> cols) !! k = Some (col_order c)) as Horder
    by (by rewrite list_lookup_fmap, Hk).
  rewrite Hdense in Horder. apply lookup_seq in Horder as [Horder _].
  destruct c as [cid cname corder]. cbn in *. by rewrite Horder.
Qed.

(** X12.  Moving a column up and then down again puts every column back:
    the second answer carries the original columns numbered by position,
    which are the original columns when these were numbered by position. *)
Theorem reorder_up_then_down (w : World) (projectId columnId : positive)
    (project : Project) (i : nat) :
  projects w !! projectId = Some project ->
  findColumnIndex columnId (project_boardColumns project) = Some i ->
  i ≠ 0%nat ->
  ∃ moved w1,
    reorderBoardColumns projectId columnId (Some up) w = (Success 200 moved, w1)
    ∧ findColumnIndex columnId moved = Some (i - 1)%nat
    ∧ reorderBoardColumns projectId columnId (Some down) w1
      = (Success 200 (renumber (project_boardColumns project)),
         set_projects (insert projectId
                         (with_boardColumns (renumber (project_boardColumns project))
                                            (clock w) project)) w)
    ∧ (ordersDense (project_boardColumns project) ->
       renumber (project_boardColumns project) = project_boardColumns project).
Proof.
  intros Hproj Hindex Hpos. set (cols := project_boardColumns project).
  assert (¬ atEdge up i cols) as Hedge by (intros [[_ ?]|[? _]]; done).
  pose proof Hindex as (c & Hc & Hid & Hfirst)%findColumnIndex_Some.
  assert (i < length cols)%nat as Hi by (by eapply lookup_lt_Some).
  assert (i - 1 < length cols)%nat as Hj by lia.
  rewrite (reorderBoardColumns_unfold w projectId columnId up project i Hproj Hindex).
  rewrite decide_False by done. cbv zeta. cbn [adjacent]. fold cols.
  set (moved := renumber (swapColumns i (i - 1) cols)).
  assert (findColumnIndex columnId moved = Some (i - 1)%nat) as Hmoved.
  { apply findColumnIndex_Some. unfold moved.
    exists (mkColumn (col_id c) (col_name c) (i - 1)). split; [|split; [done|]].
    - rewrite renumber_lookup, swapColumns_lookup, decide_True by done.
      fold cols in Hc. by rewrite Hc.
    - intros k other Hk Hlt. rewrite renumber_lookup, swapColumns_lookup in Hk by done.
      rewrite !decide_False in Hk by lia.
      destruct (cols !! k) as [ck|] eqn:Hck; [|done].
      injection Hk as <-. cbn. apply (Hfirst k ck); [done|lia]. }
  eexists _, _. split; [reflexivity|]. split; [exact Hmoved|]. split.
  - rewrite (reorderBoardColumns_unfold _ projectId columnId down
               (with_boardColumns moved (clock w) project) (i - 1)%nat);
      [|by cbn; rewrite lookup_insert_eq|done].
    cbn [project_boardColumns with_boardColumns adjacent].
    assert (length moved = length cols) as Hlen
      by (unfold moved; by rewrite renumber_length, swapColumns_length).
    rewrite decide_False
      by (intros [[? _]|[_ Hlast]]; [done|rewrite Hlen in Hlast; lia]).
    cbv zeta. replace (i - 1 + 1)%nat with i by lia.
    assert (renumber (swapColumns (i - 1) i moved) = renumber cols) as ->.
    { apply list_eq. intros k. rewrite !renumber_lookup.
      rewrite swapColumns_lookup by lia. unfold moved.
      rewrite renumber_lookup, swapColumns_lookup by done.
      repeat case_decide; subst; try lia; by destruct (cols !! _). }
    f_equal. unfold set_projects. cbn. by rewrite insert_insert_eq.
  - apply renumber_dense.
Qed.

Lemma reorder_up_then_down_witness :
  ∃ moved w1,
    reorderBoardColumns 1 101 (Some up) world1 = (Success 200 moved, w1)
    ∧ reorderBoardColumns 1 101 (Some down) w1
      = (Success 200 defaultColumns,
         set_projects (insert 1%positive
                         (with_boardColumns defaultColumns (clock world1) sampleProject))
                      world1).
Proof.
  destruct (reorder_up_then_down world1 1 101 sampleProject 1)
    as (moved & w1 & Hup & _ & Hdown & Hsame).
  - vm_compute; reflexivity.
  - vm_compute; reflexivity.
  - lia.
  - exists moved, w1. split; [exact Hup|].
    rewrite Hdown, Hsame by (vm_compute; reflexivity). reflexivity.
Defined.

Lemma addBoardColumn_unfold (trim : string -> string) (projectId : positive)
    (name : string) (w : World) :
  addBoardColumn trim projectId name w
  = if bool_decide (name = "") then (Failure 400 "Column name is required", w)
    else match projects w !! projectId with
         | None => (Failure 404 "Project not found", w)
         | Some project =>
             if bool_decide (trim name = "")
             then (Failure 400 "Path `name` is required.", bump_nextId w)
             else
               let stored :=
                 (project_boardColumns project
                  ++ [mkColumn (nextId w) (trim name)
                               (length (project_boardColumns project))])%list in
               (Success 200 stored,
                set_projects (insert projectId (with_boardColumns stored (clock w) project))
                             (bump_nextId w))
         end.
Proof.
  unfold addBoardColumn, handleAsync. case_bool_decide; [done|]. unfold_db.
  destruct (projects w !! projectId) as [project|]; [|done].
  cbn [col_name clock bump_nextId]. case_bool_decide; [done|].
  rewrite project_save_nonempty; [done|].
  cbn [project_boardColumns with_boardColumns]. by destruct (project_boardColumns project).
Qed.

Lemma namesColumn_elem (status : string) (p : Project) :
  namesColumn status p = true ↔ status ∈ col_name <$> project_boardColumns p.
Proof.
  unfold namesColumn. rewrite existsb_exists, list_elem_of_fmap. split.
  - intros (c & Hc & Hname). apply bool_decide_eq_true in Hname.
    exists c. split; [done|]. by apply list_elem_of_In.
  - intros (c & -> & Hc). exists c. split; [by apply list_elem_of_In|].
    by apply bool_decide_eq_true.
Qed.

(** X13.  A column added by [addBoardColumn] is at once a status of the
    project: [getAvailableStatuses] lists the trimmed name after the former
    statuses, [createTask]'s choice of status keeps it when it is requested,
    and the new column is numbered with its position when the former ones
    were.  A name that is empty after trimming is refused by the column
    schema with 400, and the projects are left as they were. *)
Theorem addBoardColumn_adds_status (trim : string -> string) (w : World)
    (projectId : positive) (project : Project) (name : string) :
  projects w !! projectId = Some project ->
  name ≠ "" ->
  (trim name = "" ->
     ∃ message w', addBoardColumn trim projectId name w = (Failure 400 message, w')
                   ∧ projects w' = projects w)
  ∧ (trim name ≠ "" ->
     ∃ stored w' saved,
       addBoardColumn trim projectId name w = (Success 200 stored, w')
       ∧ projects w' !! projectId = Some saved
       ∧ project_boardColumns saved = stored
       ∧ getAvailableStatuses (WellFormed projectId) w'
         = Success 200 ((col_name <$> project_boardColumns project) ++ [trim name])%list
       ∧ chooseStatus (trim name) saved = trim name
       ∧ (ordersDense (project_boardColumns project) -> ordersDense stored)).
Proof.
  intros Hproj Hname. rewrite addBoardColumn_unfold, Hproj.
  rewrite bool_decide_eq_false_2 by done. split; intros Htrim.
  - rewrite bool_decide_eq_true_2 by done. by eexists _, _.
  - rewrite bool_decide_eq_false_2 by done. cbv zeta.
    eexists _, _, _. split; [reflexivity|].
    cbn [projects set_projects bump_nextId]. rewrite lookup_insert_eq.
    split; [reflexivity|]. split; [reflexivity|].
    split; [|split].
    + unfold getAvailableStatuses. cbn [projects set_projects bump_nextId].
      rewrite lookup_insert_eq.
      cbn [project_boardColumns with_boardColumns]. by rewrite fmap_app.
    + unfold chooseStatus. rewrite bool_decide_eq_false_2 by done.
      fold (namesColumn (trim name)
              (with_boardColumns
                 (project_boardColumns project
                  ++ [mkColumn (nextId w) (trim name)
                               (length (project_boardColumns project))])%list
                 (clock w) project)).
      assert (namesColumn (trim name)
                (with_boardColumns
                   (project_boardColumns project
                    ++ [mkColumn (nextId w) (trim name)
                                 (length (project_boardColumns project))])%list
                   (clock w) project) = true) as ->; [|done].
      apply namesColumn_elem. cbn [project_boardColumns with_boardColumns].
      rewrite fmap_app, elem_of_app. right. by apply list_elem_of_singleton.
    + unfold ordersDense. intros Hdense.
      rewrite fmap_app, length_app, Hdense, seq_app. cbn. done.
Qed.

Lemma addBoardColumn_adds_status_witness :
  ∃ stored w' saved,
    addBoardColumn (fun s => s) 1 "Blocked" world1 = (Success 200 stored, w')
    ∧ projects w' !! 1%positive = Some saved
    ∧ getAvailableStatuses (WellFormed 1) w'
      = Success 200 ["To Do"; "In Progress"; "In Review"; "Done"; "Blocked"]
    ∧ chooseStatus "Blocked" saved = "Blocked".
Proof.
  destruct (addBoardColumn_adds_status (fun s => s) world1 1 sampleProject "Blocked")
    as [_ Hadd].
  - vm_compute; reflexivity.
  - discriminate.
  - destruct Hadd as (stored & w' & saved & Hr & Hsaved & _ & Hstatuses & Hchoose & _).
    + discriminate.
    + exists stored, w', saved. split; [exact Hr|]. split; [exact Hsaved|].
      split; [exact Hstatuses|exact Hchoose].
Defined.

(** X14.  Removing the column that [addBoardColumn] has just added gives
    the former columns back, numbered by position, when the project had
    columns and none of them carried the new identifier. *)
Theorem add_then_remove_column (trim : string -> string) (w : World)
    (projectId : positive) (project : Project) (name : string) :
  projects w !! projectId = Some project ->
  project_boardColumns project ≠ [] ->
  (∀ column, column ∈ project_boardColumns project -> col_id column ≠ nextId w) ->
  name ≠ "" -> trim name ≠ "" ->
  ∃ added w1,
    addBoardColumn trim projectId name w = (Success 200 added, w1)
    ∧ length added = S (length (project_boardColumns project))
    ∧ removeBoardColumn projectId (nextId w) w1
      = (Success 200 (renumber (project_boardColumns project)),
         set_projects (insert projectId
                         (with_boardColumns (renumber (project_boardColumns project))
                                            (clock w) project))
                      (bump_nextId w))
    ∧ (ordersDense (project_boardColumns project) ->
       renumber (project_boardColumns project) = project_boardColumns project).
Proof.
  intros Hproj Hne Hfresh Hname Htrim. set (cols := project_boardColumns project).
  rewrite addBoardColumn_unfold, Hproj.
  rewrite !bool_decide_eq_false_2 by done. cbv zeta. fold cols.
  set (newColumn := mkColumn (nextId w) (trim name) (length cols)).
  eexists _, _. split; [reflexivity|].
  split; [rewrite length_app; cbn; lia|]. split; [|apply renumber_dense].
  assert (findColumnIndex (nextId w) (cols ++ [newColumn])%list = Some (length cols))
    as Hindex.
  { apply findColumnIndex_Some. exists newColumn. split; [|split; [done|]].
    - by rewrite lookup_app_r, Nat.sub_diag by done.
    - intros j other Hj Hlt. rewrite lookup_app_l in Hj by done.
      apply Hfresh. by eapply list_elem_of_lookup_2. }
  unfold removeBoardColumn, handleAsync. unfold_db.
  cbn [projects set_projects bump_nextId clock]. rewrite lookup_insert_eq.
  cbn [project_boardColumns with_boardColumns]. rewrite Hindex.
  assert (delete (length cols) (cols ++ [newColumn])%list = cols) as ->.
  { by rewrite delete_middle, app_nil_r. }
  rewrite project_save_nonempty.
  - cbn [project_boardColumns]. f_equal.
    unfold set_projects. cbn. by rewrite insert_insert_eq.
  - cbn [project_boardColumns with_boardColumns]. intros Hnil.
    apply (f_equal length) in Hnil. rewrite renumber_length in Hnil.
    by apply Hne, length_zero_iff_nil.
Qed.

Lemma add_then_remove_column_witness :
  ∃ added w1,
    addBoardColumn (fun s => s) 1 "Blocked" world1 = (Success 200 added, w1)
    ∧ length added = 5%nat
    ∧ removeBoardColumn 1 (nextId world1) w1
      = (Success 200 defaultColumns,
         set_projects (insert 1%positive
                         (with_boardColumns defaultColumns (clock world1) sampleProject))
                      (bump_nextId world1)).
Proof.
  destruct (add_then_remove_column (fun s => s) world1 1 sampleProject "Blocked")
    as (added & w1 & Hadd & Hlen & Hremove & Hsame).
  - vm_compute; reflexivity.
  - discriminate.
  - intros column Hin. vm_compute in Hin.
    repeat (apply elem_of_cons in Hin as [-> | Hin]; [discriminate|]).
    by apply elem_of_nil in Hin.
  - discriminate.
  - discriminate.
  - exists added, w1. split; [exact Hadd|]. split; [exact Hlen|].
    rewrite Hremove, Hsame by (vm_compute; reflexivity). reflexivity.
Defined.

Lemma boardsOk_insert (w0 w : World) (id : positive) (p : Project) :
  boardsOk w -> projects w0 = projects w ->
  project_boardColumns p ≠ [] -> ordersDense (project_boardColumns p) ->
  boardsOk (set_projects (insert id p) w0).
Proof.
  intros Hok Hsame Hne Hdense. unfold boardsOk. cbn [projects set_projects].
  rewrite Hsame. by apply map_Forall_insert_2.
Qed.

Lemma project_save_boards (id : positive) (p : Project) (w w' : World)
    (r : Error + Project) :
  project_save id p w = (r, w') ->
  ordersDense (project_boardColumns p) -> boardsOk w -> boardsOk w'.
Proof.
  unfold project_save, pre_save_defaultColumns. intros Hsave Hdense Hok.
  case_bool_decide as Hlen; unfold_db; injection Hsave as <- <-.
  - by apply (boardsOk_insert _ w).
  - apply (boardsOk_insert _ w); try done. intros Hnil. by rewrite Hnil in Hlen.
Qed.

Lemma renumber_ordersDense (cols : list BoardColumn) : ordersDense (renumber cols).
Proof. unfold ordersDense. by rewrite renumber_order, renumber_length. Qed.

(** X15.  The three column handlers keep the boards well formed: when
    every stored project has at least one column and its columns are
    numbered by position, the same holds in the store that
    [addBoardColumn], [removeBoardColumn] and [reorderBoardColumns] leave
    behind, whatever they answer. *)
Theorem column_handlers_keep_boards (w : World) :
  boardsOk w ->
  (∀ trim projectId name, boardsOk (addBoardColumn trim projectId name w).2)
  ∧ (∀ projectId columnId, boardsOk (removeBoardColumn projectId columnId w).2)
  ∧ (∀ projectId columnId direction,
       boardsOk (reorderBoardColumns projectId columnId direction w).2).
Proof.
  intros Hok. split; [|split].
  - intros trim projectId name. rewrite addBoardColumn_unfold.
    case_bool_decide; [done|].
    destruct (projects w !! projectId) as [project|] eqn:Hproj; [|done].
    case_bool_decide; [done|]. cbv zeta. cbn [snd].
    destruct (Hok projectId project Hproj) as [Hne Hdense].
    apply (boardsOk_insert _ w); [done|done|by destruct (project_boardColumns project)|].
    unfold ordersDense in *. cbn [project_boardColumns with_boardColumns].
    rewrite fmap_app, length_app, Hdense, seq_app. done.
  - intros projectId columnId. unfold removeBoardColumn, handleAsync.
    unfold bind at 1. unfold gets at 1.
    destruct (projects w !! projectId) as [project|] eqn:Hproj; [|done].
    destruct (findColumnIndex columnId (project_boardColumns project)) as [i|]; [|done].
    unfold bind at 1. unfold gets at 1. unfold bind at 1.
    destruct (project_save _ _ w) as [[e|saved] w'] eqn:Hsave.
    + assert (boardsOk w') as Hok'
        by (eapply project_save_boards; [exact Hsave|apply renumber_ordersDense|done]).
      by repeat case_bool_decide.
    + unfold ret. cbn [snd].
      eapply project_save_boards; [exact Hsave|apply renumber_ordersDense|done].
  - intros projectId columnId [direction|]; [|done].
    destruct (projects w !! projectId) as [project|] eqn:Hproj.
    + destruct (findColumnIndex columnId (project_boardColumns project)) as [i|] eqn:Hindex.
      * rewrite (reorderBoardColumns_unfold w projectId columnId direction project i)
          by done.
        case_decide; [done|]. cbv zeta. cbn [snd].
        apply (boardsOk_insert _ w); [done|done| |apply renumber_ordersDense].
        cbn [project_boardColumns with_boardColumns].
        intros Hnil. apply (f_equal length) in Hnil.
        rewrite renumber_length, swapColumns_length in Hnil.
        apply findColumnIndex_Some in Hindex as (c & Hc & _).
        apply lookup_lt_Some in Hc. cbn in Hnil. lia.
      * unfold reorderBoardColumns, handleAsync. unfold_db. by rewrite Hproj, Hindex.
    + unfold reorderBoardColumns, handleAsync. unfold_db. by rewrite Hproj.
Qed.

Lemma column_handlers_keep_boards_witness :
  boardsOk (addBoardColumn (fun s => s) 1 "Blocked" world1).2
  ∧ boardsOk (removeBoardColumn 1 101 world1).2
  ∧ boardsOk (reorderBoardColumns 1 101 (Some up) world1).2.
Proof.
  destruct (column_handlers_keep_boards world1) as (Hadd & Hremove & Hreorder).
  - apply (bool_decide_unpack _). vm_compute; reflexivity.
  - split; [apply Hadd|]. split; [apply Hremove|apply Hreorder].
Defined.

(** ** Sprint membership: [moveToSprint] *)

Lemma pre_save_sprintStats_members (modStatus modSprint : bool) (t : Task) (w : World) :
  memberLists (pre_save_sprintStats modStatus modSprint t w).2 = memberLists w.
Proof.
  unfold pre_save_sprintStats, memberLists. unfold_db.
  destruct (task_sprint t) as [sid|]; [|done].
  destruct (modStatus || modSprint); [|done].
  destruct (sprints w !! sid) as [s|] eqn:Hs; [|done].
  cbn. apply map_eq. intros k. rewrite !lookup_fmap.
  destruct (decide (k = sid)) as [->|Hk].
  - rewrite lookup_alter_eq, Hs. done.
  - by rewrite lookup_alter_ne.
Qed.

Lemma pull_members (id : positive) (m : gmap positive Sprint) :
  sprint_tasks <$> ((fun s => if bool_decide (id ∈ sprint_tasks s) then pull id s else s) <$> m)
  = filter (fun i => i ≠ id) <$> (sprint_tasks <$> m).
Proof.
  rewrite <- !map_fmap_compose. apply map_fmap_ext. intros k s _. cbn.
  case_bool_decide as Hin; [done|].
  symmetry. apply filter_all. by intros i Hi ->.
Qed.

Lemma pre_save_sprintCleared_members (modSprint : bool) (id : positive) (t : Task)
    (w : World) :
  memberLists (pre_save_sprintCleared modSprint id t w).2
  = if modSprint && bool_decide (task_sprint t = None)
    then filter (fun i => i ≠ id) <$> memberLists w
    else memberLists w.
Proof.
  unfold pre_save_sprintCleared, pullFromAllSprints, memberLists. unfold_db.
  destruct (modSprint && _); [|done]. cbn. apply pull_members.
Qed.

Lemma task_save_members (isNew modStatus modSprint : bool) (id : positive)
    (t t' : Task) (w w' : World) :
  task_save isNew modStatus modSprint id t w = (inr t', w') ->
  memberLists w'
  = if modSprint && bool_decide (task_sprint t = None)
    then filter (fun i => i ≠ id) <$> memberLists w
    else memberLists w.
Proof.
  intros Hsave. pose proof (task_save_fields _ _ _ _ _ _ _ _ Hsave) as (_ & _ & _ & _ & Hsprint).
  unfold task_save in Hsave. cbv zeta in Hsave.
  apply bind_inr in Hsave as ([] & w1 & H1 & H).
  apply pre_save_status_world in H1 as ->.
  apply bind_inr in H as (t2 & w2 & H2 & H).
  apply bind_inr in H as (t3 & w3 & H3 & H).
  apply pre_save_hierarchy_spec in H3 as [-> _].
  apply bind_inr in H as ([] & w4 & H4 & H).
  apply bind_inr in H as ([] & w5 & H5 & H).
  apply final_write_spec in H5 as [(e & [=] & _)|(_ & _ & ->)].
  unfold ret in H. injection H as <- <-.
  change (memberLists (set_tasks (insert id t3) w4)) with (memberLists w4).
  replace w4 with (pre_save_sprintCleared modSprint id t3 w2).2 by (by rewrite H4).
  rewrite pre_save_sprintCleared_members, Hsprint.
  replace w2 with (pre_save_sprintStats modStatus modSprint (pre_save_storyPoints t) w).2
    by (by rewrite H2).
  by rewrite pre_save_sprintStats_members.
Qed.

Lemma moved_members (taskId sid : positive) (w : World) :
  memberLists
    (set_sprints (alter (addToSet taskId) sid)
       (set_sprints (map_imap (fun i s' =>
          Some (if bool_decide (taskId ∈ sprint_tasks s') && bool_decide (i ≠ sid)
                then pull taskId s' else s'))) w))
  = map_imap (fun k members =>
      Some (if decide (k = sid)
            then (if decide (taskId ∈ members) then members
                  else (members ++ [taskId])%list)
            else filter (fun i => i ≠ taskId) members)) (memberLists w).
Proof.
  unfold memberLists. cbn [sprints set_sprints]. apply map_eq. intros k.
  rewrite lookup_fmap, !map_lookup_imap, lookup_fmap.
  destruct (decide (k = sid)) as [->|Hk].
  - rewrite lookup_alter_eq, map_lookup_imap.
    destruct (sprints w !! sid) as [s|]; [|done]. cbn.
    rewrite (bool_decide_eq_false_2 (sid ≠ sid)) by (intros Hne; by apply Hne).
    rewrite andb_false_r. unfold addToSet. case_bool_decide; case_decide; done.
  - rewrite lookup_alter_ne, map_lookup_imap by done.
    destruct (sprints w !! k) as [s|]; [|done]. cbn.
    rewrite (bool_decide_eq_true_2 (k ≠ sid)) by done. rewrite andb_true_r.
    case_bool_decide as Hin; [done|]. f_equal.
    symmetry. apply filter_all. by intros i Hi ->.
Qed.

Lemma moveToSprint_success (taskId : positive) (sprintId : option positive)
    (w w' : World) (t' : Task) :
  moveToSprint taskId sprintId w = (inr t', w') ->
  ∃ t w1,
    tasks w !! taskId = Some t
    ∧ tasks w1 = tasks w
    ∧ task_save false false (bool_decide (sprintId ≠ task_sprint t)) taskId
                (apply_field (FSprint sprintId) t) w1 = (inr t', w')
    ∧ match sprintId with
      | Some sid =>
          is_Some (sprints w !! sid)
          ∧ w1 = set_sprints (alter (addToSet taskId) sid)
                   (set_sprints (map_imap (fun i s' =>
                      Some (if bool_decide (taskId ∈ sprint_tasks s') && bool_decide (i ≠ sid)
                            then pull taskId s' else s'))) w)
      | None =>
          w1 = set_sprints (fmap (fun s =>
                 if bool_decide (taskId ∈ sprint_tasks s) then pull taskId s else s)) w
      end.
Proof.
  unfold moveToSprint, pullFromAllSprints.
  unfold bind at 1. unfold gets at 1.
  destruct (tasks w !! taskId) as [t|] eqn:Ht; [|by unfold_db].
  intros Hmove. apply bind_inr in Hmove as (moved & w1 & Hmoved & Hsave).
  exists t, w1. split; [reflexivity|]. destruct sprintId as [sid|].
  - revert Hmoved. unfold_db. destruct (sprints w !! sid) as [sprint|]; [|done].
    destruct (bool_decide (task_project t ≠ sprint_project sprint)); [done|].
    intros [= <- <-]. by eauto.
  - revert Hmoved. unfold_db. intros [= <- <-]. by eauto.
Qed.

Lemma filter_idemp {A} (P : A -> Prop) `{!∀ x, Decision (P x)} (l : list A) :
  filter P (filter P l) = filter P l.
Proof. apply filter_all. by intros x [? _]%list_elem_of_filter. Qed.

Lemma set_tasks_members (f : gmap positive Task -> gmap positive Task) (w : World) :
  memberLists (set_tasks f w) = memberLists w.
Proof. done. Qed.

(** X16.  A successful [moveToSprint] leaves the task in exactly the
    sprint it was moved to, and in none when it was moved to the backlog:
    the stored task carries the new sprint reference, the target sprint
    lists the task, no other sprint does, no sprint appears or disappears,
    and the other entries of every task list, like the other tasks, are as
    before. *)
Theorem moveToSprint_single_membership (w w' : World) (taskId : positive)
    (sprintId : option positive) (t' : Task) :
  moveToSprint taskId sprintId w = (inr t', w') ->
  tasks w' !! taskId = Some t'
  ∧ task_sprint t' = sprintId
  ∧ (∀ j, j ≠ taskId -> tasks w' !! j = tasks w !! j)
  ∧ dom (memberLists w') = dom (memberLists w)
  ∧ (∀ sid, sprintId = Some sid ->
       ∃ members, memberLists w' !! sid = Some members ∧ taskId ∈ members)
  ∧ (∀ k members, memberLists w' !! k = Some members ->
                  taskId ∈ members -> sprintId = Some k)
  ∧ (∀ k, filter (fun i => i ≠ taskId) <$> memberLists w' !! k
          = filter (fun i => i ≠ taskId) <$> memberLists w !! k).
Proof.
  intros (t & w1 & Ht & Htasks1 & Hsave & Hshape)%moveToSprint_success.
  pose proof (task_save_success _ _ _ _ _ _ _ _ Hsave) as (_ & _ & Htasks).
  pose proof (task_save_fields _ _ _ _ _ _ _ _ Hsave) as (_ & _ & _ & _ & Hsprint).
  pose proof (task_save_members _ _ _ _ _ _ _ _ Hsave) as Hmembers.
  replace (task_sprint (apply_field (FSprint sprintId) t)) with sprintId
    in Hsprint, Hmembers by reflexivity.
  split; [by rewrite Htasks, lookup_insert_eq|]. split; [done|].
  split; [by intros j Hj; rewrite Htasks, lookup_insert_ne, Htasks1|].
  destruct sprintId as [sid|].
  - destruct Hshape as [[s Hs] ->].
    rewrite andb_false_r, moved_members in Hmembers. rewrite Hmembers.
    assert (memberLists w !! sid = Some (sprint_tasks s)) as Hsid
      by (unfold memberLists; by rewrite lookup_fmap, Hs).
    split; [|split; [|split]].
    + apply set_eq. intros k. rewrite !elem_of_dom, map_lookup_imap.
      destruct (memberLists w !! k); cbn; split; intros [? ?]; eauto.
    + intros ? [= <-]. rewrite map_lookup_imap, Hsid. cbn.
      eexists. split; [reflexivity|]. rewrite decide_True by done.
      destruct (decide (taskId ∈ sprint_tasks s)); [done|].
      apply elem_of_app. right. by apply list_elem_of_singleton.
    + intros k members. rewrite map_lookup_imap.
      destruct (memberLists w !! k) as [l|]; [|done]. cbn. intros [= <-].
      destruct (decide (k = sid)) as [->|Hk]; [done|].
      by intros [? _]%list_elem_of_filter.
    + intros k. rewrite map_lookup_imap.
      destruct (memberLists w !! k) as [l|]; [|done]. cbn. f_equal.
      destruct (decide (k = sid)) as [->|Hk]; [|apply filter_idemp].
      destruct (decide (taskId ∈ l)); [done|].
      rewrite filter_app, (filter_none _ [taskId]), app_nil_r; [done|].
      intros i ->%list_elem_of_singleton Hne. by apply Hne.
  - rewrite Hshape in Hmembers. unfold memberLists at 2 3 in Hmembers.
    cbn [sprints set_sprints] in Hmembers. rewrite pull_members in Hmembers.
    fold (memberLists w) in Hmembers.
    assert (memberLists w' = filter (fun i => i ≠ taskId) <$> memberLists w) as ->.
    { destruct (_ && _); [|done]. rewrite Hmembers, <- map_fmap_compose.
      apply map_fmap_ext. intros k l _. apply filter_idemp. }
    split; [by rewrite dom_fmap_L|]. split; [done|]. split.
    + intros k members. rewrite lookup_fmap.
      destruct (memberLists w !! k) as [l|]; [|done]. cbn. intros [= <-].
      by intros [? _]%list_elem_of_filter.
    + intros k. rewrite lookup_fmap.
      destruct (memberLists w !! k) as [l|]; [|done]. cbn. f_equal.
      apply filter_idemp.
Qed.

Lemma moveToSprint_single_membership_witness :
  ∃ t' w',
    moveToSprint 20 (Some 30%positive) world1 = (inr t', w')
    ∧ tasks w' !! 20%positive = Some t'
    ∧ task_sprint t' = Some 30%positive
    ∧ ∃ members, memberLists w' !! 30%positive = Some members ∧ 20%positive ∈ members.
Proof.
  assert (∃ t' w', moveToSprint 20 (Some 30%positive) world1 = (inr t', w'))
    as (t' & w' & Hmove) by (eexists _, _; vm_compute; reflexivity).
  destruct (moveToSprint_single_membership world1 w' 20 (Some 30%positive) t' Hmove)
    as (Htask & Hsprint & _ & _ & Hin & _).
  exists t', w'. split; [exact Hmove|]. split; [exact Htask|].
  split; [exact Hsprint|]. by apply Hin.
Defined.

Lemma task_save_failure_members (isNew modStatus modSprint : bool) (id : positive)
    (t : Task) (w w' : World) (e : Error) :
  task_save isNew modStatus modSprint id t w = (inl e, w') ->
  task_sprint t ≠ None ->
  memberLists w' = memberLists w.
Proof.
  intros Hsave Hsprint. unfold task_save in Hsave. cbv zeta in Hsave.
  apply bind_inv in Hsave as [(e1 & H1 & _)|([] & w1 & H1 & H)].
  { by apply pre_save_status_world in H1 as ->. }
  apply pre_save_status_world in H1 as ->.
  destruct (pre_save_sprintStats_spec modStatus modSprint (pre_save_storyPoints t) w)
    as (w2' & Hstats & _).
  pose proof (pre_save_sprintStats_members modStatus modSprint (pre_save_storyPoints t) w)
    as Hm2. rewrite Hstats in Hm2. cbn [snd] in Hm2.
  apply bind_inv in H as [(e2 & H2 & _)|(t2 & w2 & H2 & H)];
    rewrite Hstats in H2; [done|]. injection H2 as <- <-.
  apply bind_inv in H as [(e3 & H3 & _)|(t3 & w3 & H3 & H)].
  { by apply pre_save_hierarchy_spec in H3 as [-> _]. }
  apply pre_save_hierarchy_spec in H3 as [-> H3]. specialize (H3 _ eq_refl).
  assert (task_sprint t3 = task_sprint t) as Ht3.
  { rewrite H3. destruct (pre_save_storyPoints_fields t) as (_ & _ & _ & _ & Hs & _).
    destruct (_ && _); cbn; exact Hs. }
  pose proof (pre_save_sprintCleared_members modSprint id t3 w2') as Hm4.
  rewrite Ht3, (bool_decide_eq_false_2 _ Hsprint), andb_false_r in Hm4.
  destruct (pre_save_sprintCleared_spec modSprint id t3 w2') as (w4' & Hcleared & _).
  rewrite Hcleared in Hm4. cbn [snd] in Hm4.
  apply bind_inv in H as [(e4 & H4 & _)|([] & w4 & H4 & H)];
    rewrite Hcleared in H4; [done|]. injection H4 as <-.
  apply bind_inv in H as [(e5 & H5 & _)|([] & w5 & H5 & H)]; [|done].
  apply final_write_spec in H5 as [(e' & _ & ->)|([=] & _)].
  by rewrite Hm4, Hm2.
Qed.

(** X17.  [moveToSprint] writes the sprint lists before it saves the task,
    and nothing undoes them: when the save is refused, the error is thrown,
    no task has changed, and the target sprint lists a task whose sprint
    reference was not set. *)
Theorem moveToSprint_refused_save_keeps_entry (w w' : World) (taskId sid : positive)
    (t : Task) (s : Sprint) (e : Error) :
  tasks w !! taskId = Some t ->
  sprints w !! sid = Some s ->
  task_project t = sprint_project s ->
  moveToSprint taskId (Some sid) w = (inl e, w') ->
  tasks w' = tasks w
  ∧ ∃ members, memberLists w' !! sid = Some members ∧ taskId ∈ members.
Proof.
  intros Ht Hs Hproject. unfold moveToSprint. unfold_db. rewrite Ht, Hs.
  rewrite bool_decide_eq_false_2 by (intros Hne; by apply Hne).
  intros Hsave.
  pose proof (task_save_failure _ _ _ _ _ _ _ _ Hsave) as Htasks.
  apply task_save_failure_members in Hsave; [|done].
  split; [exact Htasks|].
  rewrite Hsave, moved_members, map_lookup_imap.
  unfold memberLists. rewrite lookup_fmap, Hs. cbn.
  eexists. split; [reflexivity|]. rewrite decide_True by done.
  destruct (decide (taskId ∈ sprint_tasks s)); [done|].
  apply elem_of_app. right. by apply list_elem_of_singleton.
Qed.

Lemma moveToSprint_refused_save_keeps_entry_witness :
  ∃ e w',
    moveToSprint 21 (Some 30%positive) world10 = (inl e, w')
    ∧ tasks w' = tasks world10
    ∧ ∃ members, memberLists w' !! 30%positive = Some members ∧ 21%positive ∈ members.
Proof.
  assert (∃ e w', moveToSprint 21 (Some 30%positive) world10 = (inl e, w'))
    as (e & w' & Hmove) by (eexists _, _; vm_compute; reflexivity).
  exists e, w'. split; [exact Hmove|].
  apply (moveToSprint_refused_save_keeps_entry world10 w' 21 30
           (apply_field (FParentTask (Some 20%positive)) (sampleTask "Write docs" "To Do" 1))
           (sampleSprint 1 []) e).
  - vm_compute; reflexivity.
  - vm_compute; reflexivity.
  - reflexivity.
  - exact Hmove.
Defined.

(** ** The hierarchy of the stored tasks *)

Lemma pre_save_hierarchy_parentOk (t t' : Task) (w w' : World) :
  pre_save_hierarchy t w = (inr t', w') -> parentOk (tasks w) t'.
Proof.
  unfold pre_save_hierarchy, parentOk. unfold_db.
  destruct t as [n d p ty st pr sp rep a pts c par].
  destruct ty, par as [pid|]; cbn;
    repeat (case_match; simplify_eq/=); try done;
    repeat case_bool_decide; simplify_eq/=; try done; eauto.
  all: intros; simplify_eq/=; eauto.
Qed.

Lemma task_save_parentOk (isNew modStatus modSprint : bool) (id : positive)
    (t t' : Task) (w w' : World) :
  task_save isNew modStatus modSprint id t w = (inr t', w') -> parentOk (tasks w) t'.
Proof.
  intros Hsave. unfold task_save in Hsave. cbv zeta in Hsave.
  apply bind_inr in Hsave as ([] & w1 & H1 & H).
  apply pre_save_status_world in H1 as ->.
  apply bind_inr in H as (t2 & w2 & H2 & H).
  destruct (pre_save_sprintStats_spec modStatus modSprint (pre_save_storyPoints t) w)
    as (w2' & Hstats & Htasks & _).
  rewrite Hstats in H2. injection H2 as <- <-.
  apply bind_inr in H as (t3 & w3 & H3 & H).
  pose proof (pre_save_hierarchy_parentOk _ _ _ _ H3) as Hparent.
  apply bind_inr in H as ([] & w4 & H4 & H).
  apply bind_inr in H as ([] & w5 & H5 & H).
  unfold ret in H. injection H as <- <-. by rewrite <- Htasks.
Qed.

Lemma parentOk_insert (m : gmap positive Task) (id : positive) (t' t : Task) :
  (∀ old, m !! id = Some old -> task_type old = task_type t') ->
  parentOk m t -> parentOk (<[id := t']> m) t.
Proof.
  intros Hold. unfold parentOk. destruct (task_type t); try done.
  - intros Hparent pid Hpid. destruct (Hparent pid Hpid) as (p & Hp & Hty).
    destruct (decide (pid = id)) as [->|Hne].
    + exists t'. rewrite lookup_insert_eq. split; [done|]. by rewrite <- (Hold p Hp).
    + exists p. by rewrite lookup_insert_ne.
  - intros (pid & p & Hpid & Hp & Hty).
    destruct (decide (pid = id)) as [->|Hne].
    + exists id, t'. rewrite lookup_insert_eq. split; [done|]. split; [done|].
      by rewrite <- (Hold p Hp).
    + exists pid, p. by rewrite lookup_insert_ne.
Qed.

Lemma hierarchyOk_insert (m : gmap positive Task) (id : positive) (t' : Task) :
  (∀ old, m !! id = Some old -> task_type old = task_type t') ->
  hierarchyOk m -> parentOk m t' -> hierarchyOk (<[id := t']> m).
Proof.
  intros Hold Hok Hparent. unfold hierarchyOk. apply map_Forall_insert_2.
  - by apply parentOk_insert.
  - intros i t Hi. apply parentOk_insert; [done|]. by apply (Hok i).
Qed.

Lemma hierarchyOk_delete (m : gmap positive Task) (id : positive) :
  ¬ map_Exists (fun _ child => task_parentTask child = Some id) m ->
  hierarchyOk m -> hierarchyOk (delete id m).
Proof.
  intros Hchildless Hok i t Hi. apply lookup_delete_Some in Hi as [Hne Hi].
  assert (task_parentTask t ≠ Some id) as Hparent
    by (intros Hp; apply Hchildless; by exists i, t).
  pose proof (Hok i t Hi) as Ht. unfold parentOk in *.
  destruct (task_type t); try done.
  - intros pid Hpid. destruct (Ht pid Hpid) as (p & Hp & Hty).
    exists p. rewrite lookup_delete_ne by congruence. done.
  - destruct Ht as (pid & p & Hpid & Hp & Hty).
    exists pid, p. rewrite lookup_delete_ne by congruence. done.
Qed.

Lemma deleteTask_childless (user : option positive) (id : RawId) (w : World) :
  tasks (deleteTask user id w).2 = tasks w
  ∨ ∃ taskId, ¬ map_Exists (fun _ child => task_parentTask child = Some taskId) (tasks w)
              ∧ tasks (deleteTask user id w).2 = delete taskId (tasks w).
Proof.
  unfold deleteTask, catchAll.
  destruct id as [taskId|s]; cbn [validateObjectId negb castId]; [|by left].
  unfold bind, ret, gets, modify. cbv beta iota.
  destruct (tasks w !! taskId) as [t|]; [|by left].
  case_bool_decide as Hchildren; [by left|].
  rewrite logActivity_returns. cbv zeta. right. exists taskId.
  split; [done|]. by destruct (activityRejects _ _).
Qed.

Lemma moveToSprint_failure_tasks (taskId : positive) (sprintId : option positive)
    (w w' : World) (e : Error) :
  moveToSprint taskId sprintId w = (inl e, w') -> tasks w' = tasks w.
Proof.
  unfold moveToSprint, pullFromAllSprints.
  unfold bind, gets, ret, modify, throw, throwErr. cbv beta iota.
  destruct (tasks w !! taskId) as [t|]; [|by intros [= <- <-]].
  destruct sprintId as [sid|].
  - destruct (sprints w !! sid) as [sprint|]; [|by intros [= <- <-]].
    destruct (bool_decide _); [by intros [= <- <-]|].
    intros Hsave. by rewrite (task_save_failure _ _ _ _ _ _ _ _ Hsave).
  - intros Hsave. by rewrite (task_save_failure _ _ _ _ _ _ _ _ Hsave).
Qed.

(** X18.  The parent rules of the model's hooks are kept by every
    operation that saves or deletes through them: when no stored epic has a
    parent, every stored task with a parent has a stored epic as its parent
    and every stored subtask has a stored task as its parent, the same holds
    after [createTask], after [deleteTask], which refuses a task that still
    has children, and after [moveToSprint], whatever they answer. *)
Theorem hierarchy_is_kept (w : World) :
  hierarchyOk (tasks w) ->
  (∀ user body, hierarchyOk (tasks (createTask user body w).2))
  ∧ (∀ user id, hierarchyOk (tasks (deleteTask user id w).2))
  ∧ (∀ taskId sprintId, hierarchyOk (tasks (moveToSprint taskId sprintId w).2)).
Proof.
  intros Hok. split; [|split].
  - intros user body.
    destruct (createTask user body w) as [r w'] eqn:Hcreate. cbn [snd].
    apply createTask_outcome in Hcreate
      as [(code & msg & _ & ->)|(pid & projectDoc & newTask & saved & w2 & _ & _ & _
                                  & Hsave & -> & _)]; [done|].
    destruct saved as [e|t'].
    + by rewrite (task_save_failure _ _ _ _ _ _ _ _ Hsave).
    + pose proof (task_save_success _ _ _ _ _ _ _ _ Hsave) as (_ & _ & ->).
      pose proof (task_save_new_fresh _ _ _ _ _ _ _ Hsave) as Hfresh.
      apply hierarchyOk_insert; [|done|by apply (task_save_parentOk _ _ _ _ _ _ _ _ Hsave)].
      intros old Hold. by rewrite Hfresh in Hold.
  - intros user id.
    destruct (deleteTask_childless user id w) as [->|(taskId & Hchildless & ->)]; [done|].
    by apply hierarchyOk_delete.
  - intros taskId sprintId.
    destruct (moveToSprint taskId sprintId w) as [[e|t'] w'] eqn:Hmove; cbn [snd].
    + by rewrite (moveToSprint_failure_tasks _ _ _ _ _ Hmove).
    + apply moveToSprint_success in Hmove as (t & w1 & Ht & Htasks1 & Hsave & _).
      pose proof (task_save_success _ _ _ _ _ _ _ _ Hsave) as (_ & _ & ->).
      pose proof (task_save_fields _ _ _ _ _ _ _ _ Hsave) as (_ & Hty & _).
      rewrite Htasks1.
      apply hierarchyOk_insert; [|done|].
      * intros old Hold. rewrite Ht in Hold. injection Hold as <-. by rewrite Hty.
      * rewrite <- Htasks1. by apply (task_save_parentOk _ _ _ _ _ _ _ _ Hsave).
Qed.

Lemma hierarchy_is_kept_witness :
  hierarchyOk (tasks (createTask None (requestBody "Write docs" "To Do" None None) world4).2)
  ∧ hierarchyOk (tasks (deleteTask None (WellFormed 21) world4).2)
  ∧ hierarchyOk (tasks (moveToSprint 21 (Some 30%positive) world4).2).
Proof.
  destruct (hierarchy_is_kept world4) as (Hcreate & Hdelete & Hmove).
  - intros i t Hi. cbn in Hi.
    apply lookup_insert_Some in Hi as [[<- <-]|[_ Hi]]; [reflexivity|].
    apply lookup_singleton_Some in Hi as [<- <-].
    intros pid [= <-]. eexists. split; [vm_compute; reflexivity|reflexivity].
  - split; [apply Hcreate|]. split; [apply Hdelete|apply Hmove].
Defined.

(** ** The activity log *)


Lemma findByIdAndUpdate_success (id : positive) (updateData : list FieldValue)
    (w w1 : World) (updated : Task) :
  findByIdAndUpdate id updateData w = (inr (Some updated), w1) ->
  ∃ existing, tasks w !! id = Some existing
              ∧ updated = foldl (fun acc f => apply_field f acc) existing updateData
              ∧ w1 = set_tasks (insert id updated) w.
Proof.
  unfold findByIdAndUpdate. destruct (filter _ updateData); [|done]. unfold_db.
  destruct (tasks w !! id) as [existing|]; [|done].
  destruct (nameTaken _ _ _); [done|]. intros [= <- <-]. eauto.
Qed.




Lemma task_save_log (isNew modStatus modSprint : bool) (id : positive)
    (t : Task) (w w' : World) (r : Error + Task) :
  task_save isNew modStatus modSprint id t w = (r, w') ->
  activities w' = activities w ∧ clock w' = clock w
  ∧ activityRejects w' = activityRejects w.
Proof.
  intros Hsave. unfold task_save in Hsave. cbv zeta in Hsave.
  apply bind_inv in Hsave as [(e1 & H1 & _)|([] & w1 & H1 & H)].
  { by apply pre_save_status_world in H1 as ->. }
  apply pre_save_status_world in H1 as ->.
  destruct (pre_save_sprintStats_spec modStatus modSprint (pre_save_storyPoints t) w)
    as (w2' & Hstats & _ & _ & Hclock2 & _ & Hlog2 & Hrejects2 & _).
  apply bind_inv in H as [(e2 & H2 & _)|(t2 & w2 & H2 & H)];
    rewrite Hstats in H2; [done|]. injection H2 as <- <-.
  apply bind_inv in H as [(e3 & H3 & _)|(t3 & w3 & H3 & H)].
  { by apply pre_save_hierarchy_spec in H3 as [-> _]. }
  apply pre_save_hierarchy_spec in H3 as [-> _].
  destruct (pre_save_sprintCleared_spec modSprint id t3 w2')
    as (w4' & Hcleared & _ & _ & Hclock4 & _ & Hlog4 & Hrejects4 & _).
  apply bind_inv in H as [(e4 & H4 & _)|([] & w4 & H4 & H)];
    rewrite Hcleared in H4; [done|]. injection H4 as <-.
  assert (activities w4' = activities w ∧ clock w4' = clock w
          ∧ activityRejects w4' = activityRejects w) as Hframe
    by (by rewrite Hlog4, Hlog2, Hclock4, Hclock2, Hrejects4, Hrejects2).
  apply bind_inv in H as [(e5 & H5 & _)|([] & w5 & H5 & H)].
  - by apply final_write_spec in H5 as [(e' & _ & ->)|([=] & _)].
  - apply final_write_spec in H5 as [(e' & [=] & _)|(_ & _ & ->)].
    unfold ret in H. by injection H as _ <-.
Qed.

Lemma task_save_assignee (isNew modStatus modSprint : bool) (id : positive)
    (t t' : Task) (w w' : World) :
  task_save isNew modStatus modSprint id t w = (inr t', w') ->
  task_assignee t' = task_assignee t.
Proof.
  intros (-> & _)%task_save_success. cbv zeta.
  destruct (_ && _); cbn; unfold pre_save_storyPoints;
    by destruct (task_storyPoints t) as [[| |]|].
Qed.

Lemma createTask_log (user : option positive) (body : CreateTaskBody)
    (w w' : World) (r : Response (positive * Task)) :
  createTask user body w = (r, w') ->
  match r with
  | Success _ (id, t) =>
      tasks w' !! id = Some t
      ∧ activities w'
        = (activities w
           ++ [mkActivity (Some (default (task_assignee t) user)) "created" id
                          (task_project t) None None None None (clock w)])%list
  | Failure _ _ => activities w' = activities w
  end.
Proof.
  unfold createTask, catchValidation. intros H.
  destruct (body_project body) as [project|] eqn:Hp;
    [|unfold ret in H; by injection H as <- <-].
  destruct (body_assignee body) as [assignee|] eqn:Ha;
    [|unfold ret in H; by injection H as <- <-].
  destruct (_ || _); [unfold ret in H; by injection H as <- <-|].
  destruct project as [pid|s]; cbn [validateObjectId negb] in H;
    [|unfold ret in H; by injection H as <- <-].
  unfold castId at 1 in H. unfold bind at 1 2, ret at 1, gets at 1 in H.
  destruct (projects w !! pid) as [projectDoc|] eqn:Hproj;
    [|unfold ret in H; by injection H as <- <-].
  destruct assignee as [aid|s]; cbn [validateObjectId negb] in H;
    [|unfold ret in H; by injection H as <- <-].
  unfold castId at 1 in H. unfold bind at 1 2, ret at 1, gets at 1 in H.
  destruct (negb _); [unfold ret in H; by injection H as <- <-|].
  destruct (match body_reporter body with Some _ => _ | None => _ end);
    [unfold ret in H; by injection H as <- <-|].
  unfold bind at 1 in H.
  destruct (checkParent _ _ w) as [checked w1] eqn:Hcheck.
  apply checkParent_outcome in Hcheck as [-> [(code & msg & ->)|(parent & -> & Hepic)]];
    [unfold ret in H; by injection H as <- <-|].
  unfold bind at 1, newObjectId at 1 in H.
  set (newTask := mkTask _ _ _ _ _ _ _ _ _ _ _ _) in H.
  unfold bind at 1 in H.
  destruct (task_save true true false (nextId w) newTask (bump_nextId w))
    as [saved w2] eqn:Hsave.
  pose proof (task_save_log _ _ _ _ _ _ _ _ Hsave) as (Hlog & Hclock & Hrejects).
  cbn [activities clock activityRejects bump_nextId] in Hlog, Hclock, Hrejects.
  destruct saved as [e|t'].
  - by destruct (bool_decide _); injection H as <- <-.
  - pose proof (task_save_success _ _ _ _ _ _ _ _ Hsave) as (_ & _ & Htasks).
    pose proof (task_save_fields _ _ _ _ _ _ _ _ Hsave) as (_ & _ & _ & Hproject & _).
    pose proof (task_save_assignee _ _ _ _ _ _ _ _ Hsave) as Hassignee.
    unfold bind at 1 2, gets at 1, activity_save, bind, gets in H.
    destruct (activityRejects w2 _) as [e|]; cbn in H.
    + by destruct (bool_decide _); injection H as <- <-.
    + injection H as <- <-. cbn [tasks activities set_activities].
      split; [by rewrite Htasks, lookup_insert_eq|].
      by rewrite Hlog, Hclock, Hproject, Hassignee.
Qed.

Lemma logChanges_prefix (actorId id projectId : positive)
    (changes : list (FieldValue * FieldValue)) (w : World) :
  activities w `prefix_of` activities (logChanges actorId id projectId changes w).2.
Proof.
  revert w. induction changes as [|[oldValue newValue] rest IH]; intros w; [done|].
  cbn [logChanges]. unfold bind at 1, try_catch, bind at 1.
  rewrite logActivity_returns. cbv zeta.
  destruct (activityRejects w _); unfold ret at 1; [apply IH|].
  etrans; [|apply IH]. cbn. by apply prefix_app_r.
Qed.

Lemma findByIdAndUpdate_log (id : positive) (updateData : list FieldValue) (w : World) :
  activities (findByIdAndUpdate id updateData w).2 = activities w.
Proof.
  unfold findByIdAndUpdate. destruct (filter _ updateData); [|done]. unfold_db.
  destruct (tasks w !! id); [|done]. by destruct (nameTaken _ _ _).
Qed.

(** X20.  The activity log only grows.  [createTask] appends exactly one
    ['created'] entry, for the stored task, its project and the actor, when
    it answers with success, and none when it answers with a failure;
    [updateTask] and [deleteTask] leave the former entries in place and in
    order; [moveToSprint] writes no entry. *)
Theorem activity_log_only_grows (w : World) :
  (∀ user body,
     match (createTask user body w).1 with
     | Success _ (id, t) =>
         tasks (createTask user body w).2 !! id = Some t
         ∧ activities (createTask user body w).2
           = (activities w
              ++ [mkActivity (Some (default (task_assignee t) user)) "created" id
                             (task_project t) None None None None (clock w)])%list
     | Failure _ _ => activities (createTask user body w).2 = activities w
     end)
  ∧ (∀ user id updateData,
       activities w `prefix_of` activities (updateTask user id updateData w).2)
  ∧ (∀ user id, activities w `prefix_of` activities (deleteTask user id w).2)
  ∧ (∀ taskId sprintId, activities (moveToSprint taskId sprintId w).2 = activities w).
Proof.
  split; [|split; [|split]].
  - intros user body. destruct (createTask user body w) as [r w'] eqn:Hcreate.
    cbn [fst snd]. by apply (createTask_log user body w w' r).
  - intros user id updateData. rewrite updateTask_unfold.
    destruct id as [taskId|s]; [|done].
    destruct (tasks w !! taskId) as [existing|]; [|done].
    pose proof (findByIdAndUpdate_log taskId updateData w) as Hlog.
    destruct (findByIdAndUpdate taskId updateData w) as [[e|[updated|]] w1];
      cbn [snd] in *; try (by rewrite Hlog).
    rewrite <- Hlog. apply logChanges_prefix.
  - intros user id. unfold deleteTask, catchAll.
    destruct id as [taskId|s]; cbn [validateObjectId negb castId]; [|done].
    unfold bind, ret, gets, modify. cbv beta iota.
    destruct (tasks w !! taskId) as [t|]; [|done].
    destruct (bool_decide (map_Exists _ _)); [done|].
    rewrite logActivity_returns. cbv zeta.
    destruct (activityRejects _ _); cbn; [done|]. by apply prefix_app_r.
  - intros taskId sprintId. unfold moveToSprint, pullFromAllSprints.
    unfold bind, gets, ret, modify, throw, throwErr. cbv beta iota.
    destruct (tasks w !! taskId) as [t|]; [|done].
    destruct sprintId as [sid|].
    + destruct (sprints w !! sid) as [sprint|]; [|done].
      destruct (bool_decide _); [done|].
      match goal with
      | |- activities (task_save ?a ?b ?c ?d ?e ?f).2 = _ =>
          destruct (task_save a b c d e f) as [r w'] eqn:Hsave; cbn [snd];
          by apply task_save_log in Hsave as (-> & _)
      end.
    + match goal with
      | |- activities (task_save ?a ?b ?c ?d ?e ?f).2 = _ =>
          destruct (task_save a b c d e f) as [r w'] eqn:Hsave; cbn [snd];
          by apply task_save_log in Hsave as (-> & _)
      end.
Qed.

(** ** Statuses and story points of saved tasks *)

(** X21.  [save()] of a new task, or of a task whose status was modified,
    agrees with [getAvailableStatuses]: a task that is saved carries a
    status the handler lists for its project, and a task whose status is
    not listed is refused with the status error, the store unchanged. *)
Theorem task_save_status_is_available (isNew modStatus modSprint : bool)
    (id : positive) (t : Task) (w : World) :
  isNew || modStatus = true ->
  (∀ t' w', task_save isNew modStatus modSprint id t w = (inr t', w') ->
     ∃ statuses,
       getAvailableStatuses (WellFormed (task_project t')) w = Success 200 statuses
       ∧ task_status t' ∈ statuses)
  ∧ (∀ statuses,
       getAvailableStatuses (WellFormed (task_project t)) w = Success 200 statuses ->
       task_status t ∉ statuses ->
       task_save isNew modStatus modSprint id t w
       = (inl (Err "Error"
                 "Invalid status for this project. Must be one of the project board columns."),
          w)).
Proof.
  intros Hchecked. split.
  - intros t' w' Hsave.
    pose proof (task_save_fields _ _ _ _ _ _ _ _ Hsave) as (_ & _ & -> & -> & _).
    destruct (task_save_status_checked _ _ _ _ _ _ _ _ Hsave Hchecked)
      as (projectDoc & Hproj & Hnames).
    unfold getAvailableStatuses. rewrite Hproj. eexists. split; [reflexivity|].
    by apply namesColumn_elem.
  - intros statuses. unfold getAvailableStatuses.
    destruct (projects w !! task_project t) as [projectDoc|] eqn:Hproj; [|done].
    intros [= <-] Hout.
    destruct (pre_save_storyPoints_fields t) as (_ & _ & Hstatus & Hproject & _).
    unfold task_save. cbv zeta. unfold bind at 1, pre_save_status.
    rewrite Hchecked. unfold bind at 1, gets at 1. rewrite Hproject, Hproj, Hstatus.
    fold (namesColumn (task_status t) projectDoc).
    destruct (namesColumn (task_status t) projectDoc) eqn:Hnames; [|done].
    by apply namesColumn_elem in Hnames.
Qed.

Lemma task_save_status_is_available_witness :
  task_save true true false 21 (sampleTask "Write docs" "Blocked" 1) world1
  = (inl (Err "Error"
            "Invalid status for this project. Must be one of the project board columns."),
     world1).
Proof.
  destruct (task_save_status_is_available true true false 21
              (sampleTask "Write docs" "Blocked" 1) world1) as [_ Hrefused];
    [reflexivity|].
  apply (Hrefused ["To Do"; "In Progress"; "In Review"; "Done"]).
  - vm_compute; reflexivity.
  - apply (bool_decide_unpack _). vm_compute; reflexivity.
Defined.

(** ** Burndown series *)






Lemma checkParent_exists (type : option TaskType) (parentTask : option RawId)
    (w w' : World) (parent : option positive) :
  checkParent type parentTask w = (inr (inr parent), w') ->
  ∀ p, parent = Some p -> is_Some (tasks w !! p).
Proof.
  unfold checkParent, castId. unfold_db.
  destruct parentTask as [[pid|s]|]; cbn; [| |by case_bool_decide; intros [= <-]].
  - destruct (tasks w !! pid) as [parentDoc|] eqn:Hp; cbn; [|done].
    destruct (_ && _); [done|]. destruct (_ && _); [done|].
    case_bool_decide; [done|]. intros [= <- <-] p [= <-]. by rewrite Hp.
  - done.
Qed.

Lemma createTask_success (user : option positive) (body : CreateTaskBody)
    (w w' : World) (id : positive) (t : Task) :
  createTask user body w = (Success 201 (id, t), w') ->
  ∃ pid aid projectDoc reporter parent w2,
    projects w !! pid = Some projectDoc
    ∧ aid ∈ users w
    ∧ (∀ p, parent = Some p -> is_Some (tasks w !! p))
    ∧ id = nextId w
    ∧ task_save true true false (nextId w)
        (mkTask (body_name body) (body_description body)
                (default medium (body_priority body)) (default task (body_type body))
                (chooseStatus (body_status body) projectDoc) pid None reporter aid
                (body_storyPoints body) None parent)
        (bump_nextId w) = (inr t, w2)
    ∧ tasks w' = tasks w2 ∧ sprints w' = sprints w2.
Proof.
  unfold createTask, catchValidation. intros H.
  destruct (body_project body) as [project|] eqn:Hp; [|by unfold ret in H].
  destruct (body_assignee body) as [assignee|] eqn:Ha; [|by unfold ret in H].
  destruct (_ || _); [by unfold ret in H|].
  destruct project as [pid|s]; cbn [validateObjectId negb] in H; [|by unfold ret in H].
  unfold castId at 1 in H. unfold bind at 1 2, ret at 1, gets at 1 in H.
  destruct (projects w !! pid) as [projectDoc|] eqn:Hproj; [|by unfold ret in H].
  destruct assignee as [aid|s]; cbn [validateObjectId negb] in H; [|by unfold ret in H].
  unfold castId at 1 in H. unfold bind at 1 2, ret at 1, gets at 1 in H.
  destruct (negb _) eqn:Huser; [by unfold ret in H|].
  apply negb_false_iff, bool_decide_eq_true in Huser.
  destruct (match body_reporter body with Some _ => _ | None => _ end);
    [by unfold ret in H|].
  unfold bind at 1 in H.
  destruct (checkParent _ _ w) as [checked w1] eqn:Hcheck.
  pose proof Hcheck as [-> [(code & msg & ->)|(parent & -> & _)]]%checkParent_outcome;
    [by unfold ret in H|].
  pose proof (checkParent_exists _ _ _ _ _ Hcheck) as Hexists.
  unfold bind at 1, newObjectId at 1 in H.
  unfold bind at 1 in H.
  match type of H with
  | context [task_save true true false (nextId w) ?newTask (bump_nextId w)] =>
      destruct (task_save true true false (nextId w) newTask (bump_nextId w))
        as [[e|t'] w2] eqn:Hsave
  end.
  - by destruct (bool_decide _).
  - unfold bind at 1 2, gets at 1, activity_save, bind, gets in H.
    destruct (activityRejects w2 _) as [e|]; cbn in H.
    + by destruct (bool_decide _).
    + injection H as <- <- <-. eexists pid, aid, projectDoc, _, parent, w2.
      by repeat (split; [done|]).
Qed.

(** X23.  What a successful [createTask] has stored: the task is new under
    the generated identifier, its project, its assignee and its parent, if it
    has one, exist, it is in no sprint and not completed, and its story
    points are the requested ones, or the default of its type when none or
    zero were requested; the task lists of the sprints are untouched. *)
Theorem createTask_stored_task (user : option positive) (body : CreateTaskBody)
    (w w' : World) (id : positive) (t : Task) :
  createTask user body w = (Success 201 (id, t), w') ->
  id = nextId w
  ∧ tasks w !! id = None
  ∧ tasks w' = <[id := t]> (tasks w)
  ∧ is_Some (projects w !! task_project t)
  ∧ task_assignee t ∈ users w
  ∧ (∀ p, task_parentTask t = Some p -> is_Some (tasks w !! p))
  ∧ task_sprint t = None
  ∧ task_completedAt t = None
  ∧ task_type t = default task (body_type body)
  ∧ task_storyPoints t
    = Some (match body_storyPoints body with
            | Some requested => if bool_decide (requested = 0)
                                then defaultStoryPoints (task_type t) else requested
            | None => defaultStoryPoints (task_type t)
            end)
  ∧ memberLists w' = memberLists w.
Proof.
  intros (pid & aid & projectDoc & reporter & parent & w2 & Hproj & Hin & Hparent
          & -> & Hsave & Htasks & Hsprints)%createTask_success.
  pose proof (task_save_new_fresh _ _ _ _ _ _ _ Hsave) as Hfresh.
  pose proof (task_save_members _ _ _ _ _ _ _ _ Hsave) as Hmembers.
  pose proof (task_save_success _ _ _ _ _ _ _ _ Hsave) as (Ht & _ & Htasks2).
  cbn [tasks bump_nextId] in Hfresh, Htasks2.
  split; [done|]. split; [done|]. split; [by rewrite Htasks|].
  assert (memberLists w' = memberLists w) as Hlists
    by (unfold memberLists in *; by rewrite Hsprints, Hmembers).
  revert Ht. cbv zeta. unfold completedAtAfterSave, pre_save_storyPoints.
  cbn [task_storyPoints task_type task_sprint].
  destruct (body_storyPoints body) as [[|n|n]|], (body_type body) as [[]|];
    cbn; intros ->; cbn;
    repeat (split; [done || (by rewrite Hproj) || (by destruct parent) |]); done.
Qed.

Lemma createTask_stored_task_witness :
  ∃ t w',
    createTask None (requestBody "Write docs" "To Do" None None) world1
    = (Success 201 (nextId world1, t), w')
    ∧ tasks w' = <[nextId world1 := t]> (tasks world1)
    ∧ task_sprint t = None
    ∧ task_storyPoints t = Some 2.
Proof.
  assert (∃ t w', createTask None (requestBody "Write docs" "To Do" None None) world1
                  = (Success 201 (nextId world1, t), w'))
    as (t & w' & Hcreate) by (eexists _, _; vm_compute; reflexivity).
  destruct (createTask_stored_task _ _ _ _ _ _ Hcreate)
    as (_ & _ & Htasks & _ & _ & _ & Hsprint & _ & Hty & Hpoints & _).
  exists t, w'. split; [exact Hcreate|]. split; [exact Htasks|].
  split; [exact Hsprint|]. rewrite Hpoints, Hty. reflexivity.
Defined.

(** ** Frames of [deleteTask] and [updateTask] *)

(** X24.  [deleteTask] on a stored task: when another task names it as
    its parent the answer is 400 and the store is unchanged; otherwise the
    task, and only the task, is removed from the tasks, the sprints and the
    projects are left as they are, and the log grows by at most the
    ['deleted'] entry. *)
Theorem deleteTask_outcome (user : option positive) (taskId : positive)
    (t : Task) (w : World) :
  tasks w !! taskId = Some t ->
  (map_Exists (fun _ child => task_parentTask child = Some taskId) (tasks w) ->
     deleteTask user (WellFormed taskId) w
     = (Failure 400 "Cannot delete a task that has child tasks. Delete children first.", w))
  ∧ (¬ map_Exists (fun _ child => task_parentTask child = Some taskId) (tasks w) ->
     ∃ w',
       deleteTask user (WellFormed taskId) w = (Success 200 "Task deleted successfully", w')
       ∧ tasks w' = delete taskId (tasks w)
       ∧ sprints w' = sprints w
       ∧ projects w' = projects w
       ∧ (activities w' = activities w
          ∨ activities w'
            = (activities w
               ++ [mkActivity user "deleted" taskId (task_project t)
                              None None None None (clock w)])%list)).
Proof.
  intros Ht. unfold deleteTask, catchAll. cbn [validateObjectId negb castId].
  unfold bind, ret, gets, modify. cbv beta iota. rewrite Ht. split; intros Hchildren.
  - by rewrite bool_decide_eq_true_2.
  - rewrite bool_decide_eq_false_2 by done.
    rewrite logActivity_returns. cbv zeta. cbn [activityRejects set_tasks clock].
    destruct (activityRejects w _); eexists; (split; [reflexivity|]); cbn; eauto.
Qed.

Lemma deleteTask_outcome_witness :
  ∃ w',
    deleteTask None (WellFormed 21) world4 = (Success 200 "Task deleted successfully", w')
    ∧ tasks w' = delete 21%positive (tasks world4)
    ∧ sprints w' = sprints world4.
Proof.
  destruct (deleteTask_outcome None 21
              (apply_field (FParentTask (Some 20%positive)) (sampleTask "Fix login" "To Do" 1))
              world4) as [_ Hdelete].
  - vm_compute; reflexivity.
  - destruct Hdelete as (w' & Hr & Htasks & Hsprints & _).
    + intros (i & child & Hi & Hparent). cbn in Hi.
      apply lookup_insert_Some in Hi as [[<- <-]|[_ Hi]]; [discriminate Hparent|].
      apply lookup_singleton_Some in Hi as [<- <-]. discriminate Hparent.
    + exists w'. split; [exact Hr|]. split; [exact Htasks|exact Hsprints].
Defined.

Lemma field_of_apply_other (f g : FieldValue) (t : Task) :
  field_key f ≠ field_key g -> field_of f (apply_field g t) = field_of f t.
Proof. destruct f, g; cbn; intros Hkey; done. Qed.

Lemma field_of_apply_same (f g : FieldValue) (t : Task) :
  field_key f = field_key g -> field_of f (apply_field g t) = g.
Proof. destruct f, g; cbn; intros Hkey; done. Qed.

Lemma field_of_update_other (f : FieldValue) (updateData : list FieldValue) (t : Task) :
  field_key f ∉ field_key <$> updateData ->
  field_of f (foldl (fun acc g => apply_field g acc) t updateData) = field_of f t.
Proof.
  revert t. induction updateData as [|g rest IH]; intros t Hout; [done|].
  cbn [foldl]. rewrite IH.
  - apply field_of_apply_other. intros Hkey. apply Hout. cbn. rewrite Hkey.
    apply elem_of_cons. by left.
  - intros Hin. apply Hout. cbn. apply elem_of_cons. by right.
Qed.

Lemma field_of_update_same (value : FieldValue) (updateData : list FieldValue) (t : Task) :
  NoDup (field_key <$> updateData) ->
  value ∈ updateData ->
  field_of value (foldl (fun acc g => apply_field g acc) t updateData) = value.
Proof.
  revert t. induction updateData as [|g rest IH]; intros t Hkeys Hin.
  { by apply elem_of_nil in Hin. }
  cbn [fmap list_fmap] in Hkeys. apply NoDup_cons in Hkeys as [Hfresh Hrest].
  cbn [foldl]. apply elem_of_cons in Hin as [->|Hin].
  - rewrite field_of_update_other by done. by apply field_of_apply_same.
  - by apply IH.
Qed.

(** X25.  A successful [updateTask] sets exactly the body: in the stored
    task every field the body names has the body's value (the body's keys
    being distinct) and every other field has its former value, so that an
    update of the status alone moves neither [completedAt] nor the sprint
    reference; the sprints and the projects are as before. *)
Theorem updateTask_sets_exactly_the_body (user : option positive) (taskId : positive)
    (updateData : list FieldValue) (w w' : World) (existing updated : Task) :
  tasks w !! taskId = Some existing ->
  NoDup (field_key <$> updateData) ->
  updateTask user (WellFormed taskId) updateData w = (Success 200 updated, w') ->
  tasks w' !! taskId = Some updated
  ∧ (∀ value, value ∈ updateData -> field_of value updated = value)
  ∧ (∀ probe, field_key probe ∉ field_key <$> updateData ->
              field_of probe updated = field_of probe existing)
  ∧ (∀ other, other ≠ taskId -> tasks w' !! other = tasks w !! other)
  ∧ sprints w' = sprints w
  ∧ projects w' = projects w.
Proof.
  intros Hexisting Hkeys. rewrite updateTask_unfold, Hexisting.
  destruct (findByIdAndUpdate taskId updateData w) as [[e|[saved|]] w1] eqn:Hupdate;
    [by case_bool_decide|  |done].
  apply findByIdAndUpdate_success in Hupdate as (existing' & Hlook & -> & ->).
  rewrite Hexisting in Hlook. injection Hlook as <-.
  intros [= <- <-].
  destruct (logChanges_returns (actorOf user existing) taskId (task_project existing)
              (changesOf existing updateData)
              (set_tasks (insert taskId
                            (foldl (fun acc f => apply_field f acc) existing updateData)) w))
    as (w2 & Hlog & Htasks & Hsprints & Hprojects & _).
  rewrite Hlog. cbn [snd]. rewrite Htasks, Hsprints, Hprojects. cbn [tasks set_tasks].
  split; [by rewrite lookup_insert_eq|].
  split; [by intros value Hvalue; apply field_of_update_same|].
  split; [by intros probe Hprobe; apply field_of_update_other|].
  split; [by intros other Hother; rewrite lookup_insert_ne|]. done.
Qed.

Lemma updateTask_sets_exactly_the_body_witness :
  ∃ updated w',
    updateTask None (WellFormed 20) [FStatus "In Progress"] world3 = (Success 200 updated, w')
    ∧ field_of (FStatus "") updated = FStatus "In Progress"
    ∧ field_of (FCompletedAt None) updated = FCompletedAt None
    ∧ sprints w' = sprints world3.
Proof.
  assert (∃ updated w', updateTask None (WellFormed 20) [FStatus "In Progress"] world3
                        = (Success 200 updated, w'))
    as (updated & w' & Hupdate) by (eexists _, _; vm_compute; reflexivity).
  destruct (updateTask_sets_exactly_the_body None 20 [FStatus "In Progress"] world3 w'
              (apply_field (FSprint (Some 30%positive)) (sampleTask "Fix login" "To Do" 1))
              updated) as (_ & Hset & Hkept & _ & Hsprints & _).
  - vm_compute; reflexivity.
  - apply NoDup_singleton.
  - exact Hupdate.
  - exists updated, w'. split; [exact Hupdate|]. split; [|split; [|exact Hsprints]].
    + rewrite <- (Hset (FStatus "In Progress")); [reflexivity|].
      apply list_elem_of_singleton. reflexivity.
    + rewrite (Hkept (FCompletedAt None)); [reflexivity|].
      apply (bool_decide_unpack _). vm_compute; reflexivity.
Defined.

(** X26.  [deleteTask] and [getChildTasks] agree on what a child is: a
    stored task is deleted exactly when [getChildTasks] lists no task under
    it, and every task the handler lists is a stored task that names it as
    its parent. *)
Theorem deleteTask_accepts_iff_childless (user : option positive) (taskId : positive)
    (t : Task) (w : World) :
  tasks w !! taskId = Some t ->
  ∃ children,
    getChildTasks (WellFormed taskId) w = Success 200 children
    ∧ (∀ child, child ∈ children
                ↔ ∃ i, tasks w !! i = Some child ∧ task_parentTask child = Some taskId)
    ∧ (children = []
       ↔ ∃ w', deleteTask user (WellFormed taskId) w
               = (Success 200 "Task deleted successfully", w')).
Proof.
  intros Ht. eexists. split; [reflexivity|]. split.
  - intros child. rewrite list_elem_of_fmap. split.
    + intros ([i child'] & -> & Hin). apply elem_of_map_to_list in Hin.
      apply map_lookup_filter_Some in Hin as [Hi Hparent]. eauto.
    + intros (i & Hi & Hparent). exists (i, child). split; [done|].
      apply elem_of_map_to_list. by apply map_lookup_filter_Some.
  - assert (∀ l : list (positive * Task), l.*2 = [] ↔ l = []) as Hnil
      by (intros l; split; [apply fmap_nil_inv|by intros ->]).
    rewrite Hnil, map_to_list_empty_iff, map_empty_filter.
    unfold deleteTask, catchAll. cbn [validateObjectId negb castId].
    unfold bind, ret, gets, modify. cbv beta iota. rewrite Ht. split.
    + intros Hnone. rewrite bool_decide_eq_false_2.
      * rewrite logActivity_returns. cbv zeta. destruct (activityRejects _ _); eauto.
      * intros (i & child & Hi & Hparent). by apply (Hnone i child Hi).
    + intros [w' Hdelete] i child Hi Hparent. cbn in Hparent.
      rewrite bool_decide_eq_true_2 in Hdelete by (by exists i, child). done.
Qed.

Lemma deleteTask_accepts_iff_childless_witness :
  ∃ children,
    getChildTasks (WellFormed 20) world4 = Success 200 children
    ∧ children ≠ []
    ∧ ∀ w', deleteTask None (WellFormed 20) world4
            ≠ (Success 200 "Task deleted successfully", w').
Proof.
  destruct (deleteTask_accepts_iff_childless None 20
              (apply_field (FType epic) (sampleTask "Platform" "To Do" 1)) world4)
    as (children & Hr & Hin & Hiff).
  - vm_compute; reflexivity.
  - assert (children ≠ []) as Hne.
    { intros ->. eapply elem_of_nil, Hin. exists 21%positive.
      split; vm_compute; reflexivity. }
    exists children. split; [exact Hr|]. split; [exact Hne|].
    intros w' Hdelete. apply Hne, Hiff. by exists w'.
Defined.
